(** * PodcastDashboardLocal: a shallow embedding of the chart pipeline

    The four scripts of the repository are embedded as Rocq functions:

    - [scrape_apple_top100.py] and [scrape_spotify_top100.py]: the chart
      fetchers and the chart store writer;
    - [update_podcast_details.py]: the title resolver, the detail fetcher and
      the detail store writer;
    - [update_gsheet.py]: the spreadsheet publisher.

    Conventions of the embedding.

    - A decoded JSON document, and every Python value that flows through the
      scripts, is a [pyval].  Python dictionaries are association lists in
      insertion order.  JSON numbers are integers; numbers with a fraction
      are outside the model.
    - Python exceptions are values of [exn]; code that may raise returns a
      [result], and every [try]/[except] of the source is written out as a
      handler that matches on the class of the exception, clause by clause.
    - The outside world is an explicit input: an [http_outcome] for each
      request, the answers of pandas and of the spreadsheet service for each
      tab, and an oracle that tells which statements fail because of the
      database file.  The date of the day is an argument.  [time.sleep] and
      the log lines that no statement below reads are left out.
    - Strings are byte strings; [strip], [lower] and [int] act on ASCII as
      Python's do on those code points.  Text that has no UTF-8 encoding (a
      lone surrogate) is outside the model.
    - [difflib.SequenceMatcher(None, a, b).ratio()] is a parameter [ratio]
      valued in the rationals: the resolver only compares ratios with each
      other and with the threshold.  [sequence_matcher_ratio] is an instance,
      the score of difflib on strings shorter than 200 characters.
    - The SQLite file is modelled by its four tables and the constraints of
      their [CREATE TABLE] statements; see the section on the relational
      store for what is left out.

    The definitions come first, in the order of the scripts; the properties
    follow, component by component. *)

From Stdlib Require Import String Ascii ZArith QArith Lia Bool.
From stdpp Require Import gmap strings list fin_maps.

Local Open Scope string_scope.
Local Open Scope Z_scope.
Local Open Scope list_scope.

(* ===================================================================== *)
(** * Python values *)
(* ===================================================================== *)

#[local] Set Warnings "-register-all".

Inductive pyval : Type :=
| PNone
| PBool (b : bool)
| PInt (n : Z)
| PStr (s : string)
| PList (l : list pyval)
| PDict (d : list (string * pyval)).

(** The classes of exception the scripts name in their handlers, and the
    built-in ones their bodies can raise. *)
Inductive exn : Type :=
| Timeout                 (* requests.exceptions.Timeout *)
| HTTPError               (* requests.exceptions.HTTPError, from raise_for_status *)
| ConnectionError         (* any other requests.exceptions.RequestException *)
| JSONDecodeError         (* json.JSONDecodeError, from response.json() *)
| AttributeError
| TypeError
| ValueError
| KeyError
| NameError
| OverflowError           (* an integer too large for SQLite or for a float *)
| SqliteError             (* sqlite3.Error and its subclasses *)
| WorksheetNotFound       (* gspread.exceptions.WorksheetNotFound *)
| GspreadAPIError         (* gspread.exceptions.APIError *)
| OtherException.         (* any other subclass of Exception *)

Inductive result (A : Type) : Type :=
| Ok (a : A)
| Raise (e : exn).
Arguments Ok {A} a.
Arguments Raise {A} e.

Definition bind {A B : Type} (m : result A) (k : A -> result B) : result B :=
  match m with
  | Ok a => k a
  | Raise e => Raise e
  end.

Declare Scope py_scope.
Delimit Scope py_scope with py.
Notation "x <- m ;; k" := (bind m (fun x => k))
  (at level 20, m at level 99, k at level 200, only parsing) : py_scope.
Local Open Scope py_scope.

(** [bool(v)]: Python truthiness. *)
Definition truthy (v : pyval) : bool :=
  match v with
  | PNone => false
  | PBool b => b
  | PInt n => negb (n =? 0)
  | PStr s => negb (String.eqb s "")
  | PList l => match l with [] => false | _ => true end
  | PDict d => match d with [] => false | _ => true end
  end.

(** [a or b], with [b] already evaluated (it has no effect in the uses below). *)
Definition py_or (a b : pyval) : pyval := if truthy a then a else b.

Definition is_dict (v : pyval) : bool :=
  match v with PDict _ => true | _ => false end.

Definition is_list (v : pyval) : bool :=
  match v with PList _ => true | _ => false end.

Fixpoint assoc (k : string) (d : list (string * pyval)) : option pyval :=
  match d with
  | [] => None
  | (k', v) :: d' => if String.eqb k k' then Some v else assoc k d'
  end.

(** [d.get(k)] on a dictionary. *)
Definition dict_get (d : list (string * pyval)) (k : string) : pyval :=
  match assoc k d with Some v => v | None => PNone end.

(** [d.get(k, default)] on a dictionary. *)
Definition dict_get_default (d : list (string * pyval)) (k : string) (default : pyval) : pyval :=
  match assoc k d with Some v => v | None => default end.

(** [v.get(k, default)] on any value: only dictionaries have [get]. *)
Definition py_get_default (v : pyval) (k : string) (default : pyval) : result pyval :=
  match v with
  | PDict d => Ok (dict_get_default d k default)
  | _ => Raise AttributeError
  end.

Definition py_get (v : pyval) (k : string) : result pyval :=
  py_get_default v k PNone.

(** [for x in v]: the sequence a [for] loop walks.  A dictionary yields its
    keys, a string its characters; the other values are not iterable. *)
Definition py_iter (v : pyval) : result (list pyval) :=
  match v with
  | PList l => Ok l
  | PDict d => Ok (map (fun kv => PStr (fst kv)) d)
  | PStr s => Ok (map (fun c => PStr (String c "")) (list_ascii_of_string s))
  | _ => Raise TypeError
  end.

(* ===================================================================== *)
(** * Strings *)
(* ===================================================================== *)

(** The ASCII code points for which [str.isspace] holds. *)
Definition is_space (c : ascii) : bool :=
  let n := nat_of_ascii c in
  ((9 <=? n)%nat && (n <=? 13)%nat) || ((28 <=? n)%nat && (n <=? 32)%nat).

Definition lower_ascii (c : ascii) : ascii :=
  let n := nat_of_ascii c in
  if ((65 <=? n)%nat && (n <=? 90)%nat)%bool then ascii_of_nat (n + 32) else c.

Fixpoint lower (s : string) : string :=
  match s with
  | EmptyString => EmptyString
  | String c s' => String (lower_ascii c) (lower s')
  end.

Fixpoint lstrip (s : string) : string :=
  match s with
  | EmptyString => EmptyString
  | String c s' => if is_space c then lstrip s' else s
  end.

Fixpoint rstrip (s : string) : string :=
  match s with
  | EmptyString => EmptyString
  | String c s' =>
      match rstrip s' with
      | EmptyString => if is_space c then EmptyString else String c EmptyString
      | r => String c r
      end
  end.

Definition strip (s : string) : string := rstrip (lstrip s).

(** [v.strip().lower()]: only strings have [strip]. *)
Definition py_strip_lower (v : pyval) : result string :=
  match v with
  | PStr s => Ok (lower (strip s))
  | _ => Raise AttributeError
  end.

(* ===================================================================== *)
(** * HTTP *)
(* ===================================================================== *)

(** What one [requests.get] followed by [raise_for_status] and
    [response.json()] comes to: the request timed out, it failed otherwise,
    it ended (redirects followed) with an error status, one for which
    [raise_for_status] raises, its body is no JSON, or its body decodes to
    [data]. *)
Inductive http_outcome : Type :=
| TimedOut
| TransportError
| StatusError
| MalformedJSON
| Body (data : pyval).

Definition http_json (o : http_outcome) : result pyval :=
  match o with
  | TimedOut => Raise Timeout
  | TransportError => Raise ConnectionError
  | StatusError => Raise HTTPError
  | MalformedJSON => Raise JSONDecodeError
  | Body data => Ok data
  end.

(* ===================================================================== *)
(** * update_podcast_details.py: the title resolver *)
(* ===================================================================== *)

Definition SEARCH_ACCEPTANCE_THRESHOLD : Q := 90 # 100.

Definition Qltb (x y : Q) : bool := negb (Qle_bool y x).

Section Resolver.

(** [ratio a b] stands for [difflib.SequenceMatcher(None, a, b).ratio()]. *)
Variable ratio : string -> string -> Q.

(** Line 94: [res.get("title_original", "") or res.get("title", "")]. *)
Definition byterm_candidate_title (res : pyval) : result pyval :=
  title_original <- py_get_default res "title_original" (PStr "") ;;
  if truthy title_original then Ok title_original
  else py_get_default res "title" (PStr "").

(** Line 153: [feed.get("title", "")]. *)
Definition bytitle_candidate_title (feed : pyval) : result pyval :=
  py_get_default feed "title" (PStr "").

(** The [for res in results] loop of [search_byterm] (lines 93-111), from
    the state [(best_match, best_ratio)].  The [break] of the exact match
    returns without looking at [rest]. *)
Fixpoint search_byterm_loop (query_lower_stripped : string) (results : list pyval)
    (best_match : pyval) (best_ratio : Q) : result (pyval * Q) :=
  match results with
  | [] => Ok (best_match, best_ratio)
  | res :: rest =>
      candidate_title <- byterm_candidate_title res ;;
      if negb (truthy candidate_title) then
        search_byterm_loop query_lower_stripped rest best_match best_ratio
      else
        candidate_lower_stripped <- py_strip_lower candidate_title ;;
        if String.eqb query_lower_stripped candidate_lower_stripped then
          Ok (res, 1%Q)
        else
          let r := ratio query_lower_stripped candidate_lower_stripped in
          if Qltb best_ratio r then
            search_byterm_loop query_lower_stripped rest res r
          else
            search_byterm_loop query_lower_stripped rest best_match best_ratio
  end.

(** The same loop in [search_bytitle] (lines 152-170): the title is read
    from ["title"] only. *)
Fixpoint search_bytitle_loop (query_lower_stripped : string) (feeds : list pyval)
    (best_match : pyval) (best_ratio : Q) : result (pyval * Q) :=
  match feeds with
  | [] => Ok (best_match, best_ratio)
  | feed :: rest =>
      candidate_title <- bytitle_candidate_title feed ;;
      if negb (truthy candidate_title) then
        search_bytitle_loop query_lower_stripped rest best_match best_ratio
      else
        candidate_lower_stripped <- py_strip_lower candidate_title ;;
        if String.eqb query_lower_stripped candidate_lower_stripped then
          Ok (feed, 1%Q)
        else
          let r := ratio query_lower_stripped candidate_lower_stripped in
          if Qltb best_ratio r then
            search_bytitle_loop query_lower_stripped rest feed r
          else
            search_bytitle_loop query_lower_stripped rest best_match best_ratio
  end.

(** Lines 113-121 and 172-180: the final check against the threshold.
    Falling out of the [if] reaches the [return None] of the function. *)
Definition accept (best : pyval * Q) : pyval :=
  let '(best_match, best_ratio) := best in
  if truthy best_match && Qle_bool SEARCH_ACCEPTANCE_THRESHOLD best_ratio
  then best_match else PNone.

(** Line 87: [data.get("feeds") or data.get("results", [])]. *)
Definition byterm_results (data : pyval) : result pyval :=
  feeds <- py_get data "feeds" ;;
  if truthy feeds then Ok feeds
  else py_get_default data "results" (PList []).

(** The [try] block of [search_byterm], lines 83-123. *)
Definition search_byterm_try (response : http_outcome) (query : string) : result pyval :=
  data <- http_json response ;;
  results <- byterm_results data ;;
  if truthy results then
    let query_lower_stripped := lower (strip query) in
    items <- py_iter results ;;
    best <- search_byterm_loop query_lower_stripped items PNone 0%Q ;;
    Ok (accept best)
  else Ok PNone.

(** [search_byterm]: each handler (lines 125-132) logs and falls through
    to [return None]; the last one catches every [Exception]. *)
Definition search_byterm (response : http_outcome) (query : string) : pyval :=
  match search_byterm_try response query with
  | Ok r => r
  | Raise _ => PNone
  end.

(** The [try] block of [search_bytitle], lines 142-182. *)
Definition search_bytitle_try (response : http_outcome) (query : string) : result pyval :=
  data <- http_json response ;;
  feeds <- py_get_default data "feeds" (PList []) ;;
  if truthy feeds then
    let query_lower_stripped := lower (strip query) in
    items <- py_iter feeds ;;
    best <- search_bytitle_loop query_lower_stripped items PNone 0%Q ;;
    Ok (accept best)
  else Ok PNone.

Definition search_bytitle (response : http_outcome) (query : string) : pyval :=
  match search_bytitle_try response query with
  | Ok r => r
  | Raise _ => PNone
  end.

(** What [search_podcast_combined] did: which searches it ran. *)
Inductive search_path : Type :=
| ByTermOnly
| ByTermThenByTitle.

(** [search_podcast_combined] (lines 194-207).  The two arguments are the
    answers of the directory to the two searches for [query]; the by-title
    answer is only consumed when the by-term result is falsy. *)
Definition search_podcast_combined_path (byterm bytitle : http_outcome) (query : string)
    : pyval * search_path :=
  let result := search_byterm byterm query in
  if negb (truthy result) then
    let result := search_bytitle bytitle query in
    (if truthy result then result else PNone, ByTermThenByTitle)
  else
    (result, ByTermOnly).

Definition search_podcast_combined (byterm bytitle : http_outcome) (query : string) : pyval :=
  fst (search_podcast_combined_path byterm bytitle query).

End Resolver.

(** ** Vocabulary for the statements about the resolver *)

(** The title the loops compare: [Some s] when the candidate has a
    non-empty string title, which is when the loop does not [continue]. *)
Definition compared_title (candidate_title : result pyval) : option string :=
  match candidate_title with
  | Ok (PStr s) => if String.eqb s "" then None else Some s
  | _ => None
  end.

(** The loop gets past this candidate without raising: its title is falsy
    (skipped) or a string. *)
Definition scannable (candidate_title : result pyval) : bool :=
  match candidate_title with
  | Ok (PStr _) => true
  | Ok v => negb (truthy v)
  | Raise _ => false
  end.

(** The candidate's title, trimmed and lowercased, is the trimmed
    lowercased query. *)
Definition title_equals_query (query : string) (res : pyval) : bool :=
  match byterm_candidate_title res with
  | Ok (PStr s) => String.eqb (lower (strip query)) (lower (strip s))
  | _ => false
  end.

(** The same, for a candidate the loop does not skip. *)
Definition is_exact_match (query : string) (res : pyval) : bool :=
  match compared_title (byterm_candidate_title res) with
  | Some s => String.eqb (lower (strip query)) (lower (strip s))
  | None => false
  end.

(** The candidates the by-term loop walks for this answer of the
    directory; none when the [try] block fails before the loop. *)
Definition byterm_candidates (response : http_outcome) : list pyval :=
  match
    (data <- http_json response ;;
     results <- byterm_results data ;;
     if truthy results then py_iter results else Ok [])
  with
  | Ok items => items
  | Raise _ => []
  end.

(** The candidate is no exact match and its ratio to the query is below
    the threshold (candidates the loop skips have no ratio). *)
Definition below_threshold (ratio : string -> string -> Q) (query : string) (res : pyval) : bool :=
  match compared_title (byterm_candidate_title res) with
  | Some s =>
      negb (String.eqb (lower (strip query)) (lower (strip s)))
      && Qltb (ratio (lower (strip query)) (lower (strip s))) SEARCH_ACCEPTANCE_THRESHOLD
  | None => true
  end.

Definition no_title_original (feed : pyval) : Prop :=
  match feed with
  | PDict d => assoc "title_original" d = None
  | _ => True
  end.

(* ===================================================================== *)
(** * difflib's ratio on short strings *)
(* ===================================================================== *)

(** An instance of the parameter [ratio]: the Ratcliff-Obershelp score
    [2 * matches / (len a + len b)] as [difflib.SequenceMatcher] computes it
    when no character is junk (the automatic junk heuristic only applies to
    a second string of 200 characters or more). *)

Fixpoint common_prefix_len (x y : list ascii) : nat :=
  match x, y with
  | c :: x', c' :: y' => if Ascii.eqb c c' then S (common_prefix_len x' y') else O
  | _, _ => O
  end.

(** The longest block of [a] starting at its head that occurs in [b]:
    [(j, k)], the earliest [j] among the longest. *)
Fixpoint best_in_b (a b : list ascii) (j : nat) (best : nat * nat) : nat * nat :=
  match b with
  | [] => best
  | _ :: b' =>
      let k := common_prefix_len a b in
      best_in_b a b' (S j) (if (snd best <? k)%nat then (j, k) else best)
  end.

(** [find_longest_match]: [(i, j, k)] with [a[i:i+k] == b[j:j+k]], [k]
    maximal, then [i] minimal, then [j] minimal. *)
Fixpoint find_longest_match (a b : list ascii) (i : nat) (best : nat * nat * nat)
    : nat * nat * nat :=
  match a with
  | [] => best
  | _ :: a' =>
      let '(j, k) := best_in_b a b O (O, O) in
      find_longest_match a' b (S i) (if (snd best <? k)%nat then (i, j, k) else best)
  end.

(** The total size of the matching blocks. *)
Fixpoint matching_size (fuel : nat) (a b : list ascii) : nat :=
  match fuel with
  | O => O
  | S fuel' =>
      let '(i, j, k) := find_longest_match a b O (O, O, O) in
      match k with
      | O => O
      | _ =>
          (matching_size fuel' (take i a) (take j b) + k
           + matching_size fuel' (drop (i + k) a) (drop (j + k) b))%nat
      end
  end.

Definition sequence_matcher_ratio (a b : string) : Q :=
  let la := list_ascii_of_string a in
  let lb := list_ascii_of_string b in
  let total := (length la + length lb)%nat in
  match total with
  | O => 1%Q
  | _ => Z.of_nat (2 * matching_size (S (length la)) la lb) # Pos.of_nat total
  end.

(* ===================================================================== *)
(** * scrape_apple_top100.py and scrape_spotify_top100.py: the chart fetchers *)
(* ===================================================================== *)

Definition PLATFORM_NAME_APPLE : string := "Apple".
Definition PLATFORM_NAME_SPOTIFY : string := "Spotify".

(** The dictionary both fetchers append for an item (lines 86-92 of the
    Apple script, 75-82 of the Spotify script). *)
Definition chart_record (platform : string) (rank : Z) (title platform_podcast_id : pyval)
    (today : string) : list (string * pyval) :=
  [("platform", PStr platform);
   ("rank", PInt rank);
   ("title", title);
   ("platform_podcast_id", platform_podcast_id);
   ("date", PStr today)].

(** [l[:stop]]: a negative [stop] counts from the end. *)
Definition py_slice_to {A : Type} (l : list A) (stop : Z) : list A :=
  if 0 <=? stop then take (Z.to_nat stop) l
  else take (length l - Z.to_nat (- stop))%nat l.

(** The body of the [for i, pod_data in enumerate(results[:limit])] loop of
    [scrape_apple_top_podcasts] (lines 81-92), from index [i]: the records
    appended, in order. *)
Fixpoint apple_records (items : list pyval) (i : Z) (today : string)
    : list (list (string * pyval)) :=
  match items with
  | [] => []
  | pod_data :: rest =>
      match pod_data with
      | PDict d =>
          chart_record PLATFORM_NAME_APPLE (i + 1) (dict_get d "name") (dict_get d "id") today
          :: apple_records rest (i + 1) today
      | _ => apple_records rest (i + 1) today
      end
  end.

(** The [try] block of [scrape_apple_top_podcasts], lines 61-92, and the
    [return records] of line 108. *)
Definition scrape_apple_try (response : http_outcome) (limit : Z) (today : string)
    : result (list (list (string * pyval))) :=
  data <- http_json response ;;
  feed_data <- py_get data "feed" ;;
  if negb (truthy feed_data) || negb (is_dict feed_data) then Ok []
  else
    results <- py_get feed_data "results" ;;
    if negb (truthy results) || negb (is_list results) then Ok []
    else
      match results with
      | PList l => Ok (apple_records (py_slice_to l limit) 0 today)
      | _ => Ok []
      end.

(** [scrape_apple_top_podcasts]: the handlers of lines 94-106, in order. *)
Definition scrape_apple_top_podcasts (response : http_outcome) (limit : Z) (today : string)
    : result (list (list (string * pyval))) :=
  match scrape_apple_try response limit today with
  | Ok records => Ok records
  | Raise e =>
      match e with
      | Timeout => Ok []                        (* except requests.exceptions.Timeout *)
      | HTTPError | ConnectionError => Ok []    (* except requests.exceptions.RequestException *)
      | JSONDecodeError => Ok []                (* except json.JSONDecodeError *)
      | _ => Ok []                              (* except Exception *)
      end
  end.

Definition colon : ascii := ":"%char.

(** [s.split(sep)] for a one-character separator. *)
Fixpoint split_on (sep : ascii) (s : string) : list string :=
  match s with
  | EmptyString => [EmptyString]
  | String c s' =>
      if Ascii.eqb c sep then EmptyString :: split_on sep s'
      else
        match split_on sep s' with
        | h :: t => String c h :: t
        | [] => [String c EmptyString]
        end
  end.

(** [sep in s] for a one-character [sep]. *)
Fixpoint contains_char (sep : ascii) (s : string) : bool :=
  match s with
  | EmptyString => false
  | String c s' => Ascii.eqb c sep || contains_char sep s'
  end.

Definition is_colon_str (v : pyval) : bool :=
  match v with
  | PStr s => String.eqb s ":"
  | _ => false
  end.

(** [':' in v]: substring test on a string, membership in a list, key test
    on a dictionary; the other values are not containers. *)
Definition py_colon_in (v : pyval) : result bool :=
  match v with
  | PStr s => Ok (contains_char colon s)
  | PList l => Ok (existsb is_colon_str l)
  | PDict d => Ok (match assoc ":" d with Some _ => true | None => false end)
  | _ => Raise TypeError
  end.

(** [v.split(":")[-1]]: only strings have [split]. *)
Definition py_split_colon_last (v : pyval) : result pyval :=
  match v with
  | PStr s => Ok (PStr (List.last (split_on colon s) EmptyString))
  | _ => Raise AttributeError
  end.

(** Lines 72-73 of [scrape_spotify_top100]:
    [show_uri.split(":")[-1] if show_uri and ':' in show_uri else None]. *)
Definition spotify_platform_podcast_id (pod_data : list (string * pyval)) : result pyval :=
  let show_uri := dict_get_default pod_data "showUri" (PStr "") in
  if truthy show_uri then
    has_colon <- py_colon_in show_uri ;;
    if has_colon : bool then py_split_colon_last show_uri else Ok PNone
  else Ok PNone.

(** The loop of lines 67-82, from index [i]. *)
Fixpoint spotify_records (items : list pyval) (i : Z) (today : string)
    : result (list (list (string * pyval))) :=
  match items with
  | [] => Ok []
  | pod_data :: rest =>
      match pod_data with
      | PDict d =>
          platform_podcast_id <- spotify_platform_podcast_id d ;;
          records <- spotify_records rest (i + 1) today ;;
          Ok (chart_record PLATFORM_NAME_SPOTIFY (i + 1) (dict_get d "showName")
                platform_podcast_id today
              :: records)
      | _ => spotify_records rest (i + 1) today
      end
  end.

(** The [try] block of [scrape_spotify_top100], lines 54-82. *)
Definition scrape_spotify_try (response : http_outcome) (today : string)
    : result (list (list (string * pyval))) :=
  items <- http_json response ;;
  match items with
  | PList l => spotify_records (py_slice_to l 100) 0 today
  | _ => Ok []
  end.

(** [scrape_spotify_top100]: the handlers of lines 84-96, in order. *)
Definition scrape_spotify_top100 (response : http_outcome) (today : string)
    : result (list (list (string * pyval))) :=
  match scrape_spotify_try response today with
  | Ok records => Ok records
  | Raise e =>
      match e with
      | Timeout => Ok []
      | HTTPError | ConnectionError => Ok []
      | JSONDecodeError => Ok []
      | _ => Ok []
      end
  end.

(** ** Vocabulary for the statements about the fetchers *)

(** The results list of an Apple response that has the expected
    structure: an object with a [feed] object with a [results] list. *)
Definition apple_results (data : pyval) : option (list pyval) :=
  match data with
  | PDict d =>
      match dict_get d "feed" with
      | PDict f =>
          match dict_get f "results" with
          | PList l => Some l
          | _ => None
          end
      | _ => None
      end
  | _ => None
  end.

(** The items of a Spotify response that has the expected structure: a list. *)
Definition spotify_items (data : pyval) : option (list pyval) :=
  match data with
  | PList l => Some l
  | _ => None
  end.

(** A well-formed Spotify item: an object whose [showUri], when present, is
    a string or null. *)
Definition spotify_item_ok (v : pyval) : bool :=
  match v with
  | PDict d =>
      match dict_get_default d "showUri" (PStr "") with
      | PStr _ | PNone => true
      | _ => false
      end
  | _ => false
  end.

Definition ranks (records : list (list (string * pyval))) : list pyval :=
  map (fun r => dict_get r "rank") records.

(** The fetch failed before any record could be built: a transport error,
    an error status, malformed JSON, or a body without the expected
    top-level structure. *)
Definition fetch_failed (structure : pyval -> option (list pyval)) (response : http_outcome)
    : bool :=
  match response with
  | Body data => match structure data with Some _ => false | None => true end
  | _ => true
  end.

(* ===================================================================== *)
(** * update_podcast_details.py: the detail fetcher *)
(* ===================================================================== *)

(** [v[0]]: the first element of a list, the first character of a string; a
    dictionary decoded from JSON has no key [0]; the other values cannot be
    indexed.  Only used on a truthy [v]. *)
Definition py_index0 (v : pyval) : result pyval :=
  match v with
  | PList (x :: _) => Ok x
  | PStr (String c _) => Ok (PStr (String c EmptyString))
  | PDict _ => Raise KeyError
  | _ => Raise TypeError
  end.

(** Lines 301-307 of [get_latest_episode_info]: the loop over the
    episodes, from the state [(total_duration, valid_episode_count)].
    [isinstance(duration, int)] holds for integers and, [bool] being a
    subclass of [int], for booleans; [True] counts as 1. *)
Fixpoint duration_loop (items : list pyval) (total_duration valid_episode_count : Z)
    : result (Z * Z) :=
  match items with
  | [] => Ok (total_duration, valid_episode_count)
  | episode :: rest =>
      duration <- py_get episode "duration" ;;
      match duration with
      | PInt n =>
          if 0 <? n then duration_loop rest (total_duration + n) (valid_episode_count + 1)
          else duration_loop rest total_duration valid_episode_count
      | PBool true => duration_loop rest (total_duration + 1) (valid_episode_count + 1)
      | _ => duration_loop rest total_duration valid_episode_count
      end
  end.

(** ** [int(a / b)] on two positive integers *)

(** [a / b] on integers is Python's true division: the binary64 number
    nearest to the quotient, ties to even, and [OverflowError] when that
    number is beyond the range of a float; [int] then drops the fraction. *)
Definition round_half_even (n d : Z) : Z :=
  let q := n / d in
  let r := n mod d in
  if 2 * r <? d then q
  else if d <? 2 * r then q + 1
  else if Z.even q then q else q + 1.

(** The quotient scaled by [2 ^ shift], as a fraction of integers. *)
Definition float_scale (a b shift : Z) : Z * Z :=
  (a * 2 ^ Z.max 0 shift, b * 2 ^ Z.max 0 (- shift)).

(** The scaled quotient rounded to an integer of 53 bits, scaled back and
    cut to an integer. *)
Definition int_of_rounded (a b shift : Z) : result Z :=
  let m := round_half_even (fst (float_scale a b shift)) (snd (float_scale a b shift)) in
  if 0 <? shift then Ok (m / 2 ^ shift)
  else if 2 ^ 1024 <=? m * 2 ^ (- shift) then Raise OverflowError
  else Ok (m * 2 ^ (- shift)).

(** [int(a / b)] for [0 < a] and [0 < b]; [shift] is chosen so that the
    scaled quotient has 53 bits. *)
Definition py_int_truediv (a b : Z) : result Z :=
  let shift := 52 - (Z.log2 a - Z.log2 b) in
  if fst (float_scale a b shift) <? snd (float_scale a b shift) * 2 ^ 52
  then int_of_rounded a b (shift + 1)
  else int_of_rounded a b shift.

(** The [try] block of [get_latest_episode_info], lines 288-315: the pair
    [(average_duration, latest_episode_title)].  Line 310 computes
    [int(total_duration / valid_episode_count)] in floating point. *)
Definition get_latest_episode_info_try (response : http_outcome) : result (pyval * pyval) :=
  data <- http_json response ;;
  items <- py_get_default data "items" (PList []) ;;
  if negb (truthy items) then Ok (PNone, PNone)
  else
    first <- py_index0 items ;;
    latest_episode_title <- py_get first "title" ;;
    episodes <- py_iter items ;;
    counts <- duration_loop episodes 0 0 ;;
    let '(total_duration, valid_episode_count) := counts in
    if 0 <? valid_episode_count then
      average_duration <- py_int_truediv total_duration valid_episode_count ;;
      Ok (PInt average_duration, latest_episode_title)
    else
      Ok (PNone, latest_episode_title).

(** [get_latest_episode_info]: every handler (lines 317-326) falls through
    to [return None, None]. *)
Definition get_latest_episode_info (response : http_outcome) : pyval * pyval :=
  match get_latest_episode_info_try response with
  | Ok r => r
  | Raise _ => (PNone, PNone)
  end.

(** ** Vocabulary for the statements about the average duration *)

(** The duration of an episode when it is a positive integer. *)
Definition positive_duration (episode : pyval) : option Z :=
  match episode with
  | PDict d =>
      match dict_get d "duration" with
      | PInt n => if 0 <? n then Some n else None
      | _ => None
      end
  | _ => None
  end.

Definition positive_durations (episodes : list pyval) : list Z :=
  omap positive_duration episodes.

Definition sum_Z (l : list Z) : Z := foldr Z.add 0 l.

(** An episode object whose duration is not a boolean. *)
Definition episode_ok (episode : pyval) : bool :=
  match episode with
  | PDict d =>
      match dict_get d "duration" with
      | PBool _ => false
      | _ => true
      end
  | _ => false
  end.

(** What the loop adds to the total for an episode: a duration that is a
    positive integer, and 1 for the duration [True]. *)
Definition counted_duration (episode : pyval) : option Z :=
  match episode with
  | PDict d =>
      match dict_get d "duration" with
      | PInt n => if 0 <? n then Some n else None
      | PBool true => Some 1
      | _ => None
      end
  | _ => None
  end.

Definition counted_durations (episodes : list pyval) : list Z :=
  omap counted_duration episodes.

(* ===================================================================== *)
(** * The relational store *)
(* ===================================================================== *)

(** The store is the SQLite file behind the writers, at the level of the
    statements they issue and of the constraints their [CREATE TABLE]
    statements declare: [NOT NULL], [UNIQUE], [PRIMARY KEY] and, with
    [PRAGMA foreign_keys = ON], the foreign keys of [PodcastCategories] and
    their cascade.  Left out: the surrogate key of [Top100Lists], the views,
    and SQLite's conversions between column affinities, which only touch
    values of unexpected type; values are stored as bound.  An integer is
    stored when it fits in 64 bits; binding a larger one raises. *)

Inductive sqlval : Type :=
| SNull
| SInt (n : Z)
| SText (s : string).

#[global] Instance sqlval_eq_dec : EqDecision sqlval.
Proof. solve_decision. Defined.

(** The integers SQLite stores: 64 bits, signed. *)
Definition fits_int64 (n : Z) : bool := (- 2 ^ 63 <=? n) && (n <? 2 ^ 63).

(** Binding a Python value to a [?] of a statement: [sqlite3] refuses
    lists and dictionaries with a [sqlite3.Error], and an integer outside 64
    bits with [OverflowError], which is no [sqlite3.Error].  The parameters
    of a statement are bound in order, so the first one refused decides. *)
Definition bind_param (v : pyval) : result sqlval :=
  match v with
  | PNone => Ok SNull
  | PBool b => Ok (SInt (if b then 1 else 0))
  | PInt n => if fits_int64 n then Ok (SInt n) else Raise OverflowError
  | PStr s => Ok (SText s)
  | PList _ | PDict _ => Raise SqliteError
  end.

Fixpoint bind_params (vs : list pyval) : result (list sqlval) :=
  match vs with
  | [] => Ok []
  | v :: vs' =>
      b <- bind_param v ;;
      bs <- bind_params vs' ;;
      Ok (b :: bs)
  end.

(** A row of [Top100Lists], without its surrogate [id]. *)
Record chart_row : Type := {
  row_platform : sqlval;
  row_rank : sqlval;
  row_title : sqlval;
  row_platform_podcast_id : sqlval;
  row_date : sqlval
}.

(** The columns of [UNIQUE(platform, rank, date)]. *)
Definition chart_key (r : chart_row) : sqlval * sqlval * sqlval :=
  (row_platform r, row_rank r, row_date r).

(** The four tables.  [Podcasts] maps [podcast_id] to the other ten
    columns, in the order of the [INSERT]; [Categories] maps [category_id] to
    [category_name]; [PodcastCategories] is the set of its
    [(podcast_id, category_id)] primary keys. *)
Record database : Type := {
  Top100Lists : list chart_row;
  Podcasts : gmap Z (list sqlval);
  Categories : gmap Z sqlval;
  PodcastCategories : gset (Z * Z)
}.

(** [INSERT OR IGNORE INTO Top100Lists ...]: the new table and
    [cursor.rowcount].  A row that breaks [NOT NULL] or the [UNIQUE]
    constraint is skipped. *)
Definition insert_or_ignore_top100 (table : list chart_row) (row : chart_row)
    : list chart_row * Z :=
  if bool_decide (row_platform row = SNull \/ row_rank row = SNull \/ row_date row = SNull)
  then (table, 0)
  else if bool_decide (Exists (fun r => chart_key r = chart_key row) table)
  then (table, 0)
  else (table ++ [row], 1).

(* ===================================================================== *)
(** * save_chart_data_to_db (the same text in both scrapers) *)
(* ===================================================================== *)

Definition has_key (k : string) (r : list (string * pyval)) : bool :=
  match assoc k r with Some _ => true | None => false end.

(** The loop of lines 151-167 (Apple) and 138-153 (Spotify), from the
    state [(table, insert_count, ignore_count)].  A record without a required
    key is skipped; a [sqlite3.Error] of the insert is logged and the loop
    goes on without counting the record; any other exception of the insert
    leaves the loop. *)
Fixpoint save_loop (records : list (list (string * pyval))) (table : list chart_row)
    (insert_count ignore_count : Z) : result (list chart_row * Z * Z) :=
  match records with
  | [] => Ok (table, insert_count, ignore_count)
  | r :: rest =>
      if negb (has_key "platform" r && has_key "rank" r && has_key "date" r) then
        save_loop rest table insert_count ignore_count
      else
        match
          bind_params [dict_get r "platform"; dict_get r "rank"; dict_get r "title";
                       dict_get r "platform_podcast_id"; dict_get r "date"]
        with
        | Ok [platform; rank; title; platform_podcast_id; date] =>
            let '(table', rowcount) :=
              insert_or_ignore_top100 table
                {| row_platform := platform; row_rank := rank; row_title := title;
                   row_platform_podcast_id := platform_podcast_id; row_date := date |} in
            if 0 <? rowcount then save_loop rest table' (insert_count + 1) ignore_count
            else save_loop rest table' insert_count (ignore_count + 1)
        | Ok _ => save_loop rest table insert_count ignore_count
        | Raise SqliteError =>                         (* except sqlite3.Error *)
            save_loop rest table insert_count ignore_count
        | Raise e => Raise e
        end
  end.

(** What [save_chart_data_to_db] reports. *)
Inductive save_report : Type :=
| NoRecords                                    (* "No records provided to save." *)
| NoDirectory                                  (* "Database directory does not exist" *)
| Complete (insert_count ignore_count : Z).    (* "Inserted: ..., Ignored (duplicates): ..." *)

(** The store with another content of [Top100Lists]. *)
Definition with_chart_rows (db : database) (table : list chart_row) : database :=
  {| Top100Lists := table; Podcasts := Podcasts db;
     Categories := Categories db; PodcastCategories := PodcastCategories db |}.

(** [save_chart_data_to_db(records, db_path)]: [dir_exists] is
    [os.path.exists(db_dir)] and [db] the content of the file at [db_path].
    Line 149 reads [records[0]['platform']] for the log line, before the
    loop and its check of the keys: without that key it raises [KeyError],
    which no handler of the function catches.  So does an exception that
    leaves the loop: the [finally] clause closes the connection without a
    commit, which discards the rows inserted so far, and the file is as it was.
    Failures to open or to commit the file are not modelled. *)
Definition save_chart_data_to_db (records : list (list (string * pyval)))
    (dir_exists : bool) (db : database) : result (database * save_report) :=
  match records with
  | [] => Ok (db, NoRecords)
  | first_record :: _ =>
      if negb dir_exists then Ok (db, NoDirectory)
      else
        match assoc "platform" first_record with
        | None => Raise KeyError
        | Some first_platform =>
            saved <- save_loop records (Top100Lists db) 0 0 ;;
            let '(table, insert_count, ignore_count) := saved in
            Ok (with_chart_rows db table, Complete insert_count ignore_count)
        end
  end.

(** ** Vocabulary for the statements about the chart store *)

(** A record shaped as a ChartEntry: a textual platform and date, a rank
    that is an integer of 64 bits, and a title and identifier that are text
    or absent. *)
Definition is_text_or_null (v : pyval) : bool :=
  match v with
  | PStr _ | PNone => true
  | _ => false
  end.

Definition chart_entry (r : list (string * pyval)) : bool :=
  match assoc "platform" r, assoc "rank" r, assoc "date" r with
  | Some (PStr _), Some (PInt rank), Some (PStr _) =>
      fits_int64 rank
      && is_text_or_null (dict_get r "title")
      && is_text_or_null (dict_get r "platform_podcast_id")
  | _, _, _ => false
  end.

(** The [(platform, rank, date)] triple of a record, as stored. *)
Definition entry_key (r : list (string * pyval)) : sqlval * sqlval * sqlval :=
  match dict_get r "platform", dict_get r "rank", dict_get r "date" with
  | PStr p, PInt n, PStr d => (SText p, SInt n, SText d)
  | _, _, _ => (SNull, SNull, SNull)
  end.

(** The number of rows of the table with this triple. *)
Definition rows_with_key (key : sqlval * sqlval * sqlval) (table : list chart_row) : nat :=
  length (filter (fun r => chart_key r = key) table).

(** The table satisfies its [UNIQUE(platform, rank, date)] constraint. *)
Definition unique_keys (table : list chart_row) : Prop :=
  NoDup (chart_key <$> table).

(** The row a ChartEntry-shaped record is stored as. *)
Definition bound_or_null (v : pyval) : sqlval :=
  match bind_param v with Ok b => b | Raise _ => SNull end.

Definition entry_row (r : list (string * pyval)) : chart_row :=
  {| row_platform := bound_or_null (dict_get r "platform");
     row_rank := bound_or_null (dict_get r "rank");
     row_title := bound_or_null (dict_get r "title");
     row_platform_podcast_id := bound_or_null (dict_get r "platform_podcast_id");
     row_date := bound_or_null (dict_get r "date") |}.

(* ===================================================================== *)
(** * update_gsheet.py: the spreadsheet publisher *)
(* ===================================================================== *)

Definition QUERY_CONFIGS : list (string * string) :=
  [("SELECT * FROM vw_CurrentPodcastDetailsWithCategories", "Top100List");
   ("SELECT * FROM vw_NewEntries", "NewEntries");
   ("SELECT * FROM vw_PlatformOverlap", "PlatformOverlap");
   ("SELECT * FROM vw_RankChanges", "RankChanges");
   ("SELECT * FROM vw_TimeOnList", "TimeOnList")].

(** The result of a query: the column names and the rows. *)
Record dataframe : Type := {
  columns : list string;
  values : list (list sqlval)
}.

(** What the publisher meets outside itself: the setup (credentials, the
    spreadsheet, the database connection), the answer of
    [pd.read_sql_query] to each query, whether [spreadsheet.worksheet] finds
    each tab, and the exceptions [worksheet.clear] and [worksheet.update]
    raise on each tab, if any. *)
Record sheet_world : Type := {
  setup : result unit;
  read_sql_query : string -> result dataframe;
  worksheet : string -> result unit;
  clear_raises : string -> option exn;
  update_raises : string -> option exn
}.

(** [df.fillna('')] on a cell. *)
Definition fillna (v : sqlval) : sqlval :=
  match v with
  | SNull => SText ""
  | _ => v
  end.

(** Line 126: the header row followed by the data rows. *)
Definition data_to_write (df : dataframe) : list (list sqlval) :=
  map SText (columns df) :: map (map fillna) (values df).

(** What the publisher logs about a tab, and at the end. *)
Inductive sheet_event : Type :=
| Updated (worksheet_name : string)              (* info: "Successfully updated worksheet" *)
| NotFound (worksheet_name : string)             (* warning: "not found. Skipping update" *)
| TabError (worksheet_name : string) (e : exn)   (* error, from a handler of lines 146-154 *)
| CriticalError (e : exn).                       (* error, from a handler of lines 156-165 *)

(** The body of the inner [try] (lines 104-144) for one tab: the tabs
    after it, and how it ended: [Ok true] at its end, [Ok false] at the
    [continue] of the missing worksheet, [Raise e] when [e] left it. *)
Definition tab_try (w : sheet_world) (sheets : gmap string (list (list sqlval)))
    (query worksheet_name : string)
    : gmap string (list (list sqlval)) * result bool :=
  match read_sql_query w query with
  | Raise e => (sheets, Raise e)
  | Ok df =>
      match worksheet w worksheet_name with
      | Raise WorksheetNotFound => (sheets, Ok false)
      | Raise e => (sheets, Raise e)
      | Ok _ =>
          match clear_raises w worksheet_name with
          | Some e => (sheets, Raise e)
          | None =>
              let cleared := <[worksheet_name := []]> sheets in
              match update_raises w worksheet_name with
              | Some e => (cleared, Raise e)
              | None => (<[worksheet_name := data_to_write df]> cleared, Ok true)
              end
          end
      end
  end.

(** The handlers of the inner [try], lines 146-154, tried in order on an
    exception [e] that left the body.  The third clause names
    [requests.exceptions.InvalidJSONError], and the module never imports
    [requests]: evaluating that clause raises [NameError], which leaves the
    [try] statement before its last clause is reached. *)
Definition tab_handlers (worksheet_name : string) (e : exn) : result sheet_event :=
  match e with
  | SqliteError => Ok (TabError worksheet_name e)        (* except sqlite3.Error *)
  | GspreadAPIError => Ok (TabError worksheet_name e)    (* except gspread.exceptions.APIError *)
  | _ => Raise NameError                                 (* except requests.exceptions... *)
  end.

(** The [for config in query_configs] loop, lines 98-154: the tabs and the
    log when it ends, and the exception that ended it, if one did. *)
Fixpoint tabs_loop (w : sheet_world) (query_configs : list (string * string))
    (sheets : gmap string (list (list sqlval)))
    : gmap string (list (list sqlval)) * list sheet_event * option exn :=
  match query_configs with
  | [] => (sheets, [], None)
  | (query, worksheet_name) :: rest =>
      let '(sheets', ended) := tab_try w sheets query worksheet_name in
      let continue (event : sheet_event) :=
        let '(sheets'', log, raised) := tabs_loop w rest sheets' in
        (sheets'', event :: log, raised) in
      match ended with
      | Ok true => continue (Updated worksheet_name)
      | Ok false => continue (NotFound worksheet_name)
      | Raise e =>
          match tab_handlers worksheet_name e with
          | Ok event => continue event
          | Raise e' => (sheets', [], Some e')
          end
      end
  end.

(** [update_multiple_google_sheets]: the setup, the loop, and the outer
    handlers (lines 156-165), the last of which catches every [Exception]. *)
Definition update_multiple_google_sheets (w : sheet_world)
    (sheets : gmap string (list (list sqlval))) (query_configs : list (string * string))
    : gmap string (list (list sqlval)) * list sheet_event :=
  match setup w with
  | Raise e => (sheets, [CriticalError e])
  | Ok _ =>
      let '(sheets', log, raised) := tabs_loop w query_configs sheets in
      match raised with
      | None => (sheets', log)
      | Some e => (sheets', log ++ [CriticalError e])
      end
  end.

(** A run in which every tab exists and every write succeeds, and the
    query of the first configured view fails inside pandas (which raises its
    own [DatabaseError], no [sqlite3.Error]). *)
Definition first_query_fails : sheet_world :=
  {| setup := Ok ();
     read_sql_query := fun query =>
       if String.eqb query "SELECT * FROM vw_CurrentPodcastDetailsWithCategories"
       then Raise OtherException
       else Ok {| columns := ["title"]; values := [[SText "The Daily"]; [SNull]] |};
     worksheet := fun _ => Ok ();
     clear_raises := fun _ => None;
     update_raises := fun _ => None |}.

(* ===================================================================== *)
(** * update_podcast_details.py: the detail store writer *)
(* ===================================================================== *)

(** ** [int(s)] on a string *)

Definition is_digit (c : ascii) : bool :=
  let n := nat_of_ascii c in (48 <=? n)%nat && (n <=? 57)%nat.

Definition digit_value (c : ascii) : Z := Z.of_nat (nat_of_ascii c) - 48.

(** Decimal digits, with single underscores allowed between digits. *)
Fixpoint parse_digits (s : string) (acc : Z) (after_digit : bool) : option Z :=
  match s with
  | EmptyString => if after_digit then Some acc else None
  | String c s' =>
      if is_digit c then parse_digits s' (10 * acc + digit_value c) true
      else if Ascii.eqb c "_"%char then
        (if after_digit then parse_digits s' acc false else None)
      else None
  end.

(** The number of digits of a string. *)
Fixpoint count_digits (s : string) : nat :=
  match s with
  | EmptyString => O
  | String c s' => ((if is_digit c then 1 else 0) + count_digits s')%nat
  end.

(** [sys.get_int_max_str_digits()], as Python sets it. *)
Definition MAX_STR_DIGITS : nat := 4300.

(** [int(s)] on ASCII: surrounding whitespace and a sign are accepted;
    anything else raises [ValueError], and so does a string of more than 4300
    digits. *)
Definition py_int (s : string) : result Z :=
  let digits :=
    match strip s with
    | String "+"%char r => parse_digits r 0 false
    | String "-"%char r => Z.opp <$> parse_digits r 0 false
    | t => parse_digits t 0 false
    end in
  match digits with
  | Some n => if (MAX_STR_DIGITS <? count_digits s)%nat then Raise ValueError else Ok n
  | None => Raise ValueError
  end.

(** ** The statements of the writer and the connection *)

(** The statements the writer executes inside the transaction of one
    podcast, by their parameters. *)
Inductive statement : Type :=
| UpsertPodcast (feed_id : pyval)                 (* INSERT OR REPLACE INTO Podcasts *)
| DeleteLinks (feed_id : pyval)                   (* DELETE FROM PodcastCategories *)
| InsertCategory (cat_id : Z) (cat_name : pyval)  (* INSERT OR IGNORE INTO Categories *)
| InsertLink (feed_id : pyval) (cat_id : Z)       (* INSERT OR IGNORE INTO PodcastCategories *)
| Commit.                                         (* conn.commit() *)

(** [INSERT OR REPLACE INTO Podcasts] with its eleven parameters, the first
    being the [INTEGER PRIMARY KEY].  Replacing an existing row deletes it
    first, and with [PRAGMA foreign_keys = ON] the deletion cascades to the
    rows of [PodcastCategories] that reference it.  The key is never null
    (the writer skips a falsy [feed_id]); a key that is no integer is a
    datatype mismatch (SQLite would first convert a text that spells a
    number; the identifiers of the directory are integers). *)
Definition insert_or_replace_podcast (db : database) (params : list pyval) : result database :=
  bound <- bind_params params ;;
  match bound with
  | SInt podcast_id :: cols =>
      Ok {| Top100Lists := Top100Lists db;
            Podcasts := <[podcast_id := cols]> (Podcasts db);
            Categories := Categories db;
            PodcastCategories :=
              match Podcasts db !! podcast_id with
              | Some _ => filter (fun link => link.1 <> podcast_id) (PodcastCategories db)
              | None => PodcastCategories db
              end |}
  | _ => Raise SqliteError
  end.

(** [DELETE FROM PodcastCategories WHERE podcast_id = ?]. *)
Definition delete_links (db : database) (feed_id : pyval) : result database :=
  bound <- bind_param feed_id ;;
  match bound with
  | SInt podcast_id =>
      Ok {| Top100Lists := Top100Lists db;
            Podcasts := Podcasts db;
            Categories := Categories db;
            PodcastCategories :=
              filter (fun link => link.1 <> podcast_id) (PodcastCategories db) |}
  | _ => Ok db
  end.

(** The names stored in [Categories]. *)
Definition category_names (categories : gmap Z sqlval) : list sqlval :=
  (map_to_list categories).*2.

(** [INSERT OR IGNORE INTO Categories (category_id, category_name)]: the
    row is skipped when the name is null, when the identifier is taken
    ([PRIMARY KEY]) or when the name is taken ([UNIQUE]). *)
Definition insert_or_ignore_category (db : database) (cat_id : Z) (cat_name : pyval)
    : result database :=
  _ <- bind_param (PInt cat_id) ;;
  name <- bind_param cat_name ;;
  if bool_decide (name = SNull) then Ok db
  else if bool_decide (is_Some (Categories db !! cat_id)) then Ok db
  else if bool_decide (name ∈ category_names (Categories db)) then Ok db
  else
    Ok {| Top100Lists := Top100Lists db;
          Podcasts := Podcasts db;
          Categories := <[cat_id := name]> (Categories db);
          PodcastCategories := PodcastCategories db |}.

(** [INSERT OR IGNORE INTO PodcastCategories (podcast_id, category_id)]: an
    existing link is skipped ([PRIMARY KEY]); a link to a podcast or to a
    category that does not exist breaks a foreign key, which [OR IGNORE] does
    not cover: the statement raises [sqlite3.IntegrityError]. *)
Definition insert_or_ignore_link (db : database) (feed_id : pyval) (cat_id : Z)
    : result database :=
  bound <- bind_param feed_id ;;
  _ <- bind_param (PInt cat_id) ;;
  match bound with
  | SNull => Ok db
  | SInt podcast_id =>
      if bool_decide ((podcast_id, cat_id) ∈ PodcastCategories db) then Ok db
      else if bool_decide (is_Some (Podcasts db !! podcast_id)
                           /\ is_Some (Categories db !! cat_id))
      then
        Ok {| Top100Lists := Top100Lists db;
              Podcasts := Podcasts db;
              Categories := Categories db;
              PodcastCategories := {[ (podcast_id, cat_id) ]} ∪ PodcastCategories db |}
      else Raise SqliteError
  | SText _ => Raise SqliteError
  end.

(** The connection: the content of the file and the content as the open
    transaction sees it. *)
Record connection : Type := {
  committed : database;
  working : database
}.

Definition commit (c : connection) : connection :=
  {| committed := working c; working := working c |}.

Definition rollback (c : connection) : connection :=
  {| committed := committed c; working := committed c |}.

(** What the writer logs about the writes of a podcast. *)
Inductive write_event : Type :=
| DeleteError (feed_id : pyval)           (* line 487, error *)
| InvalidCategoryId (cat_id_str : string) (* line 499, warning *)
| CategoryError (cat_id_str : string)     (* line 502, error *)
| DatabaseError (feed_id : pyval)         (* line 511, error *)
| Success (feed_id : pyval).              (* line 507, info *)

(** The state of a run of [update_all_podcast_details]: the connection,
    the two counters and the log. *)
Record run : Type := {
  conn : connection;
  update_errors : Z;
  category_link_errors : Z;
  log : list write_event
}.

(** What the directory answers, and which statements fail for a reason of
    their own (a locked or full database file): [sqlite3.OperationalError], a
    [sqlite3.Error]. *)
Record world : Type := {
  search_byterm_response : string -> http_outcome;
  search_bytitle_response : string -> http_outcome;
  podcasts_byfeedid_response : pyval -> http_outcome;
  podcasts_byfeedurl_response : pyval -> http_outcome;
  episodes_byfeedid_response : pyval -> http_outcome;
  disk_fault : statement -> bool
}.

Section Writer.

Variable ratio : string -> string -> Q.
Variable w : world.

(** [cursor.execute] of a statement: the parameters are bound, which
    raises [OverflowError] before the file is touched; then the statement
    fails when the file does, otherwise it runs. *)
Definition execute (s : statement) (run_statement : result database) : result database :=
  match run_statement with
  | Raise OverflowError => Raise OverflowError
  | _ => if disk_fault w s then Raise SqliteError else run_statement
  end.

(** [get_full_podcast_details_by_feed_id] (lines 211-239): the [feed] of
    the answer when it is truthy, [None] otherwise and on every exception. *)
Definition get_full_podcast_details_by_feed_id (feed_id : pyval) : pyval :=
  match
    (data <- http_json (podcasts_byfeedid_response w feed_id) ;;
     feed <- py_get data "feed" ;;
     if truthy feed then Ok feed else Ok PNone)
  with
  | Ok r => r
  | Raise _ => PNone
  end.

(** [get_full_podcast_details_by_feed_url] (lines 241-269).  The log line
    before the [try] evaluates [feed_url[:50]], which raises for a value that
    cannot be sliced; that exception leaves the function. *)
Definition get_full_podcast_details_by_feed_url (feed_url : pyval) : result pyval :=
  match feed_url with
  | PStr _ | PList _ =>
      match
        (data <- http_json (podcasts_byfeedurl_response w feed_url) ;;
         feed <- py_get data "feed" ;;
         if truthy feed then Ok feed else Ok PNone)
      with
      | Ok r => Ok r
      | Raise _ => Ok PNone
      end
  | _ => Raise TypeError
  end.

(** The loop over [categories_dict.items()] (lines 491-502), from the state
    [(db, category_link_errors, log)]: the state when the loop ends, and the
    exception that left it, if one did.  A statement that raises changes
    nothing itself; what the statements before it wrote stays.  The handlers
    catch [ValueError] and [sqlite3.Error]; any other exception leaves the
    loop. *)
Fixpoint category_loop (feed_id : pyval) (items : list (string * pyval))
    (db : database) (category_link_errors : Z) (log : list write_event)
    : database * Z * list write_event * option exn :=
  match items with
  | [] => (db, category_link_errors, log, None)
  | (cat_id_str, cat_name) :: rest =>
      if negb (truthy (PStr cat_id_str)) || negb (truthy cat_name) then
        category_loop feed_id rest db category_link_errors log
      else
        match py_int cat_id_str with
        | Raise _ =>                                   (* except ValueError *)
            category_loop feed_id rest db (category_link_errors + 1)
              (log ++ [InvalidCategoryId cat_id_str])
        | Ok cat_id =>
            match execute (InsertCategory cat_id cat_name)
                    (insert_or_ignore_category db cat_id cat_name) with
            | Raise SqliteError =>                     (* except sqlite3.Error *)
                category_loop feed_id rest db (category_link_errors + 1)
                  (log ++ [CategoryError cat_id_str])
            | Raise e => (db, category_link_errors, log, Some e)
            | Ok db1 =>
                match execute (InsertLink feed_id cat_id)
                        (insert_or_ignore_link db1 feed_id cat_id) with
                | Raise SqliteError =>                 (* except sqlite3.Error *)
                    category_loop feed_id rest db1 (category_link_errors + 1)
                      (log ++ [CategoryError cat_id_str])
                | Raise e => (db1, category_link_errors, log, Some e)
                | Ok db2 => category_loop feed_id rest db2 category_link_errors log
                end
            end
        end
  end.

(** Lines 480-504: the deletion of the old links and the insertion of the
    new ones, with their own handlers. *)
Definition write_categories (feed_id categories_dict : pyval) (db : database)
    (category_link_errors : Z) (log : list write_event)
    : database * Z * list write_event * option exn :=
  match execute (DeleteLinks feed_id) (delete_links db feed_id) with
  | Raise SqliteError =>                               (* except sqlite3.Error *)
      (db, category_link_errors + 1, log ++ [DeleteError feed_id], None)
  | Raise e => (db, category_link_errors, log, Some e)
  | Ok db1 =>
      match categories_dict with
      | PDict (item :: items) =>
          category_loop feed_id (item :: items) db1 category_link_errors log
      | _ => (db1, category_link_errors, log, None)
      end
  end.

(** Lines 466-512: the writes for one podcast, and the exception that
    left them, if one did.  [params] are the eleven parameters of the upsert,
    [feed_id] first.  The handler of line 509 catches [sqlite3.Error]; any
    other exception leaves the loop over the titles and the function, whose
    [finally] clause closes the connection: the open transaction is
    discarded. *)
Definition write_podcast (r : run) (feed_id : pyval) (params : list pyval)
    (categories_dict : pyval) : run * option exn :=
  match execute (UpsertPodcast feed_id)
          (insert_or_replace_podcast (working (conn r)) params) with
  | Raise SqliteError =>                               (* except sqlite3.Error *)
      ({| conn := rollback (conn r);
          update_errors := update_errors r + 1;
          category_link_errors := category_link_errors r;
          log := log r ++ [DatabaseError feed_id] |}, None)
  | Raise e =>
      ({| conn := rollback (conn r);
          update_errors := update_errors r;
          category_link_errors := category_link_errors r;
          log := log r |}, Some e)
  | Ok db1 =>
      let '(db2, errors, log2, raised) :=
        write_categories feed_id categories_dict db1 (category_link_errors r) (log r) in
      let c := {| committed := committed (conn r); working := db2 |} in
      match raised with
      | Some e =>
          ({| conn := rollback c;
              update_errors := update_errors r;
              category_link_errors := errors;
              log := log2 |}, Some e)
      | None =>
          match execute Commit (Ok db2) with
          | Raise _ =>                                 (* except sqlite3.Error *)
              ({| conn := rollback c;
                  update_errors := update_errors r + 1;
                  category_link_errors := errors;
                  log := log2 ++ [DatabaseError feed_id] |}, None)
          | Ok _ =>
              ({| conn := commit c;
                  update_errors := update_errors r;
                  category_link_errors := errors;
                  log := log2 ++ [Success feed_id] |}, None)
          end
      end
  end.

(** Lines 420-462: from a title to what the writer will store, [None] when
    the title is given up before any write.  An exception here is not caught
    inside the loop. *)
Definition title_details (title : sqlval) : result (option (pyval * list pyval * pyval)) :=
  let candidate :=
    match title with
    | SText query =>
        search_podcast_combined ratio (search_byterm_response w query)
          (search_bytitle_response w query) query
    | _ => PNone
    end in
  if negb (truthy candidate) then Ok None
  else
    candidate_feed_id <- py_get candidate "id" ;;
    let by_id :=
      if truthy candidate_feed_id
      then get_full_podcast_details_by_feed_id candidate_feed_id
      else PNone in
    full_details <-
      (if negb (truthy by_id) then
         url <- py_get candidate "url" ;;
         original <- py_get candidate "originalUrl" ;;
         let feed_url_from_candidate := py_or url original in
         if truthy feed_url_from_candidate
         then get_full_podcast_details_by_feed_url feed_url_from_candidate
         else Ok by_id
       else Ok by_id) ;;
    if negb (truthy full_details) then Ok None
    else
      feed_id <- py_get full_details "id" ;;
      if negb (truthy feed_id) then Ok None
      else
        podcast_title <- py_get full_details "title" ;;
        description <- py_get full_details "description" ;;
        feed_url <- py_get full_details "url" ;;
        original_url <- py_get full_details "originalUrl" ;;
        image <- py_get full_details "image" ;;
        artwork <- py_get full_details "artwork" ;;
        let image_url := py_or image artwork in
        episode_count <- py_get full_details "episodeCount" ;;
        last_update_time <- py_get full_details "lastUpdateTime" ;;
        categories_dict <- py_get full_details "categories" ;;
        podcast_guid <- py_get full_details "podcastGuid" ;;
        let '(avg_dur_10, latest_title) :=
          get_latest_episode_info (episodes_byfeedid_response w feed_id) in
        candidate_url <- py_get candidate "url" ;;
        candidate_original <- py_get candidate "originalUrl" ;;
        let feed_url := if truthy feed_url then feed_url else candidate_url in
        let original_url := if truthy original_url then original_url else candidate_original in
        Ok (Some (feed_id,
                  [feed_id; podcast_title; description; feed_url; image_url; episode_count;
                   avg_dur_10; latest_title; last_update_time; podcast_guid; original_url],
                  categories_dict)).

(** The [for title in titles] loop (lines 415-519): the run when the loop
    ends, and the exception that ended it, if one did. *)
Fixpoint process_titles (titles : list sqlval) (r : run) : run * option exn :=
  match titles with
  | [] => (r, None)
  | title :: rest =>
      match title_details title with
      | Raise e => (r, Some e)
      | Ok None => process_titles rest r
      | Ok (Some (feed_id, params, categories_dict)) =>
          match write_podcast r feed_id params categories_dict with
          | (r', None) => process_titles rest r'
          | (r', Some e) => (r', Some e)
          end
      end
  end.

(** [SELECT DISTINCT title FROM Top100Lists WHERE title IS NOT NULL AND
    title != '']: each title where the scan of the table first meets it. *)
Fixpoint distinct (titles : list sqlval) : list sqlval :=
  match titles with
  | [] => []
  | title :: rest => title :: filter (fun t => t <> title) (distinct rest)
  end.

Definition chart_titles (table : list chart_row) : list sqlval :=
  distinct
    (filter (fun title => title <> SNull /\ title <> SText "") (row_title <$> table)).

(** [update_all_podcast_details]: the two tables are dropped and created
    again, the titles are read and processed; whatever ends the loop, the
    [finally] clause closes the connection, and the file keeps what was
    committed.  The result is the file and the two counters of the last log
    line. *)
Definition update_all_podcast_details (db : database) : database * Z * Z :=
  let fresh :=
    {| Top100Lists := Top100Lists db; Podcasts := ∅;
       Categories := Categories db; PodcastCategories := ∅ |} in
  match chart_titles (Top100Lists fresh) with
  | [] => (fresh, 0, 0)
  | titles =>
      let '(r, _) :=
        process_titles titles
          {| conn := {| committed := fresh; working := fresh |};
             update_errors := 0; category_link_errors := 0; log := [] |} in
      (committed (conn r), update_errors r, category_link_errors r)
  end.

End Writer.

(** ** Vocabulary for the statements about the detail store writer *)

(** The categories linked to a podcast. *)
Definition category_links (podcast_id : Z) (db : database) : gset Z :=
  set_map snd (filter (fun link => link.1 = podcast_id) (PodcastCategories db)).








(** A world without a fault of the database file; the directory does not
    answer. *)
Definition sound_disk : world :=
  {| search_byterm_response := fun _ => TimedOut;
     search_bytitle_response := fun _ => TimedOut;
     podcasts_byfeedid_response := fun _ => TimedOut;
     podcasts_byfeedurl_response := fun _ => TimedOut;
     episodes_byfeedid_response := fun _ => TimedOut;
     disk_fault := fun _ => false |}.

Definition empty_database : database :=
  {| Top100Lists := []; Podcasts := ∅; Categories := ∅; PodcastCategories := ∅ |}.

Definition fresh_run : run :=
  {| conn := {| committed := empty_database; working := empty_database |};
     update_errors := 0; category_link_errors := 0; log := [] |}.

(** The parameters of the upsert of a podcast with this identifier and title. *)
Definition podcast_params (feed_id : Z) (title : string) : list pyval :=
  [PInt feed_id; PStr title; PNone; PStr "https://example.org/feed.xml"; PNone;
   PInt 12; PInt 1800; PStr "Latest"; PInt 1700000000; PNone; PNone].



(** A directory that knows two podcasts.  The description of the first is
    a list, which [sqlite3] cannot bind; the category map of the second has a
    key that is no integer and a name used twice. *)
Definition example_directory : world :=
  {| search_byterm_response := fun query =>
       if String.eqb query "The Daily" then
         Body (PDict [("feeds", PList [PDict [("id", PInt 1); ("title", PStr "The Daily");
                                              ("url", PStr "https://feeds.example/daily")]])])
       else if String.eqb query "Up First" then
         Body (PDict [("feeds", PList [PDict [("id", PInt 2); ("title", PStr "up first ")]])])
       else Body (PDict [("feeds", PList [])]);
     search_bytitle_response := fun _ => TimedOut;
     podcasts_byfeedid_response := fun feed_id =>
       match feed_id with
       | PInt 1 =>
           Body (PDict [("feed", PDict [("id", PInt 1); ("title", PStr "The Daily");
                                        ("description", PList [PStr "not"; PStr "text"]);
                                        ("categories", PDict [("1", PStr "News")])])])
       | PInt 2 =>
           Body (PDict [("feed", PDict [("id", PInt 2); ("title", PStr "Up First");
                                        ("description", PStr "The news in ten minutes");
                                        ("url", PStr "https://feeds.example/upfirst");
                                        ("categories", PDict [("1", PStr "News");
                                                              ("x9", PStr "Broken");
                                                              ("2", PStr "News")])])])
       | _ => StatusError
       end;
     podcasts_byfeedurl_response := fun _ => StatusError;
     episodes_byfeedid_response := fun feed_id =>
       match feed_id with
       | PInt 2 =>
           Body (PDict [("items", PList [PDict [("title", PStr "Monday"); ("duration", PInt 600)];
                                         PDict [("title", PStr "Friday"); ("duration", PInt 901)]])])
       | _ => TimedOut
       end;
     disk_fault := fun _ => false |}.

(** A chart store with three chart rows and a podcast left by an earlier run. *)
Definition example_store : database :=
  {| Top100Lists :=
       [{| row_platform := SText "Apple"; row_rank := SInt 1; row_title := SText "The Daily";
           row_platform_podcast_id := SText "1200361736"; row_date := SText "2026-01-01" |};
        {| row_platform := SText "Spotify"; row_rank := SInt 1; row_title := SText "Up First";
           row_platform_podcast_id := SText "2mTUnDkuKUkhiueKcVWoP0";
           row_date := SText "2026-01-01" |};
        {| row_platform := SText "Spotify"; row_rank := SInt 2; row_title := SText "The Daily";
           row_platform_podcast_id := SNull; row_date := SText "2026-01-01" |}];
     Podcasts := {[ 9 := [SText "Gone"] ]};
     Categories := {[ 7 := SText "History" ]};
     PodcastCategories := {[ (9, 7) ]} |}.

(* ===================================================================== *)
(** * The scripts as wholes *)
(* ===================================================================== *)

Definition DEFAULT_LIMIT : Z := 100.

(** The [__main__] block of [scrape_apple_top100.py] (lines 182-194): the
    chart is fetched with the default limit and saved when it is not empty.
    The result is the store and what the writer reported, if it ran. *)
Definition apple_main (response : http_outcome) (today : string) (dir_exists : bool)
    (db : database) : result (database * option save_report) :=
  scraped_data_apple <- scrape_apple_top_podcasts response DEFAULT_LIMIT today ;;
  match scraped_data_apple with
  | [] => Ok (db, None)
  | _ =>
      saved <- save_chart_data_to_db scraped_data_apple dir_exists db ;;
      Ok (saved.1, Some saved.2)
  end.

(** The [__main__] block of [scrape_spotify_top100.py] (lines 168-180). *)
Definition spotify_main (response : http_outcome) (today : string) (dir_exists : bool)
    (db : database) : result (database * option save_report) :=
  scraped_data_spotify <- scrape_spotify_top100 response today ;;
  match scraped_data_spotify with
  | [] => Ok (db, None)
  | _ =>
      saved <- save_chart_data_to_db scraped_data_spotify dir_exists db ;;
      Ok (saved.1, Some saved.2)
  end.

(** ** Vocabulary for the further statements *)

(** The row the loop of the chart writer tries to insert for a record:
    none when a required key is missing or a value cannot be bound. *)
Definition record_row (r : list (string * pyval)) : option chart_row :=
  if has_key "platform" r && has_key "rank" r && has_key "date" r then
    match
      bind_params [dict_get r "platform"; dict_get r "rank"; dict_get r "title";
                   dict_get r "platform_podcast_id"; dict_get r "date"]
    with
    | Ok [platform; rank; title; platform_podcast_id; date] =>
        Some {| row_platform := platform; row_rank := rank; row_title := title;
                row_platform_podcast_id := platform_podcast_id; row_date := date |}
    | _ => None
    end
  else None.

(** The exception with which the insert of a record leaves the loop of
    the chart writer: one that is no [sqlite3.Error], raised while binding a
    record that has its required keys. *)
Definition record_raises (r : list (string * pyval)) : option exn :=
  if has_key "platform" r && has_key "rank" r && has_key "date" r then
    match
      bind_params [dict_get r "platform"; dict_get r "rank"; dict_get r "title";
                   dict_get r "platform_podcast_id"; dict_get r "date"]
    with
    | Raise SqliteError | Ok _ => None
    | Raise e => Some e
    end
  else None.

(** The records of a batch for which the writer executes its insert
    without an error. *)
Definition attempted_rows (records : list (list (string * pyval))) : list chart_row :=
  omap record_row records.

(** A row with a null in a [NOT NULL] column of its key. *)
Definition null_key (row : chart_row) : Prop :=
  row_platform row = SNull \/ row_rank row = SNull \/ row_date row = SNull.




(** What a fetcher hands to the writer: records built by [chart_record]
    for its platform and the day. *)
Definition chart_of (platform today : string) (records : list (list (string * pyval))) : Prop :=
  Forall (fun r => exists rank title platform_podcast_id,
            r = chart_record platform rank title platform_podcast_id today) records.


(** The report of a second run of a chart script on the same chart. *)
Definition report_again (report : option save_report) : option save_report :=
  match report with
  | Some (Complete insert_count ignore_count) => Some (Complete 0 (insert_count + ignore_count))
  | _ => report
  end.



(** The candidates the by-title loop walks for this answer of the
    directory; none when the [try] block fails before the loop. *)
Definition bytitle_candidates (response : http_outcome) : list pyval :=
  match
    (data <- http_json response ;;
     feeds <- py_get_default data "feeds" (PList []) ;;
     if truthy feeds then py_iter feeds else Ok [])
  with
  | Ok items => items
  | Raise _ => []
  end.

(** The state [(best_match, best_ratio)] of a search loop is the initial
    one, or a candidate of the answer with a non-empty title together with
    the score the loop gave it: 1.0 for an exact match, its ratio otherwise. *)
Definition picked (ratio : string -> string -> Q) (title_of : pyval -> result pyval)
    (query_lower_stripped : string) (candidates : list pyval)
    (best_match : pyval) (best_ratio : Q) : Prop :=
  (best_match = PNone /\ best_ratio = 0%Q)
  \/ (best_match ∈ candidates
      /\ exists s,
           compared_title (title_of best_match) = Some s
           /\ ((query_lower_stripped = lower (strip s) /\ best_ratio = 1%Q)
               \/ best_ratio = ratio query_lower_stripped (lower (strip s)))).

(** A candidate the resolver may return: an object with a non-empty title
    that equals the query after trimming and lowercasing, or whose ratio to
    it reaches the threshold. *)
Definition acceptable (ratio : string -> string -> Q) (title_of : pyval -> result pyval)
    (query : string) (c : pyval) : Prop :=
  is_dict c = true
  /\ exists s,
       compared_title (title_of c) = Some s
       /\ (lower (strip query) = lower (strip s)
           \/ (SEARCH_ACCEPTANCE_THRESHOLD <= ratio (lower (strip query)) (lower (strip s)))%Q).

(** The ratio of a candidate to the query, for a candidate the loop
    compares. *)
Definition candidate_ratio (ratio : string -> string -> Q) (query : string) (c : pyval)
    : option Q :=
  match compared_title (byterm_candidate_title c) with
  | Some s => Some (ratio (lower (strip query)) (lower (strip s)))
  | None => None
  end.

(** ** Vocabulary for the statements about a whole run of the writer *)

(** Every link references an existing podcast and an existing category:
    the two foreign keys of [PodcastCategories]. *)
Definition fk_ok (db : database) : Prop :=
  forall podcast_id cat_id,
    (podcast_id, cat_id) ∈ PodcastCategories db ->
    is_Some (Podcasts db !! podcast_id) /\ is_Some (Categories db !! cat_id).

(** [category_name TEXT NOT NULL UNIQUE]. *)
Definition names_unique (categories : gmap Z sqlval) : Prop :=
  forall i j name,
    categories !! i = Some name -> categories !! j = Some name ->
    name <> SNull /\ i = j.

(** The store after [Podcasts] and [PodcastCategories] were dropped and
    created again. *)
Definition recreated (db : database) : database :=
  {| Top100Lists := Top100Lists db; Podcasts := ∅;
     Categories := Categories db; PodcastCategories := ∅ |}.

(** The directory cannot be reached: no search gets an answer. *)
Definition directory_down (w : world) : Prop :=
  forall query,
    (forall data, search_byterm_response w query <> Body data)
    /\ (forall data, search_bytitle_response w query <> Body data).

(** The same directory with another by-feed-url endpoint. *)
Definition with_byfeedurl (w : world) (byfeedurl : pyval -> http_outcome) : world :=
  {| search_byterm_response := search_byterm_response w;
     search_bytitle_response := search_bytitle_response w;
     podcasts_byfeedid_response := podcasts_byfeedid_response w;
     podcasts_byfeedurl_response := byfeedurl;
     episodes_byfeedid_response := episodes_byfeedid_response w;
     disk_fault := disk_fault w |}.

(** The events the two counters of the writer count. *)
Definition is_update_error (e : write_event) : bool :=
  match e with
  | DatabaseError _ => true
  | _ => false
  end.

Definition is_category_error (e : write_event) : bool :=
  match e with
  | DeleteError _ | InvalidCategoryId _ | CategoryError _ => true
  | _ => false
  end.

Definition count_events (f : write_event -> bool) (log : list write_event) : Z :=
  Z.of_nat (length (List.filter f log)).

(** The counters of a run are the numbers of errors it logged. *)
Definition counters_match_log (r : run) : Prop :=
  update_errors r = count_events is_update_error (log r)
  /\ category_link_errors r = count_events is_category_error (log r).

(** ** Vocabulary for the statements about the tabs after a run *)

(** No cell of the rows is null. *)
Definition no_null (rows : list (list sqlval)) : Prop :=
  Forall (Forall (fun v => v <> SNull)) rows.

(** What a tab may hold after a run, given what it held before: the same;
    or, for a tab named in the configuration, nothing (it was cleared and the
    write failed) or the header and rows of a view configured for it. *)
Definition tab_after (w : sheet_world) (query_configs : list (string * string))
    (worksheet_name : string) (before after : option (list (list sqlval))) : Prop :=
  after = before
  \/ (worksheet_name ∈ query_configs.*2
      /\ (after = Some []
          \/ exists query df,
               (query, worksheet_name) ∈ query_configs
               /\ read_sql_query w query = Ok df
               /\ after = Some (data_to_write df)
               /\ no_null (data_to_write df))).

(** Every configured view can be read, every configured tab exists, and
    no clear or write fails. *)
Definition all_goes_well (w : sheet_world) (query_configs : list (string * string)) : Prop :=
  setup w = Ok ()
  /\ forall query worksheet_name,
       (query, worksheet_name) ∈ query_configs ->
       (exists df, read_sql_query w query = Ok df)
       /\ worksheet w worksheet_name = Ok ()
       /\ clear_raises w worksheet_name = None
       /\ update_raises w worksheet_name = None.

(* ===================================================================== *)
(* ===================================================================== *)
(** * Properties *)
(* ===================================================================== *)
(* ===================================================================== *)

(* ===================================================================== *)
(** * The title resolver *)
(* ===================================================================== *)

Lemma Qltb_lt (x y : Q) : Qltb x y = true <-> (x < y)%Q.
Proof.
  unfold Qltb. rewrite negb_true_iff. split.
  - intros H. apply Qnot_le_lt. intros Hle. apply Qle_bool_iff in Hle. congruence.
  - intros H. destruct (Qle_bool y x) eqn:E; [|reflexivity].
    apply Qle_bool_iff in E. exfalso. revert E. now apply Qlt_not_le.
Qed.

Lemma compared_title_inv (t : result pyval) (s : string) :
  compared_title t = Some s -> t = Ok (PStr s) /\ String.eqb s "" = false.
Proof.
  destruct t as [[| | |s'| |]|]; simpl; try discriminate.
  destruct (String.eqb s' "") eqn:E; [discriminate|].
  now intros [= ->].
Qed.

Lemma byterm_title_dict_nonempty (res : pyval) (s : string) :
  compared_title (byterm_candidate_title res) = Some s -> truthy res = true.
Proof.
  intros H. apply compared_title_inv in H as [H Ht].
  destruct res as [| | | | |d]; try discriminate.
  destruct d as [|kv d]; [|reflexivity].
  cbn in H. injection H as <-. discriminate.
Qed.

Section ResolverFacts.

Variable ratio : string -> string -> Q.

(** From any loop state, the first exact match ends the loop. *)
Lemma search_byterm_loop_exact (query : string) (pre : list pyval) (c : pyval) (post : list pyval) :
  Forall (fun p => scannable (byterm_candidate_title p) = true
                   /\ is_exact_match query p = false) pre ->
  is_exact_match query c = true ->
  forall best_match best_ratio,
    search_byterm_loop ratio (lower (strip query)) (pre ++ c :: post) best_match best_ratio
    = Ok (c, 1%Q).
Proof.
  intros Hpre Hc. induction Hpre as [|p pre [Hscan Hne] _ IH]; intros bm br.
  - simpl. unfold is_exact_match in Hc.
    destruct (compared_title (byterm_candidate_title c)) as [s|] eqn:Ht; [|discriminate].
    apply compared_title_inv in Ht as [-> Hs]. simpl.
    rewrite Hs. simpl. now rewrite Hc.
  - simpl. unfold is_exact_match in Hne.
    destruct (byterm_candidate_title p) as [v|e] eqn:Hv; [|discriminate].
    simpl bind. destruct (truthy v) eqn:Htr; simpl; [|apply IH].
    destruct v as [| | |s| |];
      try (cbn in Hscan, Htr; first [discriminate | rewrite Htr in Hscan; discriminate]).
    simpl in Hne, Htr. destruct (String.eqb s "") eqn:Es; [discriminate|].
    simpl. rewrite Hne.
    destruct (Qltb br _); apply IH.
Qed.

(** While every candidate stays below the threshold, so does the best ratio. *)
Lemma search_byterm_loop_below (query : string) (items : list pyval) :
  Forall (fun c => below_threshold ratio query c = true) items ->
  forall best_match best_ratio,
    (best_ratio < SEARCH_ACCEPTANCE_THRESHOLD)%Q ->
    match search_byterm_loop ratio (lower (strip query)) items best_match best_ratio with
    | Ok (_, r) => (r < SEARCH_ACCEPTANCE_THRESHOLD)%Q
    | Raise _ => True
    end.
Proof.
  induction 1 as [|c items Hc _ IH]; intros bm br Hbr; simpl; [exact Hbr|].
  unfold below_threshold in Hc.
  destruct (byterm_candidate_title c) as [v|e] eqn:Hv; [|exact I].
  simpl bind. destruct (truthy v) eqn:Htr; simpl; [|now apply IH].
  destruct v as [| | |s| |]; simpl; try exact I.
  simpl in Hc, Htr. destruct (String.eqb s "") eqn:Es; [discriminate|].
  apply andb_true_iff in Hc as [Hne Hlt]. apply negb_true_iff in Hne. rewrite Hne.
  apply Qltb_lt in Hlt.
  destruct (Qltb br _); now apply IH.
Qed.

Lemma accept_below (best_match : pyval) (r : Q) :
  (r < SEARCH_ACCEPTANCE_THRESHOLD)%Q -> accept (best_match, r) = PNone.
Proof.
  intros H. unfold accept.
  destruct (Qle_bool SEARCH_ACCEPTANCE_THRESHOLD r) eqn:E.
  - apply Qle_bool_iff in E. exfalso. revert E. now apply Qlt_not_le.
  - now rewrite andb_false_r.
Qed.

Lemma accept_truthy (best : pyval * Q) :
  (if truthy (accept best) then accept best else PNone) = accept best.
Proof.
  destruct best as [bm r]. unfold accept.
  destruct (truthy bm) eqn:Hb; simpl; [|reflexivity].
  destruct (Qle_bool _ _); simpl; [now rewrite Hb|reflexivity].
Qed.

Lemma search_bytitle_truthy (response : http_outcome) (query : string) :
  (if truthy (search_bytitle ratio response query)
   then search_bytitle ratio response query else PNone)
  = search_bytitle ratio response query.
Proof.
  unfold search_bytitle, search_bytitle_try.
  destruct (http_json response) as [data|]; simpl; [|reflexivity].
  destruct (py_get_default data "feeds" (PList [])) as [feeds|]; simpl; [|reflexivity].
  destruct (truthy feeds); [|reflexivity].
  destruct (py_iter feeds) as [items|]; simpl; [|reflexivity].
  destruct (search_bytitle_loop _ _ _ _ _) as [best|]; simpl; [|reflexivity].
  apply accept_truthy.
Qed.

(** On candidates without [title_original] the two loops are the same function. *)
Lemma search_loops_agree (q : string) (feeds : list pyval) :
  Forall no_title_original feeds ->
  forall best_match best_ratio,
    search_bytitle_loop ratio q feeds best_match best_ratio
    = search_byterm_loop ratio q feeds best_match best_ratio.
Proof.
  induction 1 as [|f feeds Hf _ IH]; intros bm br; simpl; [reflexivity|].
  assert (Ht : byterm_candidate_title f = bytitle_candidate_title f).
  { destruct f as [| | | | |d]; try reflexivity.
    simpl in Hf. unfold byterm_candidate_title, bytitle_candidate_title. simpl.
    unfold dict_get_default at 1. now rewrite Hf. }
  rewrite Ht. destruct (bytitle_candidate_title f) as [v|]; simpl; [|reflexivity].
  destruct (truthy v); simpl; [|apply IH].
  destruct (py_strip_lower v) as [cls|]; simpl; [|reflexivity].
  destruct (String.eqb q cls); [reflexivity|].
  destruct (Qltb br _); apply IH.
Qed.

End ResolverFacts.

(** C1 as the specification states it fails on a candidate whose title is
    the empty string: for a query of blanks the trimmed, lowercased strings
    are equal, yet line 95 skips the candidate and the search returns
    [None]. *)
Lemma search_byterm_empty_title_counterexample :
  let query := " " in
  let c := PDict [("id", PInt 7); ("title", PStr "")] in
  let data := PDict [("feeds", PList [c])] in
  title_equals_query query c = true
  /\ search_byterm sequence_matcher_ratio (Body data) query = PNone
  /\ search_byterm sequence_matcher_ratio (Body data) query <> c.
Proof. split; [reflexivity | split; [reflexivity | discriminate]]. Qed.

(** C1 (amended): when some candidate of the by-term answer has a
    non-empty title that, trimmed and lowercased, equals the trimmed
    lowercased query, the loop returns the first such candidate with ratio
    1.0 whatever the ratios of the candidates before it and whatever follows
    it in the list (the candidates after it are never looked at, so the
    result is that of the list cut after the match), the threshold check
    accepts it, and the combined resolver returns it without running the
    by-title search. *)
Theorem search_byterm_exact_match_first
    (ratio : string -> string -> Q) (query : string) (data : pyval)
    (pre : list pyval) (c : pyval) (post : list pyval) :
  byterm_results data = Ok (PList (pre ++ c :: post)) ->
  Forall (fun p => scannable (byterm_candidate_title p) = true
                   /\ is_exact_match query p = false) pre ->
  is_exact_match query c = true ->
  search_byterm_loop ratio (lower (strip query)) (pre ++ c :: post) PNone 0%Q = Ok (c, 1%Q)
  /\ search_byterm_loop ratio (lower (strip query)) (pre ++ c :: post) PNone 0%Q
     = search_byterm_loop ratio (lower (strip query)) (pre ++ [c]) PNone 0%Q
  /\ search_byterm ratio (Body data) query = c
  /\ forall bytitle,
       search_podcast_combined_path ratio (Body data) bytitle query = (c, ByTermOnly).
Proof.
  intros Hdata Hpre Hc.
  assert (Hloop : forall post',
    search_byterm_loop ratio (lower (strip query)) (pre ++ c :: post') PNone 0%Q = Ok (c, 1%Q))
    by (intros post'; now apply search_byterm_loop_exact).
  assert (Htruthy : truthy c = true).
  { unfold is_exact_match in Hc.
    destruct (compared_title (byterm_candidate_title c)) as [s|] eqn:Hs; [|discriminate].
    eapply byterm_title_dict_nonempty, Hs. }
  assert (Hres : search_byterm ratio (Body data) query = c).
  { unfold search_byterm, search_byterm_try. simpl http_json. simpl bind at 1.
    rewrite Hdata. simpl bind at 1.
    assert (Hne : truthy (PList (pre ++ c :: post)) = true) by (now destruct pre).
    simpl in Hne. rewrite Hne, Hloop. simpl.
    now rewrite Htruthy. }
  repeat split.
  - apply Hloop.
  - now rewrite !Hloop.
  - exact Hres.
  - intros bytitle. unfold search_podcast_combined_path. now rewrite Hres, Htruthy.
Qed.

Lemma search_byterm_exact_match_first_witness :
  let c := PDict [("id", PInt 2); ("title", PStr " the daily ")] in
  let data :=
    PDict [("feeds", PList [PDict [("id", PInt 1); ("title", PStr "The Daily Show")];
                            c; PInt 5;
                            PDict [("id", PInt 3); ("title", PStr "The Daily")]])] in
  search_byterm sequence_matcher_ratio (Body data) "The Daily" = c.
Proof.
  intros c data.
  refine (proj1 (proj2 (proj2 (search_byterm_exact_match_first sequence_matcher_ratio
    "The Daily" data [PDict [("id", PInt 1); ("title", PStr "The Daily Show")]] c
    [PInt 5; PDict [("id", PInt 3); ("title", PStr "The Daily")]] _ _ _)))).
  - reflexivity.
  - repeat constructor.
  - reflexivity.
Defined.

(** The threshold is inclusive: a ratio of exactly 0.90 is accepted. *)
Example search_byterm_accepts_at_threshold :
  let c := PDict [("id", PInt 3); ("title", PStr "abcdefghiz")] in
  sequence_matcher_ratio "abcdefghij" "abcdefghiz" = 18 # 20
  /\ search_byterm sequence_matcher_ratio (Body (PDict [("feeds", PList [c])])) "abcdefghij" = c.
Proof. split; reflexivity. Qed.

(** C2: when every candidate of the by-term answer has a ratio to the query
    below 0.90 and none is an exact match, [search_byterm] returns [None],
    and [search_podcast_combined] runs the by-title search and returns its
    result.  The by-title search is the same procedure: on candidates that
    carry no [title_original] its loop is the by-term loop, and both pass
    their best candidate to the same check against
    [SEARCH_ACCEPTANCE_THRESHOLD], so it too returns [None] when every
    candidate is below 0.90. *)
Theorem search_combined_falls_back_to_bytitle
    (ratio : string -> string -> Q) (byterm bytitle : http_outcome) (query : string) :
  Forall (fun c => below_threshold ratio query c = true) (byterm_candidates byterm) ->
  search_byterm ratio byterm query = PNone
  /\ search_podcast_combined_path ratio byterm bytitle query
     = (search_bytitle ratio bytitle query, ByTermThenByTitle)
  /\ (forall q feeds best_match best_ratio,
        Forall no_title_original feeds ->
        search_bytitle_loop ratio q feeds best_match best_ratio
        = search_byterm_loop ratio q feeds best_match best_ratio)
  /\ (forall feeds,
        Forall no_title_original feeds ->
        Forall (fun c => below_threshold ratio query c = true) feeds ->
        search_bytitle ratio (Body (PDict [("feeds", PList feeds)])) query = PNone).
Proof.
  intros Hbelow.
  assert (H0 : (0 < SEARCH_ACCEPTANCE_THRESHOLD)%Q) by reflexivity.
  assert (Hterm : search_byterm ratio byterm query = PNone).
  { unfold search_byterm, search_byterm_try. unfold byterm_candidates in Hbelow.
    destruct (http_json byterm) as [data|]; simpl in *; [|reflexivity].
    destruct (byterm_results data) as [results|]; simpl in *; [|reflexivity].
    destruct (truthy results); [|reflexivity].
    destruct (py_iter results) as [items|]; simpl; [|reflexivity].
    pose proof (search_byterm_loop_below ratio query items Hbelow PNone 0%Q H0) as Hl.
    destruct (search_byterm_loop _ _ _ _ _) as [[bm r]|]; simpl; [|reflexivity].
    now apply accept_below. }
  repeat split.
  - exact Hterm.
  - unfold search_podcast_combined_path. rewrite Hterm. simpl.
    now rewrite search_bytitle_truthy.
  - intros q feeds bm br Hf. now apply search_loops_agree.
  - intros feeds Hf Hb. unfold search_bytitle, search_bytitle_try. simpl.
    destruct feeds as [|f feeds]; [reflexivity|].
    cbv beta iota. change (bind (Ok (f :: feeds)) ?k) with (k (f :: feeds)). cbv beta.
    rewrite (search_loops_agree ratio _ _ Hf).
    pose proof (search_byterm_loop_below ratio query _ Hb PNone 0%Q H0) as Hl.
    destruct (search_byterm_loop _ _ _ _ _) as [[bm r]|]; simpl; [|reflexivity].
    now apply accept_below.
Qed.

Lemma search_combined_falls_back_to_bytitle_witness :
  let byterm :=
    Body (PDict [("feeds", PList [PDict [("id", PInt 1); ("title", PStr "The Daily Show")];
                                  PDict [("id", PInt 4); ("title", PStr "Daily Tech News")]])]) in
  let bytitle :=
    Body (PDict [("feeds", PList [PDict [("id", PInt 2); ("title", PStr "The Daily")]])]) in
  search_byterm sequence_matcher_ratio byterm "The Daily" = PNone
  /\ search_podcast_combined_path sequence_matcher_ratio byterm bytitle "The Daily"
     = (PDict [("id", PInt 2); ("title", PStr "The Daily")], ByTermThenByTitle).
Proof.
  intros byterm bytitle.
  pose proof (search_combined_falls_back_to_bytitle sequence_matcher_ratio byterm bytitle
    "The Daily") as H.
  destruct H as (H1 & H2 & _); [repeat constructor|].
  split; [exact H1|]. rewrite H2. reflexivity.
Defined.

(* ===================================================================== *)
(** * The chart fetchers *)
(* ===================================================================== *)

Lemma apple_records_ranks (items : list pyval) (today : string) :
  Forall (fun v => is_dict v = true) items ->
  forall i, ranks (apple_records items i today) = PInt <$> seqZ (i + 1) (Z.of_nat (length items)).
Proof.
  induction 1 as [|v items Hv _ IH]; intros i; [reflexivity|].
  destruct v; try discriminate. cbn [apple_records ranks map length].
  rewrite seqZ_cons by lia. cbn [fmap list_fmap]. f_equal.
  - fold (ranks (apple_records items (i + 1) today)). rewrite IH.
    f_equal. f_equal; lia.
Qed.

Lemma apple_records_lookup (items : list pyval) (today : string) :
  Forall (fun v => is_dict v = true) items ->
  forall i0 i d,
    items !! i = Some (PDict d) ->
    apple_records items i0 today !! i
    = Some (chart_record PLATFORM_NAME_APPLE (i0 + Z.of_nat i + 1)
              (dict_get d "name") (dict_get d "id") today).
Proof.
  induction 1 as [|v items Hv _ IH]; intros i0 i d Hi; [now rewrite lookup_nil in Hi|].
  destruct v as [| | | | |d0]; try discriminate. cbn [apple_records].
  destruct i as [|i]; simpl in Hi |- *.
  - injection Hi as <-. do 2 f_equal. lia.
  - rewrite (IH (i0 + 1) i d Hi). do 2 f_equal. lia.
Qed.

Lemma spotify_records_ranks (items : list pyval) (today : string) :
  Forall (fun v => spotify_item_ok v = true) items ->
  forall i, exists records,
    spotify_records items i today = Ok records
    /\ ranks records = PInt <$> seqZ (i + 1) (Z.of_nat (length items)).
Proof.
  induction 1 as [|v items Hv _ IH]; intros i; [now exists []|].
  destruct v as [| | | | |d]; try discriminate. cbn [spotify_records].
  destruct (IH (i + 1)) as (records & -> & Hr).
  assert (Hid : exists p, spotify_platform_podcast_id d = Ok p).
  { unfold spotify_platform_podcast_id. simpl in Hv.
    destruct (dict_get_default d "showUri" (PStr "")) as [| | |s| |]; try discriminate.
    - now exists PNone.
    - destruct (truthy (PStr s)); [|now exists PNone]. simpl.
      destruct (contains_char colon s); eauto. }
  destruct Hid as [p ->]. eexists. split; [reflexivity|].
  cbn [ranks map length]. rewrite seqZ_cons by lia. cbn [fmap list_fmap]. f_equal.
  fold (ranks records). rewrite Hr. f_equal. f_equal; lia.
Qed.

Lemma spotify_item_ok_id (d : list (string * pyval)) :
  spotify_item_ok (PDict d) = true -> exists p, spotify_platform_podcast_id d = Ok p.
Proof.
  unfold spotify_platform_podcast_id. simpl.
  destruct (dict_get_default d "showUri" (PStr "")) as [| | |s| |]; try discriminate.
  - now exists PNone.
  - intros _. destruct (truthy (PStr s)); [|now exists PNone]. simpl.
    destruct (contains_char colon s); eauto.
Qed.

Lemma spotify_records_lookup (items : list pyval) (today : string) :
  Forall (fun v => spotify_item_ok v = true) items ->
  forall i0, exists records,
    spotify_records items i0 today = Ok records
    /\ forall i d,
         items !! i = Some (PDict d) ->
         exists platform_podcast_id,
           spotify_platform_podcast_id d = Ok platform_podcast_id
           /\ records !! i
              = Some (chart_record PLATFORM_NAME_SPOTIFY (i0 + Z.of_nat i + 1)
                        (dict_get d "showName") platform_podcast_id today).
Proof.
  induction 1 as [|v items Hv _ IH]; intros i0.
  - exists []. split; [reflexivity|]. intros i d H. now rewrite lookup_nil in H.
  - destruct v as [| | | | |d0]; try discriminate. cbn [spotify_records].
    destruct (IH (i0 + 1)) as (records & -> & Hrec).
    destruct (spotify_item_ok_id d0 Hv) as [p0 Hp0]. rewrite Hp0. simpl.
    eexists. split; [reflexivity|].
    intros [|i] d Hi; simpl in Hi.
    + injection Hi as <-. exists p0. split; [exact Hp0|].
      simpl. do 2 f_equal. lia.
    + destruct (Hrec i d Hi) as (p & H1 & H2).
      exists p. split; [exact H1|]. simpl. rewrite H2. do 2 f_equal. lia.
Qed.

Lemma py_slice_to_length {A : Type} (l : list A) (stop : Z) :
  0 <= stop -> Z.of_nat (length (py_slice_to l stop)) = Z.min (Z.of_nat (length l)) stop.
Proof.
  intros H. unfold py_slice_to. destruct (Z.leb_spec 0 stop); [|lia].
  rewrite length_take. lia.
Qed.

(** The limit is the number of podcasts to fetch.  A negative number,
    which is no such limit, makes [results[:limit]] drop items from the end:
    [results[:-1]] of three results gives the ranks 1 and 2. *)
Example apple_negative_limit_slice :
  let item := PDict [("id", PStr "1"); ("name", PStr "A")] in
  let results := [item; item; item] in
  let data := PDict [("feed", PDict [("results", PList results)])] in
  apple_results data = Some results
  /\ Forall (fun v => is_dict v = true) results
  /\ exists records,
       scrape_apple_top_podcasts (Body data) (-1) "2026-01-01" = Ok records
       /\ ranks records = [PInt 1; PInt 2]
       /\ ranks records <> PInt <$> seqZ 1 (Z.min (Z.of_nat (length results)) (-1)).
Proof.
  split; [reflexivity|]. split; [repeat constructor|].
  eexists. split; [reflexivity|]. split; [reflexivity|discriminate].
Qed.

(** C7: for a response with the expected structure whose items are all
    objects, and a limit that is a number of podcasts to fetch (it is not
    negative), the records of the Apple fetcher carry the ranks
    [1..min(len(results), limit)] in response order: the record at position
    [i] is built from the item at position [i] and has rank [i + 1].  The
    Spotify fetcher, whose limit is the constant 100, does the same with the
    ranks [1..min(len(items), 100)] when its items are well formed. *)
Theorem chart_ranks_in_response_order (today : string) :
  (forall data results limit,
     apple_results data = Some results ->
     Forall (fun v => is_dict v = true) results ->
     0 <= limit ->
     exists records,
       scrape_apple_top_podcasts (Body data) limit today = Ok records
       /\ ranks records = PInt <$> seqZ 1 (Z.min (Z.of_nat (length results)) limit)
       /\ forall i d,
            results !! i = Some (PDict d) ->
            Z.of_nat i < limit ->
            records !! i
            = Some (chart_record PLATFORM_NAME_APPLE (Z.of_nat i + 1)
                      (dict_get d "name") (dict_get d "id") today))
  /\ (forall data items,
        spotify_items data = Some items ->
        Forall (fun v => spotify_item_ok v = true) items ->
        exists records,
          scrape_spotify_top100 (Body data) today = Ok records
          /\ ranks records = PInt <$> seqZ 1 (Z.min (Z.of_nat (length items)) 100)
          /\ forall i d,
               items !! i = Some (PDict d) ->
               (i < 100)%nat ->
               exists platform_podcast_id,
                 spotify_platform_podcast_id d = Ok platform_podcast_id
                 /\ records !! i
                    = Some (chart_record PLATFORM_NAME_SPOTIFY (Z.of_nat i + 1)
                              (dict_get d "showName") platform_podcast_id today)).
Proof.
  split.
  - intros data results limit Hres Hdict Hlimit.
    unfold scrape_apple_top_podcasts, scrape_apple_try, apple_results in *.
    destruct data as [| | | | |d]; try discriminate. simpl.
    unfold dict_get in Hres. unfold dict_get_default.
    destruct (assoc "feed" d) as [[| | | | |f]|]; try discriminate.
    destruct f as [|kv f']; [discriminate|]. simpl.
    unfold dict_get in Hres. unfold dict_get_default.
    destruct (assoc "results" (kv :: f')) as [[| | | |l|]|]; try discriminate.
    injection Hres as ->.
    assert (Hslice : Forall (fun v => is_dict v = true) (py_slice_to results limit)).
    { unfold py_slice_to. destruct (0 <=? limit); now apply Forall_take. }
    destruct results as [|r results].
    + simpl. exists []. split; [reflexivity|]. split.
      * now replace (Z.min (Z.of_nat 0) limit) with 0 by lia.
      * intros i d0 Hi. now rewrite lookup_nil in Hi.
    + cbn [truthy negb is_list orb]. eexists. split; [reflexivity|]. split.
      * rewrite (apple_records_ranks _ _ Hslice). now rewrite py_slice_to_length.
      * intros i d0 Hi Hlt. rewrite (apple_records_lookup _ _ Hslice 0 i d0).
        -- do 2 f_equal.
        -- unfold py_slice_to. destruct (Z.leb_spec 0 limit); [|lia].
           rewrite lookup_take_lt by lia. exact Hi.
  - intros data items Hit Hok. destruct data; try discriminate.
    injection Hit as ->.
    unfold scrape_spotify_top100, scrape_spotify_try. simpl.
    assert (Hslice : Forall (fun v => spotify_item_ok v = true) (py_slice_to items 100)).
    { unfold py_slice_to. simpl. now apply Forall_take. }
    destruct (spotify_records_ranks (py_slice_to items 100) today Hslice 0)
      as (records & Hrec & Hr).
    destruct (spotify_records_lookup (py_slice_to items 100) today Hslice 0)
      as (records' & Hrec' & Hlook).
    rewrite Hrec in Hrec'. injection Hrec' as <-. rewrite Hrec.
    exists records. split; [reflexivity|]. split.
    + rewrite Hr, py_slice_to_length by lia. reflexivity.
    + intros i d Hi Hlt. destruct (Hlook i d) as (p & H1 & H2).
      * unfold py_slice_to. simpl. rewrite lookup_take_lt by lia. exact Hi.
      * exists p. split; [exact H1|]. rewrite H2. do 2 f_equal.
Qed.

Lemma chart_ranks_in_response_order_witness :
  let item := PDict [("id", PStr "1"); ("name", PStr "A")] in
  let data := PDict [("feed", PDict [("results", PList [item; item; item])])] in
  exists records,
    scrape_apple_top_podcasts (Body data) 2 "2026-01-01" = Ok records
    /\ ranks records = [PInt 1; PInt 2].
Proof.
  intros item data.
  destruct (proj1 (chart_ranks_in_response_order "2026-01-01") data [item; item; item] 2)
    as (records & H1 & H2 & _).
  - reflexivity.
  - repeat constructor.
  - lia.
  - exists records. split; [exact H1|]. rewrite H2. reflexivity.
Defined.

Lemma apple_missing_structure (data : pyval) (limit : Z) (today : string) :
  apple_results data = None ->
  scrape_apple_top_podcasts (Body data) limit today = Ok [].
Proof.
  intros H. unfold scrape_apple_top_podcasts, scrape_apple_try. simpl.
  destruct data as [| | | | |d]; try reflexivity. simpl.
  unfold apple_results, dict_get in H. unfold dict_get_default.
  destruct (assoc "feed" d) as [feed|]; [|reflexivity].
  destruct feed as [| | | | |f]; try reflexivity;
    try (simpl; now rewrite orb_true_r).
  destruct f as [|kv f]; [reflexivity|].
  cbn [truthy negb is_dict orb py_get py_get_default bind]. unfold dict_get_default.
  destruct (assoc "results" (kv :: f)) as [results|]; [|reflexivity].
  destruct results as [| | | |l|]; try discriminate; try reflexivity;
    simpl; now rewrite orb_true_r.
Qed.

(** C8: a transport error, an error status (one that [raise_for_status]
    rejects), malformed JSON or a body without the expected top-level
    structure (no [feed] object, no [results] list, a body that is no list)
    makes either fetcher return the empty list, as a normal return.  The fetchers never raise: whatever the response,
    they return a list, and when anything in their [try] block raises, also
    in the middle of the loop, that list is empty and not the records
    gathered so far. *)
Theorem chart_fetch_failure_yields_empty_list (limit : Z) (today : string) :
  (forall response,
     fetch_failed apple_results response = true ->
     scrape_apple_top_podcasts response limit today = Ok [])
  /\ (forall response,
        fetch_failed spotify_items response = true ->
        scrape_spotify_top100 response today = Ok [])
  /\ (forall response,
        exists records, scrape_apple_top_podcasts response limit today = Ok records)
  /\ (forall response,
        exists records, scrape_spotify_top100 response today = Ok records)
  /\ (forall response e,
        scrape_apple_try response limit today = Raise e ->
        scrape_apple_top_podcasts response limit today = Ok [])
  /\ (forall response e,
        scrape_spotify_try response today = Raise e ->
        scrape_spotify_top100 response today = Ok []).
Proof.
  assert (Ha : forall response e,
             scrape_apple_try response limit today = Raise e ->
             scrape_apple_top_podcasts response limit today = Ok []).
  { intros response e H. unfold scrape_apple_top_podcasts. rewrite H. now destruct e. }
  assert (Hs : forall response e,
             scrape_spotify_try response today = Raise e ->
             scrape_spotify_top100 response today = Ok []).
  { intros response e H. unfold scrape_spotify_top100. rewrite H. now destruct e. }
  repeat split.
  - intros response H. destruct response as [| | | |data]; try reflexivity.
    simpl in H. apply apple_missing_structure.
    now destruct (apple_results data).
  - intros response H. destruct response as [| | | |data]; try reflexivity.
    simpl in H. now destruct data.
  - intros response. destruct (scrape_apple_try response limit today) as [r|e] eqn:E.
    + exists r. unfold scrape_apple_top_podcasts. now rewrite E.
    + exists []. eauto.
  - intros response. destruct (scrape_spotify_try response today) as [r|e] eqn:E.
    + exists r. unfold scrape_spotify_top100. now rewrite E.
    + exists []. eauto.
  - exact Ha.
  - exact Hs.
Qed.

Lemma chart_fetch_failure_yields_empty_list_witness :
  scrape_apple_top_podcasts (Body (PDict [("feed", PDict [("title", PStr "Top")])])) 100
    "2026-01-01" = Ok []
  /\ scrape_spotify_top100 (Body (PDict [("error", PStr "gone")])) "2026-01-01" = Ok []
  /\ scrape_spotify_top100
       (Body (PList [PDict [("showUri", PStr "spotify:show:abc")];
                     PDict [("showUri", PInt 5)]])) "2026-01-01" = Ok [].
Proof.
  pose proof (chart_fetch_failure_yields_empty_list 100 "2026-01-01")
    as (Ha & Hs & _ & _ & _ & Hp).
  split; [|split].
  - apply Ha. reflexivity.
  - apply Hs. reflexivity.
  - apply (Hp _ TypeError). reflexivity.
Defined.

(* ===================================================================== *)
(** * The Spotify show identifier *)
(* ===================================================================== *)

Lemma split_on_no_sep (sep : ascii) (s : string) :
  contains_char sep s = false -> split_on sep s = [s].
Proof.
  induction s as [|c s IH]; [reflexivity|]. simpl.
  destruct (Ascii.eqb c sep); [discriminate|]. simpl. intros H. now rewrite IH.
Qed.

Lemma split_on_sep (sep : ascii) (s : string) :
  contains_char sep s = true -> exists h x t, split_on sep s = h :: x :: t.
Proof.
  induction s as [|c s IH]; [discriminate|]. simpl.
  destruct (Ascii.eqb c sep); simpl.
  - intros _. destruct (contains_char sep s) eqn:E.
    + destruct (IH eq_refl) as (h & x & t & ->). eauto.
    + rewrite (split_on_no_sep _ _ E). eauto.
  - intros H. destruct (IH H) as (h & x & t & ->). eauto.
Qed.

Lemma split_on_last (sep : ascii) (s : string) :
  contains_char sep s = true ->
  exists p r,
    s = (p ++ String sep r)%string
    /\ contains_char sep r = false
    /\ List.last (split_on sep s) EmptyString = r.
Proof.
  induction s as [|c s IH]; [discriminate|]. simpl.
  destruct (Ascii.eqb_spec c sep) as [->|Hc]; simpl.
  - intros _. destruct (contains_char sep s) eqn:E.
    + destruct (IH eq_refl) as (p & r & -> & Hr & Hl).
      exists (String sep p), r. repeat split; [exact Hr|].
      destruct (split_on_sep _ _ E) as (h & x & t & Hs).
      rewrite Hs in *. exact Hl.
    + exists EmptyString, s. repeat split; [exact E|].
      now rewrite (split_on_no_sep _ _ E).
  - intros H. destruct (IH H) as (p & r & -> & Hr & Hl).
    exists (String c p), r. repeat split; [exact Hr|].
    destruct (split_on_sep _ _ H) as (h & x & t & Hs).
    rewrite Hs in *. exact Hl.
Qed.

(** C10: for an item that is an object whose [showUri] is a string, null
    or absent, the fetcher builds [platform_podcast_id] without raising; when
    [showUri] contains a colon it is the part of [showUri] after its last
    colon, and when [showUri] is absent, null, empty or without a colon it is
    [None].  The record the fetcher appends for the item carries this value,
    at the position of the item among well-formed items. *)
Theorem spotify_platform_podcast_id_after_last_colon (pod_data : list (string * pyval)) :
  match dict_get_default pod_data "showUri" (PStr "") with
  | PStr s =>
      (contains_char colon s = true ->
       exists p r,
         s = (p ++ String colon r)%string
         /\ contains_char colon r = false
         /\ spotify_platform_podcast_id pod_data = Ok (PStr r))
      /\ (contains_char colon s = false ->
          spotify_platform_podcast_id pod_data = Ok PNone)
  | PNone => spotify_platform_podcast_id pod_data = Ok PNone
  | _ => True
  end
  /\ (assoc "showUri" pod_data = None -> spotify_platform_podcast_id pod_data = Ok PNone)
  /\ (forall items i today,
        Forall (fun v => spotify_item_ok v = true) items ->
        items !! i = Some (PDict pod_data) ->
        (i < 100)%nat ->
        exists records record platform_podcast_id,
          scrape_spotify_top100 (Body (PList items)) today = Ok records
          /\ records !! i = Some record
          /\ spotify_platform_podcast_id pod_data = Ok platform_podcast_id
          /\ dict_get record "platform_podcast_id" = platform_podcast_id
          /\ dict_get record "rank" = PInt (Z.of_nat i + 1)).
Proof.
  split; [|split].
  - unfold spotify_platform_podcast_id.
    destruct (dict_get_default pod_data "showUri" (PStr "")) as [| | |s| |];
      try exact I; [reflexivity|].
    split.
    + intros Hc. destruct (split_on_last colon s Hc) as (p & r & Hs & Hr & Hl).
      exists p, r. repeat split; try assumption.
      assert (Ht : truthy (PStr s) = true) by (now destruct s).
      rewrite Ht. simpl. rewrite Hc. simpl. now rewrite Hl.
    + intros Hc. destruct (truthy (PStr s)); [|reflexivity]. simpl. now rewrite Hc.
  - intros Habs. unfold spotify_platform_podcast_id, dict_get_default. now rewrite Habs.
  - intros items i today Hok Hi Hlt.
    unfold scrape_spotify_top100, scrape_spotify_try. simpl.
    destruct (spotify_records_lookup (py_slice_to items 100) today) with (i0 := 0)
      as (records & Hrec & Hlook).
    + unfold py_slice_to. simpl. now apply Forall_take.
    + rewrite Hrec. destruct (Hlook i pod_data) as (p & H1 & H2).
      * unfold py_slice_to. simpl. rewrite lookup_take_lt by lia. exact Hi.
      * eexists records, _, p. split; [reflexivity|]. split; [exact H2|].
        split; [exact H1|]. split; [reflexivity|]. simpl. do 2 f_equal.
Qed.

Lemma spotify_platform_podcast_id_after_last_colon_witness :
  (exists p r,
     "spotify:show:4rOoJ6" = (p ++ String colon r)%string
     /\ contains_char colon r = false
     /\ spotify_platform_podcast_id
          [("showName", PStr "S"); ("showUri", PStr "spotify:show:4rOoJ6")] = Ok (PStr r))
  /\ spotify_platform_podcast_id [("showName", PStr "S"); ("showUri", PStr "nocolon")]
     = Ok PNone
  /\ spotify_platform_podcast_id [("showName", PStr "S")] = Ok PNone.
Proof.
  split; [|split].
  - apply (proj1 (spotify_platform_podcast_id_after_last_colon
      [("showName", PStr "S"); ("showUri", PStr "spotify:show:4rOoJ6")])). reflexivity.
  - apply (proj1 (spotify_platform_podcast_id_after_last_colon
      [("showName", PStr "S"); ("showUri", PStr "nocolon")])). reflexivity.
  - apply (proj1 (proj2 (spotify_platform_podcast_id_after_last_colon
      [("showName", PStr "S")]))). reflexivity.
Defined.

Example spotify_platform_podcast_id_show :
  spotify_platform_podcast_id [("showUri", PStr "spotify:show:4rOoJ6")] = Ok (PStr "4rOoJ6").
Proof. reflexivity. Qed.

(* ===================================================================== *)
(** * The average episode duration *)
(* ===================================================================== *)

Lemma round_half_even_bounds (n d : Z) :
  n / d <= round_half_even n d <= n / d + 1.
Proof.
  unfold round_half_even.
  destruct (2 * (n mod d) <? d); [lia|].
  destruct (d <? 2 * (n mod d)); [lia|].
  destruct (Z.even (n / d)); lia.
Qed.

(** Rounding a quotient scaled by more than its divisor does not reach
    the next integer. *)
Lemma scaled_quotient_exact (a b s : Z) :
  0 < b -> b <= a -> 0 < s -> b < 2 ^ s ->
  round_half_even (a * 2 ^ s) b / 2 ^ s = a / b.
Proof.
  intros Hb Hab Hs Hlt.
  pose proof (round_half_even_bounds (a * 2 ^ s) b) as [Hlo Hhi].
  set (m := round_half_even (a * 2 ^ s) b) in *.
  set (P := 2 ^ s) in *.
  assert (HP : 0 < P) by (apply Z.pow_pos_nonneg; lia).
  pose proof (Z.div_mod a b ltac:(lia)) as Ha.
  pose proof (Z.mod_pos_bound a b Hb) as Hr.
  set (q := a / b) in *. set (r := a mod b) in *.
  assert (H1 : q * P <= a * P / b).
  { apply Z.div_le_lower_bound; [lia|]. nia. }
  assert (H2 : a * P / b + 1 < (q + 1) * P).
  { assert (a * P / b < (q + 1) * P - 1); [|lia].
    apply Z.div_lt_upper_bound; [lia|]. nia. }
  symmetry. apply Z.div_unique with (r := m - q * P); lia.
Qed.

(** Below 2^52 the float division loses nothing that [int] keeps. *)
Lemma py_int_truediv_exact (a b : Z) :
  0 < b -> b <= a -> a < 2 ^ 52 -> py_int_truediv a b = Ok (a / b).
Proof.
  intros Hb Hab Ha. unfold py_int_truediv.
  assert (Hla : Z.log2 a < 52) by (apply Z.log2_lt_pow2; lia).
  assert (Hlb : Z.log2 b <= Z.log2 a) by (apply Z.log2_le_mono; lia).
  assert (Hlb0 : 0 <= Z.log2 b) by apply Z.log2_nonneg.
  pose proof (Z.log2_spec b Hb) as [_ Hbhi].
  set (s0 := 52 - (Z.log2 a - Z.log2 b)).
  assert (Hs0 : 0 < s0) by (unfold s0; lia).
  assert (Hpow : b < 2 ^ s0).
  { eapply Z.lt_le_trans; [exact Hbhi|]. apply Z.pow_le_mono_r; unfold s0; lia. }
  assert (Hgoal : forall s, s0 <= s -> int_of_rounded a b s = Ok (a / b)).
  { intros s Hs. unfold int_of_rounded, float_scale. cbn [fst snd].
    destruct (Z.ltb_spec 0 s); [|lia].
    rewrite Z.max_r by lia. rewrite (Z.max_l 0 (- s)) by lia.
    rewrite Z.pow_0_r, Z.mul_1_r. f_equal.
    apply scaled_quotient_exact; try lia.
    eapply Z.lt_le_trans; [exact Hpow|]. apply Z.pow_le_mono_r; lia. }
  destruct (_ <? _); apply Hgoal; lia.
Qed.

(** Where the float division departs from the quotient of the integers:
    it rounds from 2^53 on, and it raises beyond the range of a float. *)
Example py_int_truediv_examples :
  py_int_truediv 3 2 = Ok 1
  /\ py_int_truediv (2 ^ 53 + 1) 1 = Ok (2 ^ 53)
  /\ py_int_truediv (2 ^ 1024) 1 = Raise OverflowError.
Proof. repeat split; vm_compute; reflexivity. Qed.

Lemma positive_durations_sum (episodes : list pyval) :
  Z.of_nat (length (positive_durations episodes)) <= sum_Z (positive_durations episodes).
Proof.
  unfold positive_durations. induction episodes as [|e episodes IH]; [reflexivity|].
  cbn [omap list_omap]. destruct (positive_duration e) as [n|] eqn:Hn; [|exact IH].
  cbn [length sum_Z foldr]. fold (sum_Z (omap positive_duration episodes)).
  assert (0 < n); [|lia].
  unfold positive_duration in Hn. destruct e as [| | | | |d]; try discriminate.
  destruct (dict_get d "duration") as [| |m| | |]; try discriminate.
  destruct (Z.ltb_spec 0 m); [|discriminate]. now injection Hn as <-.
Qed.

Lemma duration_loop_sum (episodes : list pyval) :
  Forall (fun e => episode_ok e = true) episodes ->
  forall total count,
    duration_loop episodes total count
    = Ok (total + sum_Z (positive_durations episodes),
          count + Z.of_nat (length (positive_durations episodes))).
Proof.
  induction 1 as [|e episodes He _ IH]; intros total count.
  - simpl. f_equal. f_equal; lia.
  - destruct e as [| | | | |d]; try discriminate.
    cbn [duration_loop py_get py_get_default bind].
    unfold positive_durations. cbn [omap list_omap positive_duration].
    fold (positive_durations episodes).
    unfold episode_ok in He. unfold dict_get in *.
    destruct (dict_get_default d "duration" PNone) as [|b|n| | |] eqn:E;
      unfold dict_get_default in E; rewrite E in *; try discriminate; try apply IH.
    destruct (0 <? n); [|apply IH].
    rewrite IH. cbn [sum_Z foldr length]. fold (sum_Z (positive_durations episodes)).
    f_equal. f_equal; lia.
Qed.

(** [isinstance(True, int)] holds in Python: a duration [true] is counted
    as one second. *)
Example duration_true_counts_as_one :
  get_latest_episode_info
    (Body (PDict [("items", PList [PDict [("title", PStr "a"); ("duration", PBool true)];
                                   PDict [("title", PStr "b"); ("duration", PInt 9)]])]))
  = (PInt 5, PStr "a").
Proof. reflexivity. Qed.

(** C5 as the specification states it fails when the mean is no integer:
    durations 1 and 2 have the arithmetic mean 3/2, and the fetcher returns
    [int(3 / 2)], which is 1. *)
Lemma avg_duration_truncated_counterexample :
  let episodes := [PDict [("title", PStr "b"); ("duration", PInt 1)];
                   PDict [("title", PStr "a"); ("duration", PInt 2)]] in
  positive_durations episodes = [1; 2]
  /\ fst (get_latest_episode_info (Body (PDict [("items", PList episodes)]))) = PInt 1
  /\ ~ Qeq (inject_Z 1) (Qmake (sum_Z [1; 2]) 2).
Proof. split; [reflexivity|]. split; [reflexivity|]. discriminate. Qed.

(** C5 (amended): when the episodes fetched are objects, none with a
    boolean duration, and the durations that are positive integers sum to
    less than 2^52, [avg_duration_last_10] is the arithmetic mean of those
    durations, rounded down to an integer, and [None] when there is no such
    duration; durations 100, 0, 200 give 150 and the single duration 0 gives
    [None]. *)
Theorem avg_duration_is_floor_of_mean (data : list (string * pyval)) (episodes : list pyval) :
  dict_get_default data "items" (PList []) = PList episodes ->
  Forall (fun e => episode_ok e = true) episodes ->
  sum_Z (positive_durations episodes) < 2 ^ 52 ->
  let durations := positive_durations episodes in
  let n := Z.of_nat (length durations) in
  match fst (get_latest_episode_info (Body (PDict data))) with
  | PInt avg =>
      0 < n /\ avg = sum_Z durations / n
      /\ avg * n <= sum_Z durations < (avg + 1) * n
  | PNone => durations = []
  | _ => False
  end
  /\ fst (get_latest_episode_info
            (Body (PDict [("items", PList [PDict [("duration", PInt 100)];
                                           PDict [("duration", PInt 0)];
                                           PDict [("duration", PInt 200)]])]))) = PInt 150
  /\ fst (get_latest_episode_info
            (Body (PDict [("items", PList [PDict [("duration", PInt 0)]])]))) = PNone.
Proof.
  intros Hitems Hok Hbound durations n. split; [|split; vm_compute; reflexivity].
  pose proof (positive_durations_sum episodes) as Hsum. fold durations n in Hsum, Hbound.
  unfold get_latest_episode_info, get_latest_episode_info_try.
  cbn [http_json bind py_get_default]. rewrite Hitems.
  destruct episodes as [|e episodes]; [reflexivity|].
  cbn [truthy negb py_index0 bind py_iter].
  assert (He : is_dict e = true).
  { inversion Hok as [|? ? H1 _]; subst. now destruct e. }
  destruct e as [| | | | |d]; try discriminate.
  cbn [py_get py_get_default bind].
  rewrite (duration_loop_sum _ Hok). cbn [bind].
  fold durations. rewrite !Z.add_0_l. fold n.
  destruct (Z.ltb_spec 0 n) as [Hn|Hn]; cbn [fst].
  - rewrite py_int_truediv_exact by lia. cbn [bind fst].
    split; [exact Hn|]. split; [reflexivity|].
    pose proof (Z.mul_div_le (sum_Z durations) n Hn).
    pose proof (Z.mul_succ_div_gt (sum_Z durations) n Hn). lia.
  - subst n. destruct durations; [reflexivity|simpl in Hn; lia].
Qed.

Lemma avg_duration_is_floor_of_mean_witness :
  fst (get_latest_episode_info
         (Body (PDict [("items", PList [PDict [("title", PStr "b"); ("duration", PInt 1)];
                                        PDict [("title", PStr "a"); ("duration", PInt 2)];
                                        PDict [("title", PStr "c")]])]))) = PInt 1.
Proof.
  pose proof (avg_duration_is_floor_of_mean
    [("items", PList [PDict [("title", PStr "b"); ("duration", PInt 1)];
                      PDict [("title", PStr "a"); ("duration", PInt 2)];
                      PDict [("title", PStr "c")]])]
    [PDict [("title", PStr "b"); ("duration", PInt 1)];
     PDict [("title", PStr "a"); ("duration", PInt 2)];
     PDict [("title", PStr "c")]] eq_refl) as H.
  destruct H as [H _]; [repeat constructor|reflexivity|].
  destruct (fst (get_latest_episode_info _)) as [| |avg| | |];
    try contradiction; [discriminate H|].
  destruct H as (_ & -> & _). reflexivity.
Defined.

(* ===================================================================== *)
(** * The chart store *)
(* ===================================================================== *)

Lemma bind_param_text (v : pyval) :
  is_text_or_null v = true -> bind_param v = Ok (bound_or_null v).
Proof. now destruct v. Qed.

Lemma bind_param_int64 (n : Z) :
  fits_int64 n = true -> bind_param (PInt n) = Ok (SInt n) /\ bound_or_null (PInt n) = SInt n.
Proof. intros H. unfold bound_or_null. cbn [bind_param]. now rewrite H. Qed.

Lemma chart_entry_key (r : list (string * pyval)) :
  chart_entry r = true ->
  chart_key (entry_row r) = entry_key r
  /\ row_platform (entry_row r) <> SNull
  /\ row_rank (entry_row r) <> SNull
  /\ row_date (entry_row r) <> SNull.
Proof.
  unfold chart_entry, entry_key, chart_key, entry_row, dict_get. cbn [row_platform row_rank row_date].
  destruct (assoc "platform" r) as [[| | |p| |]|]; try discriminate.
  destruct (assoc "rank" r) as [[| |n| | |]|]; try discriminate.
  destruct (assoc "date" r) as [[| | |d| |]|]; try discriminate.
  intros Hr. apply andb_true_iff in Hr as [Hr _]. apply andb_true_iff in Hr as [Hn _].
  destruct (bind_param_int64 n Hn) as [_ ->]. repeat split; discriminate.
Qed.

(** One turn of the loop on a ChartEntry-shaped record. *)
Lemma save_loop_entry (r : list (string * pyval)) (rest : list (list (string * pyval)))
    (table : list chart_row) (insert_count ignore_count : Z) :
  chart_entry r = true ->
  save_loop (r :: rest) table insert_count ignore_count
  = if bool_decide (Exists (fun r' => chart_key r' = entry_key r) table)
    then save_loop rest table insert_count (ignore_count + 1)
    else save_loop rest (table ++ [entry_row r]) (insert_count + 1) ignore_count.
Proof.
  intros Hr. destruct (chart_entry_key r Hr) as (Hk & Hp & Hn & Hd).
  cbn [save_loop].
  assert (Hkeys : has_key "platform" r && has_key "rank" r && has_key "date" r = true).
  { unfold chart_entry in Hr. unfold has_key.
    destruct (assoc "platform" r); [|discriminate].
    destruct (assoc "rank" r); [|now destruct p].
    destruct (assoc "date" r); [reflexivity|]. destruct p; try discriminate.
    now destruct p0. }
  rewrite Hkeys. cbn [negb].
  assert (Hb : bind_params [dict_get r "platform"; dict_get r "rank"; dict_get r "title";
                            dict_get r "platform_podcast_id"; dict_get r "date"]
               = Ok [row_platform (entry_row r); row_rank (entry_row r);
                     row_title (entry_row r); row_platform_podcast_id (entry_row r);
                     row_date (entry_row r)]).
  { unfold chart_entry in Hr. unfold dict_get in *. cbn [entry_row row_platform row_rank
      row_title row_platform_podcast_id row_date]. unfold dict_get.
    destruct (assoc "platform" r) as [[| | |p| |]|]; try discriminate.
    destruct (assoc "rank" r) as [[| |n| | |]|]; try discriminate.
    destruct (assoc "date" r) as [[| | |d| |]|]; try discriminate.
    apply andb_true_iff in Hr as [Hr Hi]. apply andb_true_iff in Hr as [Hfit Ht].
    destruct (bind_param_int64 n Hfit) as [Hbn ->].
    cbn [bind_params bind]. rewrite Hbn. cbn [bind_param bind].
    rewrite (bind_param_text _ Ht). cbn [bind].
    rewrite (bind_param_text _ Hi). reflexivity. }
  rewrite Hb.
  replace {| row_platform := row_platform (entry_row r); row_rank := row_rank (entry_row r);
             row_title := row_title (entry_row r);
             row_platform_podcast_id := row_platform_podcast_id (entry_row r);
             row_date := row_date (entry_row r) |} with (entry_row r) by reflexivity.
  unfold insert_or_ignore_top100.
  rewrite bool_decide_eq_false_2 by tauto.
  rewrite Hk. destruct (bool_decide _); reflexivity.
Qed.

Lemma rows_with_key_app (key : sqlval * sqlval * sqlval) (t1 t2 : list chart_row) :
  rows_with_key key (t1 ++ t2) = (rows_with_key key t1 + rows_with_key key t2)%nat.
Proof. unfold rows_with_key. now rewrite filter_app, length_app. Qed.

Lemma rows_with_key_absent (key : sqlval * sqlval * sqlval) (table : list chart_row) :
  ~ Exists (fun r => chart_key r = key) table -> rows_with_key key table = 0%nat.
Proof.
  intros H. unfold rows_with_key.
  induction table as [|r table IH]; [reflexivity|].
  rewrite filter_cons. destruct (decide (chart_key r = key)) as [E|E].
  - exfalso. apply H. now left.
  - apply IH. intros H'. apply H. now right.
Qed.

Lemma rows_with_key_present (key : sqlval * sqlval * sqlval) (table : list chart_row) :
  unique_keys table ->
  Exists (fun r => chart_key r = key) table -> rows_with_key key table = 1%nat.
Proof.
  unfold unique_keys, rows_with_key. induction table as [|r table IH]; intros Hu He.
  - inversion He.
  - rewrite fmap_cons in Hu. apply NoDup_cons in Hu as [Hnotin Hu].
    rewrite filter_cons. destruct (decide (chart_key r = key)) as [E|E].
    + cbn [length]. f_equal. apply rows_with_key_absent.
      intros Hex. apply Hnotin. apply Exists_exists in Hex as (r' & Hin & Hk).
      apply list_elem_of_fmap. exists r'. split; [congruence|exact Hin].
    + apply IH; [exact Hu|]. inversion He; subst; [contradiction|assumption].
Qed.

Lemma chart_entry_platform (r : list (string * pyval)) :
  chart_entry r = true -> exists p, assoc "platform" r = Some p.
Proof.
  unfold chart_entry. destruct (assoc "platform" r); [eauto|discriminate].
Qed.

(** Saving one ChartEntry-shaped record. *)
Lemma save_one_entry (db : database) (r : list (string * pyval)) :
  chart_entry r = true ->
  save_chart_data_to_db [r] true db
  = Ok (if bool_decide (Exists (fun r' => chart_key r' = entry_key r) (Top100Lists db))
        then (with_chart_rows db (Top100Lists db), Complete 0 1)
        else (with_chart_rows db (Top100Lists db ++ [entry_row r]), Complete 1 0)).
Proof.
  intros Hr. destruct (chart_entry_platform r Hr) as [p Hp].
  unfold save_chart_data_to_db. cbn [negb]. rewrite Hp.
  rewrite save_loop_entry by exact Hr. cbn [save_loop].
  now destruct (bool_decide _).
Qed.

(** Saving two ChartEntry-shaped records with the same triple in one batch. *)
Lemma save_two_entries (db : database) (r1 r2 : list (string * pyval)) :
  chart_entry r1 = true ->
  chart_entry r2 = true ->
  entry_key r1 = entry_key r2 ->
  save_chart_data_to_db [r1; r2] true db
  = Ok (if bool_decide (Exists (fun r' => chart_key r' = entry_key r1) (Top100Lists db))
        then (with_chart_rows db (Top100Lists db), Complete 0 2)
        else (with_chart_rows db (Top100Lists db ++ [entry_row r1]), Complete 1 1)).
Proof.
  intros Hr1 Hr2 Hkey. destruct (chart_entry_platform r1 Hr1) as [p Hp].
  destruct (chart_entry_key r1 Hr1) as (Hk & _).
  unfold save_chart_data_to_db. cbn [negb]. rewrite Hp.
  rewrite !save_loop_entry by assumption. cbn [save_loop]. rewrite <- Hkey.
  destruct (bool_decide (Exists _ (Top100Lists db))) eqn:E.
  - reflexivity.
  - rewrite bool_decide_eq_true_2; [reflexivity|].
    apply Exists_app. right. now left.
Qed.

(** C6: from any state of the chart store that satisfies its uniqueness
    constraint, saving two ChartEntry-shaped records (a textual platform and
    date, a rank that is an integer of 64 bits, a title and an identifier
    that are text or absent) with the same (platform, rank, date) triple (in
    two calls, or in one batch) leaves exactly one row with that triple.  The second attempt leaves the table as
    the first left it, so the row is not overwritten, and it is counted as
    ignored; it never adds to the inserted count. *)
Theorem chart_insert_twice_leaves_one_row (db : database) (r1 r2 : list (string * pyval)) :
  chart_entry r1 = true ->
  chart_entry r2 = true ->
  entry_key r1 = entry_key r2 ->
  unique_keys (Top100Lists db) ->
  exists db1 report1 db12 report12,
    save_chart_data_to_db [r1] true db = Ok (db1, report1)
    /\ save_chart_data_to_db [r2] true db1 = Ok (db1, Complete 0 1)
    /\ rows_with_key (entry_key r1) (Top100Lists db1) = 1%nat
    /\ save_chart_data_to_db [r1; r2] true db = Ok (db12, report12)
    /\ Top100Lists db12 = Top100Lists db1
    /\ rows_with_key (entry_key r1) (Top100Lists db12) = 1%nat
    /\ (report12 = Complete 1 1 \/ report12 = Complete 0 2).
Proof.
  intros Hr1 Hr2 Hkey Hu.
  destruct (chart_entry_key r1 Hr1) as (Hk & _).
  assert (Hnew : Exists (fun r' => chart_key r' = entry_key r1)
                   (Top100Lists db ++ [entry_row r1])).
  { apply Exists_app. right. now left. }
  rewrite (save_one_entry db r1 Hr1), (save_two_entries db r1 r2 Hr1 Hr2 Hkey).
  destruct (bool_decide (Exists _ (Top100Lists db))) eqn:E.
  - apply bool_decide_eq_true in E.
    do 4 eexists. split; [reflexivity|].
    rewrite (save_one_entry _ r2 Hr2), <- Hkey. cbn [with_chart_rows Top100Lists].
    rewrite bool_decide_eq_true_2 by exact E.
    split; [reflexivity|]. split; [now apply rows_with_key_present|].
    split; [reflexivity|]. split; [reflexivity|].
    split; [now apply rows_with_key_present|now right].
  - apply bool_decide_eq_false in E.
    assert (Hone : rows_with_key (entry_key r1) (Top100Lists db ++ [entry_row r1]) = 1%nat).
    { rewrite rows_with_key_app, (rows_with_key_absent _ _ E).
      unfold rows_with_key. now rewrite filter_cons, decide_True by exact Hk. }
    do 4 eexists. split; [reflexivity|].
    rewrite (save_one_entry _ r2 Hr2), <- Hkey. cbn [with_chart_rows Top100Lists].
    rewrite bool_decide_eq_true_2 by exact Hnew.
    split; [reflexivity|]. split; [exact Hone|].
    split; [reflexivity|]. split; [reflexivity|]. split; [exact Hone|now left].
Qed.

Lemma chart_insert_twice_leaves_one_row_witness :
  let r1 := [("platform", PStr "Apple"); ("rank", PInt 1); ("title", PStr "The Daily");
             ("platform_podcast_id", PStr "1200361736"); ("date", PStr "2026-01-01")] in
  let r2 := [("platform", PStr "Apple"); ("rank", PInt 1); ("title", PStr "Up First");
             ("platform_podcast_id", PNone); ("date", PStr "2026-01-01")] in
  let db := {| Top100Lists :=
                 [{| row_platform := SText "Apple"; row_rank := SInt 2;
                     row_title := SText "Up First"; row_platform_podcast_id := SNull;
                     row_date := SText "2026-01-01" |}];
               Podcasts := ∅; Categories := ∅; PodcastCategories := ∅ |} in
  exists db1 report1,
    save_chart_data_to_db [r1] true db = Ok (db1, report1)
    /\ save_chart_data_to_db [r2] true db1 = Ok (db1, Complete 0 1).
Proof.
  intros r1 r2 db.
  destruct (chart_insert_twice_leaves_one_row db r1 r2)
    as (db1 & report1 & _ & _ & H1 & H2 & _).
  - reflexivity.
  - reflexivity.
  - reflexivity.
  - unfold unique_keys. simpl. apply NoDup_singleton.
  - exists db1, report1. split; [exact H1|exact H2].
Defined.

(** A batch whose first record lacks its platform is not saved at all: the
    log line prepared before the loop raises. *)
Example save_chart_data_first_record_without_platform :
  save_chart_data_to_db
    [[("rank", PInt 1); ("date", PStr "2026-01-01")];
     [("platform", PStr "Apple"); ("rank", PInt 2); ("date", PStr "2026-01-01")]]
    true empty_database
  = Raise KeyError.
Proof. reflexivity. Qed.

(* ===================================================================== *)
(** * The spreadsheet publisher *)
(* ===================================================================== *)

(** A failure the inner handlers catch (a missing worksheet, a
    [sqlite3.Error], a gspread [APIError]) is logged and the loop goes on
    with the next configured tab. *)
Lemma tabs_loop_isolates_caught (w : sheet_world) (query worksheet_name : string)
    (rest : list (string * string)) (sheets : gmap string (list (list sqlval))) :
  let '(sheets', ended) := tab_try w sheets query worksheet_name in
  (ended = Ok false \/ ended = Raise SqliteError \/ ended = Raise GspreadAPIError) ->
  exists event,
    tabs_loop w ((query, worksheet_name) :: rest) sheets
    = (let '(sheets'', log, raised) := tabs_loop w rest sheets' in
       (sheets'', event :: log, raised))
    /\ (event = NotFound worksheet_name \/ exists e, event = TabError worksheet_name e).
Proof.
  cbn [tabs_loop]. destruct (tab_try w sheets query worksheet_name) as [sheets' ended].
  intros [-> | [-> | ->]]; eexists; (split; [reflexivity|]); eauto.
Qed.

(** Any other exception that leaves the body of a tab ends the loop: the
    tabs configured after it are not processed. *)
Lemma tabs_loop_stops_on_other (w : sheet_world) (query worksheet_name : string)
    (rest : list (string * string)) (sheets : gmap string (list (list sqlval))) (e : exn) :
  setup w = Ok () ->
  (tab_try w sheets query worksheet_name).2 = Raise e ->
  e <> SqliteError -> e <> GspreadAPIError ->
  update_multiple_google_sheets w sheets ((query, worksheet_name) :: rest)
  = ((tab_try w sheets query worksheet_name).1, [CriticalError NameError]).
Proof.
  intros Hs He H1 H2. unfold update_multiple_google_sheets. rewrite Hs. cbn [tabs_loop].
  destruct (tab_try w sheets query worksheet_name) as [sheets' ended].
  simpl in He. subst ended. now destruct e.
Qed.

(** C9 says that a failure while processing one tab is logged, that the
    tab is skipped and that every later tab is still processed and written.
    The code departs from it at this input: the query of the first configured
    view raises an exception that is neither a [sqlite3.Error] nor a gspread
    [APIError].  The run logs one critical error and writes no tab, although
    every later tab exists and is written when the run starts after the
    failing view. *)
Theorem publisher_unexpected_error_stops_loop :
  update_multiple_google_sheets first_query_fails ∅ QUERY_CONFIGS
  = (∅, [CriticalError NameError])
  /\ (update_multiple_google_sheets first_query_fails ∅ (tail QUERY_CONFIGS)).2
     = [Updated "NewEntries"; Updated "PlatformOverlap";
        Updated "RankChanges"; Updated "TimeOnList"]
  /\ (update_multiple_google_sheets first_query_fails ∅ (tail QUERY_CONFIGS)).1 !! "NewEntries"
     = Some [[SText "title"]; [SText "The Daily"]; [SText ""]].
Proof. split; [|split]; vm_compute; reflexivity. Qed.

(* ===================================================================== *)
(** * The detail store writer *)
(* ===================================================================== *)

Example py_int_examples :
  py_int "12" = Ok 12 /\ py_int " 7 " = Ok 7 /\ py_int "-3" = Ok (-3)
  /\ py_int "1_000" = Ok 1000 /\ py_int "" = Raise ValueError
  /\ py_int "9a" = Raise ValueError /\ py_int "1__0" = Raise ValueError
  /\ py_int "+" = Raise ValueError.
Proof. repeat split. Qed.


(** Binding raises for a value [sqlite3] does not support, a
    [sqlite3.Error], or for an integer outside 64 bits. *)
Lemma bind_param_raises (v : pyval) (e : exn) :
  bind_param v = Raise e -> e = SqliteError \/ e = OverflowError.
Proof.
  destruct v as [| |n| | |]; cbn [bind_param]; try discriminate.
  - destruct (fits_int64 n); [discriminate|]. intros [= <-]. now right.
  - intros [= <-]. now left.
  - intros [= <-]. now left.
Qed.

Lemma bind_params_raises (vs : list pyval) (e : exn) :
  bind_params vs = Raise e -> e = SqliteError \/ e = OverflowError.
Proof.
  induction vs as [|v vs IH]; cbn [bind_params]; [discriminate|].
  destruct (bind_param v) as [b|e'] eqn:Ev; cbn [bind].
  - destruct (bind_params vs) as [bs|e'']; cbn [bind]; [discriminate|].
    intros [= <-]. now apply IH.
  - intros [= <-]. exact (bind_param_raises v _ Ev).
Qed.

Lemma count_events_app (f : write_event -> bool) (l1 l2 : list write_event) :
  count_events f (l1 ++ l2) = count_events f l1 + count_events f l2.
Proof. unfold count_events. rewrite List.filter_app, length_app. lia. Qed.

Ltac count_singletons :=
  unfold count_events in *;
  cbn [List.filter is_category_error is_update_error length] in *.

Section WriterFacts.

Variable w : world.

Lemma insert_or_replace_podcast_raises (db : database) (params : list pyval) (e : exn) :
  insert_or_replace_podcast db params = Raise e -> e = SqliteError \/ e = OverflowError.
Proof.
  unfold insert_or_replace_podcast.
  destruct (bind_params params) as [[|[| |] cols]|e'] eqn:E; cbn [bind];
    try discriminate; try (intros [= <-]; now left).
  intros [= <-]. exact (bind_params_raises _ _ E).
Qed.

Lemma delete_links_raises (db : database) (feed_id : pyval) (e : exn) :
  delete_links db feed_id = Raise e -> e = SqliteError \/ e = OverflowError.
Proof.
  unfold delete_links. destruct (bind_param feed_id) as [[| |]|e'] eqn:E; cbn [bind];
    try discriminate.
  intros [= <-]. exact (bind_param_raises _ _ E).
Qed.

Lemma insert_or_ignore_category_raises (db : database) (cat_id : Z) (cat_name : pyval)
    (e : exn) :
  insert_or_ignore_category db cat_id cat_name = Raise e ->
  e = SqliteError \/ e = OverflowError.
Proof.
  unfold insert_or_ignore_category.
  destruct (bind_param (PInt cat_id)) as [b|e1] eqn:E1; cbn [bind].
  - destruct (bind_param cat_name) as [name|e2] eqn:E2; cbn [bind].
    + repeat case_bool_decide; discriminate.
    + intros [= <-]. exact (bind_param_raises _ _ E2).
  - intros [= <-]. exact (bind_param_raises _ _ E1).
Qed.

Lemma insert_or_ignore_link_raises (db : database) (feed_id : pyval) (cat_id : Z) (e : exn) :
  insert_or_ignore_link db feed_id cat_id = Raise e -> e = SqliteError \/ e = OverflowError.
Proof.
  unfold insert_or_ignore_link.
  destruct (bind_param feed_id) as [b|e1] eqn:E1; cbn [bind].
  - destruct (bind_param (PInt cat_id)) as [c|e2] eqn:E2; cbn [bind].
    + destruct b; try discriminate; [|intros [= <-]; now left].
      repeat case_bool_decide; try discriminate. intros [= <-]. now left.
    + intros [= <-]. exact (bind_param_raises _ _ E2).
  - intros [= <-]. exact (bind_param_raises _ _ E1).
Qed.

Lemma insert_or_ignore_category_podcasts (db db' : database) (cat_id : Z) (cat_name : pyval) :
  insert_or_ignore_category db cat_id cat_name = Ok db' ->
  Podcasts db' = Podcasts db /\ PodcastCategories db' = PodcastCategories db.
Proof.
  unfold insert_or_ignore_category.
  destruct (bind_param (PInt cat_id)); [|discriminate]. cbn [bind].
  destruct (bind_param cat_name) as [name|]; [|discriminate].
  cbn [bind]. repeat case_bool_decide; intros [= <-]; auto.
Qed.

Lemma insert_or_ignore_link_podcasts (db db' : database) (feed_id : pyval) (cat_id : Z) :
  insert_or_ignore_link db feed_id cat_id = Ok db' ->
  Podcasts db' = Podcasts db /\ Categories db' = Categories db.
Proof.
  unfold insert_or_ignore_link. destruct (bind_param feed_id) as [b|]; [|discriminate].
  cbn [bind]. destruct (bind_param (PInt cat_id)); [|discriminate]. cbn [bind].
  destruct b; try discriminate; [now intros [= <-]|].
  repeat case_bool_decide; try discriminate; intros [= <-]; auto.
Qed.

Lemma delete_links_podcasts (db db' : database) (feed_id : pyval) :
  delete_links db feed_id = Ok db' -> Podcasts db' = Podcasts db.
Proof.
  unfold delete_links. destruct (bind_param feed_id) as [b|]; [|discriminate].
  cbn [bind]. destruct b; now intros [= <-].
Qed.

Lemma execute_ok (s : statement) (op : result database) (db : database) :
  execute w s op = Ok db -> op = Ok db.
Proof.
  unfold execute. destruct op as [db'|e].
  - now destruct (disk_fault w s).
  - destruct e; try discriminate; now destruct (disk_fault w s).
Qed.

(** A statement raises [sqlite3.Error] or, from binding, [OverflowError]. *)
Lemma execute_raises (s : statement) (op : result database) (e : exn) :
  (forall e', op = Raise e' -> e' = SqliteError \/ e' = OverflowError) ->
  execute w s op = Raise e -> e = SqliteError \/ e = OverflowError.
Proof.
  intros Hop. unfold execute. destruct op as [db|e'].
  - destruct (disk_fault w s); [|discriminate]. intros [= <-]. now left.
  - destruct (Hop e' eq_refl) as [-> | ->].
    + destruct (disk_fault w s); intros [= <-]; now left.
    + intros [= <-]. now right.
Qed.

(** The category loop leaves [Podcasts] alone, counts exactly the errors
    it logs, logs no error of the podcast itself, and is left only by an
    [OverflowError]. *)
Lemma category_loop_facts (feed_id : pyval) (items : list (string * pyval)) :
  forall db errors log,
    Podcasts (category_loop w feed_id items db errors log).1.1.1 = Podcasts db
    /\ (category_loop w feed_id items db errors log).1.1.2
       - count_events is_category_error (category_loop w feed_id items db errors log).1.2
       = errors - count_events is_category_error log
    /\ count_events is_update_error (category_loop w feed_id items db errors log).1.2
       = count_events is_update_error log
    /\ errors <= (category_loop w feed_id items db errors log).1.1.2
    /\ (forall e, (category_loop w feed_id items db errors log).2 = Some e ->
                  e = OverflowError).
Proof.
  induction items as [|[cat_id_str cat_name] items IH]; intros db errors log.
  - cbn. repeat split; try lia. discriminate.
  - cbn [category_loop].
    destruct (negb (truthy (PStr cat_id_str)) || negb (truthy cat_name)); [apply IH|].
    destruct (py_int cat_id_str) as [cat_id|].
    2:{ destruct (IH db (errors + 1) (log ++ [InvalidCategoryId cat_id_str]))
          as (H1 & H2 & H3 & H4 & H5).
        rewrite count_events_app in H2, H3. count_singletons.
        repeat split; try assumption; lia. }
    destruct (execute w (InsertCategory cat_id cat_name) _) as [db1|e] eqn:E1.
    + apply execute_ok, insert_or_ignore_category_podcasts in E1 as [Hp1 _].
      destruct (execute w (InsertLink feed_id cat_id) _) as [db2|e] eqn:E2.
      * apply execute_ok, insert_or_ignore_link_podcasts in E2 as [Hp2 _].
        destruct (IH db2 errors log) as (H1 & H2 & H3 & H4 & H5).
        repeat split; try assumption. congruence.
      * destruct (execute_raises _ _ _ (insert_or_ignore_link_raises _ _ _) E2) as [-> | ->].
        -- destruct (IH db1 (errors + 1) (log ++ [CategoryError cat_id_str]))
             as (H1 & H2 & H3 & H4 & H5).
           rewrite count_events_app in H2, H3. count_singletons.
           repeat split; try assumption; try lia. congruence.
        -- cbn [fst snd]. repeat split; try lia; [exact Hp1|]. now intros e [= <-].
    + destruct (execute_raises _ _ _ (insert_or_ignore_category_raises _ _ _) E1) as [-> | ->].
      * destruct (IH db (errors + 1) (log ++ [CategoryError cat_id_str]))
          as (H1 & H2 & H3 & H4 & H5).
        rewrite count_events_app in H2, H3. count_singletons.
        repeat split; try assumption; lia.
      * cbn [fst snd]. repeat split; try lia. now intros e [= <-].
Qed.

Lemma write_categories_facts (feed_id categories_dict : pyval) (db : database)
    (errors : Z) (log : list write_event) :
  Podcasts (write_categories w feed_id categories_dict db errors log).1.1.1 = Podcasts db
  /\ (write_categories w feed_id categories_dict db errors log).1.1.2
     - count_events is_category_error
         (write_categories w feed_id categories_dict db errors log).1.2
     = errors - count_events is_category_error log
  /\ count_events is_update_error (write_categories w feed_id categories_dict db errors log).1.2
     = count_events is_update_error log
  /\ errors <= (write_categories w feed_id categories_dict db errors log).1.1.2
  /\ (forall e, (write_categories w feed_id categories_dict db errors log).2 = Some e ->
                e = OverflowError).
Proof.
  unfold write_categories.
  destruct (execute w (DeleteLinks feed_id) _) as [db1|e] eqn:E.
  - apply execute_ok, delete_links_podcasts in E.
    destruct categories_dict as [| | | | |[|item items]]; cbn [fst snd];
      try (repeat split; try lia; [exact E|discriminate]).
    destruct (category_loop_facts feed_id (item :: items) db1 errors log)
      as (H1 & H2 & H3 & H4 & H5).
    repeat split; try assumption. congruence.
  - destruct (execute_raises _ _ _ (delete_links_raises _ _) E) as [-> | ->]; cbn [fst snd].
    + rewrite !count_events_app. count_singletons. repeat split; try lia. discriminate.
    + repeat split; try lia. now intros e [= <-].
Qed.

End WriterFacts.




Lemma bind_param_null (v : pyval) : bind_param v = Ok SNull -> truthy v = false.
Proof.
  destruct v as [| |n| | |]; try discriminate; try reflexivity.
  cbn [bind_param]. destruct (fits_int64 n); discriminate.
Qed.


Section CategoryLinks.

Variable w : world.
Variable naming : Z -> sqlval.
Variable podcast_id : Z.
Variable feed_id : pyval.

Hypothesis no_fault : forall s, disk_fault w s = false.
Hypothesis naming_inj : forall c1 c2, naming c1 = naming c2 -> c1 = c2.
Hypothesis feed_id_bound : bind_param feed_id = Ok (SInt podcast_id).






End CategoryLinks.


(** The same happens to an identifier whose name is already stored under
    another identifier: the category row is ignored and the link breaks its
    foreign key. *)
Example category_name_clash_leaves_no_link :
  let r1 := (write_podcast sound_disk fresh_run (PInt 1) (podcast_params 1 "T")
               (PDict [("1", PStr "News")])).1 in
  let r2 := (write_podcast sound_disk r1 (PInt 1) (podcast_params 1 "T")
               (PDict [("2", PStr "News")])).1 in
  category_links 1 (committed (conn r2)) = ∅
  /\ category_link_errors r2 = 1
  /\ log r2 = [Success (PInt 1); CategoryError "2"; Success (PInt 1)].
Proof. repeat split; vm_compute; reflexivity. Qed.

(** An identifier outside the 64 bits of an SQLite integer ends the run:
    binding it raises [OverflowError], which no handler of the loop catches;
    the transaction of the podcast is discarded. *)
Example category_id_overflow_ends_the_run :
  let written :=
    write_podcast sound_disk fresh_run (PInt 1) (podcast_params 1 "T")
      (PDict [("1", PStr "News"); ("9223372036854775808", PStr "Comedy")]) in
  written.2 = Some OverflowError
  /\ committed (conn written.1) = empty_database
  /\ working (conn written.1) = empty_database.
Proof. repeat split; vm_compute; reflexivity. Qed.



(** A whole run: the podcast whose upsert fails is rolled back and counted
    in [update_errors], the run goes on, and the other podcast is committed
    with the one link that passed, its two category failures counted. *)
Example update_all_podcast_details_run :
  let '(db, update_errors, category_link_errors) :=
    update_all_podcast_details sequence_matcher_ratio example_directory example_store in
  update_errors = 1
  /\ category_link_errors = 2
  /\ dom (Podcasts db) = {[ 2 ]}
  /\ PodcastCategories db = {[ (2, 1) ]}
  /\ Categories db = {[ 1 := SText "News"; 7 := SText "History" ]}
  /\ Podcasts db !! 2
     = Some [SText "Up First"; SText "The news in ten minutes";
             SText "https://feeds.example/upfirst"; SNull; SNull; SInt 750;
             SText "Monday"; SNull; SNull; SNull].
Proof. vm_compute. repeat split. Qed.



(* ===================================================================== *)
(** * More on the chart store *)
(* ===================================================================== *)

Ltac triple_eq :=
  apply (f_equal2 pair); [apply (f_equal2 pair); [reflexivity|lia]|lia].

(** One turn of the loop of the chart writer, on any record. *)
Lemma save_loop_step (r : list (string * pyval)) (rest : list (list (string * pyval)))
    (table : list chart_row) (insert_count ignore_count : Z) :
  save_loop (r :: rest) table insert_count ignore_count
  = match record_raises r with
    | Some e => Raise e
    | None =>
        match record_row r with
        | None => save_loop rest table insert_count ignore_count
        | Some row =>
            if 0 <? (insert_or_ignore_top100 table row).2
            then save_loop rest (insert_or_ignore_top100 table row).1
                   (insert_count + 1) ignore_count
            else save_loop rest (insert_or_ignore_top100 table row).1
                   insert_count (ignore_count + 1)
        end
    end.
Proof.
  cbn [save_loop]. unfold record_row, record_raises.
  destruct (has_key "platform" r && has_key "rank" r && has_key "date" r);
    cbn [negb]; [|reflexivity].
  cbn [bind_params bind].
  destruct (bind_param (dict_get r "platform")) as [?|[]]; cbn [bind]; try reflexivity.
  destruct (bind_param (dict_get r "rank")) as [?|[]]; cbn [bind]; try reflexivity.
  destruct (bind_param (dict_get r "title")) as [?|[]]; cbn [bind]; try reflexivity.
  destruct (bind_param (dict_get r "platform_podcast_id")) as [?|[]]; cbn [bind];
    try reflexivity.
  destruct (bind_param (dict_get r "date")) as [?|[]]; cbn [bind]; try reflexivity.
  now destruct (insert_or_ignore_top100 _ _).
Qed.


Lemma insert_or_ignore_top100_cases (table : list chart_row) (row : chart_row) :
  (insert_or_ignore_top100 table row = (table, 0)
   /\ (null_key row \/ Exists (fun r => chart_key r = chart_key row) table))
  \/ (insert_or_ignore_top100 table row = (table ++ [row], 1)
      /\ ~ null_key row
      /\ ~ Exists (fun r => chart_key r = chart_key row) table).
Proof.
  unfold insert_or_ignore_top100, null_key.
  case_bool_decide as Hn; [left; split; [reflexivity|now left]|].
  case_bool_decide as He; [left; split; [reflexivity|now right]|].
  right. split; [reflexivity|]. split; assumption.
Qed.

Lemma unique_keys_snoc (table : list chart_row) (row : chart_row) :
  unique_keys table ->
  ~ Exists (fun r => chart_key r = chart_key row) table ->
  unique_keys (table ++ [row]).
Proof.
  unfold unique_keys. intros Hu Hn. rewrite fmap_app. apply NoDup_app.
  split; [exact Hu|]. split; [|apply NoDup_singleton].
  intros k Hk Hk'. apply list_elem_of_fmap in Hk as (r & -> & Hr).
  apply list_elem_of_singleton in Hk'. apply Hn. apply Exists_exists. now exists r.
Qed.

(** The loop of the chart writer from any state.  It is left by an
    exception exactly at the first record whose insert raises one that is no
    [sqlite3.Error].  Otherwise the rows it adds go to the end of the table,
    in the order of the batch; an added row is counted as inserted and every
    other record whose insert ran as ignored; the uniqueness of the triples
    is kept, and afterwards every record whose insert ran has its triple in
    the table unless a key column is null. *)
Lemma save_loop_spec (records : list (list (string * pyval))) :
  forall (table : list chart_row) (insert_count ignore_count : Z),
  match save_loop records table insert_count ignore_count with
  | Raise e =>
      exists before r after,
        records = before ++ r :: after
        /\ Forall (fun r => record_raises r = None) before
        /\ record_raises r = Some e
  | Ok saved =>
      Forall (fun r => record_raises r = None) records
      /\ exists added,
           saved
           = (table ++ added, insert_count + Z.of_nat (length added),
              ignore_count
              + (Z.of_nat (length (attempted_rows records)) - Z.of_nat (length added)))
           /\ sublist added (attempted_rows records)
           /\ Forall (fun row => ~ null_key row) added
           /\ (unique_keys table -> unique_keys (table ++ added))
           /\ Forall (fun row => null_key row
                                 \/ Exists (fun r => chart_key r = chart_key row)
                                      (table ++ added))
                (attempted_rows records)
  end.
Proof.
  induction records as [|r rest IH]; intros table ic gc.
  - cbn [save_loop]. split; [constructor|]. exists [].
    cbn [attempted_rows omap list_omap length].
    rewrite app_nil_r. split; [triple_eq|].
    split; [constructor|]. split; [constructor|]. split; [tauto|constructor].
  - rewrite save_loop_step. unfold attempted_rows. cbn [omap list_omap].
    fold (attempted_rows rest).
    destruct (record_raises r) as [e|] eqn:Hr.
    { exists [], r, rest. split; [reflexivity|]. split; [constructor|exact Hr]. }
    destruct (record_row r) as [row|].
    2:{ specialize (IH table ic gc).
        destruct (save_loop rest table ic gc) as [saved|e].
        - destruct IH as [Hall IH]. split; [now constructor|exact IH].
        - destruct IH as (before & r' & after & -> & Hbefore & Hr').
          exists (r :: before), r', after.
          split; [reflexivity|]. split; [now constructor|exact Hr']. }
    destruct (insert_or_ignore_top100_cases table row) as [[-> Hwhy]|(-> & Hnull & Hnew)];
      cbn [fst snd]; [change (0 <? 0) with false|change (0 <? 1) with true]; cbv iota.
    + specialize (IH table ic (gc + 1)).
      destruct (save_loop rest table ic (gc + 1)) as [saved|e].
      * destruct IH as (Hall & added & -> & Hsub & Hnn & Hu & Hin).
        split; [now constructor|].
        exists added. cbn [length].
        split; [triple_eq|].
        split; [now apply sublist_cons|]. split; [exact Hnn|]. split; [exact Hu|].
        constructor; [|exact Hin].
        destruct Hwhy as [Hn|He]; [now left|right].
        apply Exists_app. now left.
      * destruct IH as (before & r' & after & -> & Hbefore & Hr').
        exists (r :: before), r', after.
        split; [reflexivity|]. split; [now constructor|exact Hr'].
    + specialize (IH (table ++ [row]) (ic + 1) gc).
      destruct (save_loop rest (table ++ [row]) (ic + 1) gc) as [saved|e].
      * destruct IH as (Hall & added & -> & Hsub & Hnn & Hu & Hin).
        split; [now constructor|].
        exists (row :: added). cbn [length].
        rewrite <- app_assoc in *. cbn [app] in *.
        split; [triple_eq|].
        split; [now apply sublist_skip|]. split; [now constructor|].
        split; [intros Ht; apply Hu; now apply unique_keys_snoc|].
        constructor; [|exact Hin].
        right. apply Exists_app. right. now left.
      * destruct IH as (before & r' & after & -> & Hbefore & Hr').
        exists (r :: before), r', after.
        split; [reflexivity|]. split; [now constructor|exact Hr'].
Qed.

(** Records whose triple is already stored, or has a null, leave the
    table as it is and are all counted as ignored. *)
Lemma save_loop_all_ignored (records : list (list (string * pyval)))
    (table : list chart_row) :
  Forall (fun r => record_raises r = None) records ->
  Forall (fun row => null_key row \/ Exists (fun r => chart_key r = chart_key row) table)
    (attempted_rows records) ->
  forall insert_count ignore_count,
    save_loop records table insert_count ignore_count
    = Ok (table, insert_count, ignore_count + Z.of_nat (length (attempted_rows records))).
Proof.
  induction records as [|r rest IH]; intros Hnone Hall ic gc.
  - cbn [save_loop attempted_rows omap list_omap length]. do 2 f_equal. lia.
  - apply Forall_cons in Hnone as [Hr Hnone].
    rewrite save_loop_step, Hr. unfold attempted_rows in *. cbn [omap list_omap] in *.
    destruct (record_row r) as [row|]; [|now apply IH].
    apply Forall_cons in Hall as [Hrow Hrest].
    destruct (insert_or_ignore_top100_cases table row) as [[-> _]|(_ & Hnull & Hnew)];
      [|tauto].
    cbn [fst snd]. change (0 <? 0) with false. cbv iota.
    rewrite (IH Hnone Hrest). cbn [length]. do 2 f_equal. lia.
Qed.

(** A record whose insert does not run, and raises nothing, is as good as
    absent from the batch. *)
Lemma save_loop_skips (bad : list (string * pyval))
    (before after : list (list (string * pyval))) :
  record_row bad = None ->
  record_raises bad = None ->
  forall table insert_count ignore_count,
    save_loop (before ++ bad :: after) table insert_count ignore_count
    = save_loop (before ++ after) table insert_count ignore_count.
Proof.
  intros Hrow Hraises. induction before as [|r before IH]; intros table ic gc.
  - cbn [app]. now rewrite save_loop_step, Hraises, Hrow.
  - cbn [app]. rewrite !save_loop_step.
    destruct (record_raises r); [reflexivity|].
    destruct (record_row r) as [row|]; [|apply IH].
    destruct (0 <? _); apply IH.
Qed.

(** The loop is left at the first record whose insert raises. *)
Lemma save_loop_raises (bad : list (string * pyval)) (e : exn)
    (before after : list (list (string * pyval))) :
  Forall (fun r => record_raises r = None) before ->
  record_raises bad = Some e ->
  forall table insert_count ignore_count,
    save_loop (before ++ bad :: after) table insert_count ignore_count = Raise e.
Proof.
  intros Hbefore Hbad. induction Hbefore as [|r before Hr _ IH]; intros table ic gc.
  - cbn [app]. now rewrite save_loop_step, Hbad.
  - cbn [app]. rewrite save_loop_step, Hr.
    destruct (record_row r) as [row|]; [|apply IH].
    destruct (0 <? _); apply IH.
Qed.


(** X2.  [save_chart_data_to_db] keeps the [UNIQUE(platform, rank, date)]
    constraint of the chart table, whatever the records are. *)
Theorem save_chart_data_keeps_unique_keys (records : list (list (string * pyval)))
    (dir_exists : bool) (db db' : database) (report : save_report) :
  unique_keys (Top100Lists db) ->
  save_chart_data_to_db records dir_exists db = Ok (db', report) ->
  unique_keys (Top100Lists db').
Proof.
  intros Hu. unfold save_chart_data_to_db.
  destruct records as [|first_record rest]; [now intros [= <- _]|].
  destruct dir_exists; cbn [negb]; [|now intros [= <- _]].
  destruct (assoc "platform" first_record); [|discriminate].
  pose proof (save_loop_spec (first_record :: rest) (Top100Lists db) 0 0) as Hspec.
  destruct (save_loop (first_record :: rest) (Top100Lists db) 0 0) as [saved|e]; cbn [bind];
    [|discriminate].
  destruct Hspec as (_ & added & -> & _ & _ & Hkeep & _).
  intros [= <- _]. cbn [with_chart_rows Top100Lists]. now apply Hkeep.
Qed.

Lemma save_chart_data_keeps_unique_keys_witness :
  let r1 := [("platform", PStr "Apple"); ("rank", PInt 1); ("title", PStr "The Daily");
             ("date", PStr "2026-01-01")] in
  let r2 := [("platform", PStr "Apple"); ("rank", PInt 1); ("title", PStr "Up First");
             ("date", PStr "2026-01-01")] in
  let row := {| row_platform := SText "Apple"; row_rank := SInt 1;
                row_title := SText "The Daily"; row_platform_podcast_id := SNull;
                row_date := SText "2026-01-01" |} in
  unique_keys [row].
Proof.
  intros r1 r2 row.
  apply (save_chart_data_keeps_unique_keys [r1; r2] true empty_database
           (with_chart_rows empty_database [row]) (Complete 1 1)).
  - apply NoDup_nil_2.
  - reflexivity.
Defined.

(** X3.  Saving a batch a second time changes nothing: when
    [save_chart_data_to_db] has completed on a batch, the same call on the
    store it left returns that store again, inserts no row and counts as
    ignored every record the first call inserted or ignored. *)
Theorem save_chart_data_twice (records : list (list (string * pyval)))
    (db db1 : database) (insert_count ignore_count : Z) :
  save_chart_data_to_db records true db = Ok (db1, Complete insert_count ignore_count) ->
  save_chart_data_to_db records true db1
  = Ok (db1, Complete 0 (insert_count + ignore_count)).
Proof.
  unfold save_chart_data_to_db.
  destruct records as [|first_record rest]; [discriminate|]. cbn [negb].
  destruct (assoc "platform" first_record); [|discriminate].
  pose proof (save_loop_spec (first_record :: rest) (Top100Lists db) 0 0) as Hspec.
  destruct (save_loop (first_record :: rest) (Top100Lists db) 0 0) as [saved|e]; cbn [bind];
    [|discriminate].
  destruct Hspec as (Hnone & added & -> & _ & _ & _ & Hin).
  intros [= <- <- <-].
  change (Top100Lists (with_chart_rows db (Top100Lists db ++ added)))
    with (Top100Lists db ++ added).
  rewrite (save_loop_all_ignored _ _ Hnone Hin). cbn [bind].
  unfold with_chart_rows. cbn [Podcasts Categories PodcastCategories].
  do 3 f_equal. unfold attempted_rows. cbn [omap list_omap]. lia.
Qed.

Lemma save_chart_data_twice_witness :
  let r1 := [("platform", PStr "Apple"); ("rank", PInt 1); ("title", PStr "The Daily");
             ("date", PStr "2026-01-01")] in
  let r2 := [("platform", PStr "Apple"); ("rank", PInt 1); ("title", PStr "Up First");
             ("date", PStr "2026-01-01")] in
  let row := {| row_platform := SText "Apple"; row_rank := SInt 1;
                row_title := SText "The Daily"; row_platform_podcast_id := SNull;
                row_date := SText "2026-01-01" |} in
  save_chart_data_to_db [r1; r2] true (with_chart_rows empty_database [row])
  = Ok (with_chart_rows empty_database [row], Complete 0 (1 + 1)).
Proof.
  intros r1 r2 row.
  apply (save_chart_data_twice [r1; r2] empty_database). reflexivity.
Defined.

(** X4.  No record is lost silently: when [save_chart_data_to_db] has
    completed, every record of the batch that has its three required keys and
    values SQLite can bind, none of the three null, has a row with its
    (platform, rank, date) triple in the table. *)
Theorem save_chart_data_stores_every_triple (records : list (list (string * pyval)))
    (db db' : database) (insert_count ignore_count : Z)
    (r : list (string * pyval)) (row : chart_row) :
  save_chart_data_to_db records true db = Ok (db', Complete insert_count ignore_count) ->
  r ∈ records ->
  record_row r = Some row ->
  ~ null_key row ->
  Exists (fun stored => chart_key stored = chart_key row) (Top100Lists db').
Proof.
  unfold save_chart_data_to_db.
  destruct records as [|first_record rest]; [discriminate|]. cbn [negb].
  destruct (assoc "platform" first_record); [|discriminate].
  pose proof (save_loop_spec (first_record :: rest) (Top100Lists db) 0 0) as Hspec.
  destruct (save_loop (first_record :: rest) (Top100Lists db) 0 0) as [saved|e]; cbn [bind];
    [|discriminate].
  destruct Hspec as (_ & added & -> & _ & _ & _ & Hin).
  intros [= <- _ _] Hr Hrow Hnull. cbn [with_chart_rows Top100Lists].
  rewrite Forall_forall in Hin.
  destruct (Hin row) as [Hn|He]; [|contradiction|exact He].
  unfold attempted_rows. apply list_elem_of_omap. now exists r.
Qed.

Lemma save_chart_data_stores_every_triple_witness :
  let r1 := [("platform", PStr "Apple"); ("rank", PInt 1); ("title", PStr "The Daily");
             ("date", PStr "2026-01-01")] in
  let r2 := [("platform", PStr "Apple"); ("rank", PInt 2); ("title", PList []);
             ("date", PStr "2026-01-01")] in
  let r3 := [("platform", PStr "Apple"); ("rank", PInt 3); ("date", PStr "2026-01-01")] in
  let row := {| row_platform := SText "Apple"; row_rank := SInt 3;
                row_title := SNull; row_platform_podcast_id := SNull;
                row_date := SText "2026-01-01" |} in
  Exists (fun stored => chart_key stored = chart_key row)
    (Top100Lists
       (with_chart_rows empty_database
          [{| row_platform := SText "Apple"; row_rank := SInt 1;
              row_title := SText "The Daily"; row_platform_podcast_id := SNull;
              row_date := SText "2026-01-01" |}; row])).
Proof.
  intros r1 r2 r3 row.
  apply (save_chart_data_stores_every_triple [r1; r2; r3] empty_database _ 2 0 r3 row).
  - reflexivity.
  - set_solver.
  - reflexivity.
  - unfold null_key. cbn. intros [H | [H | H]]; discriminate.
Defined.

(** X5.  A record the loop does not insert, for a required key that is
    missing or for a value SQLite refuses to bind, is handled in one of two
    ways.  When the insert is not run, or raises a [sqlite3.Error] (a value
    that is a list or an object, and no integer outside 64 bits bound before
    it), the record is skipped without any effect on the rest of the batch,
    as long as it is not the first record.  When the insert raises another
    exception (an integer outside 64 bits), the call raises it as soon as the
    loop reaches the record, and nothing of the batch is stored.  In first
    position a record without a platform aborts the call with [KeyError]
    before anything is written: the log line prepared before the loop reads
    [records[0]['platform']]. *)
Theorem save_chart_data_skips_unusable_record
    (first_record bad : list (string * pyval))
    (before after : list (list (string * pyval))) (dir_exists : bool) (db : database) :
  record_row bad = None ->
  (record_raises bad = None ->
   save_chart_data_to_db (first_record :: before ++ bad :: after) dir_exists db
   = save_chart_data_to_db (first_record :: before ++ after) dir_exists db)
  /\ (forall e,
        record_raises bad = Some e ->
        has_key "platform" first_record = true ->
        Forall (fun r => record_raises r = None) (first_record :: before) ->
        save_chart_data_to_db (first_record :: before ++ bad :: after) true db = Raise e)
  /\ (has_key "platform" bad = false ->
      save_chart_data_to_db (bad :: after) true db = Raise KeyError).
Proof.
  intros Hbad. split; [|split].
  - intros Hraises. unfold save_chart_data_to_db.
    destruct dir_exists; cbn [negb]; [|reflexivity].
    destruct (assoc "platform" first_record); [|reflexivity].
    now rewrite (save_loop_skips bad (first_record :: before) after Hbad Hraises).
  - intros e Hraises Hfirst Hbefore. unfold save_chart_data_to_db, has_key in *.
    cbn [negb]. destruct (assoc "platform" first_record); [|discriminate].
    now rewrite (save_loop_raises bad e (first_record :: before) after Hbefore Hraises).
  - unfold save_chart_data_to_db, has_key. cbn [negb].
    now destruct (assoc "platform" bad).
Qed.

Lemma save_chart_data_skips_unusable_record_witness :
  let r1 := [("platform", PStr "Apple"); ("rank", PInt 1); ("title", PStr "The Daily");
             ("date", PStr "2026-01-01")] in
  let bad := [("rank", PInt 2); ("date", PStr "2026-01-01")] in
  let r3 := [("platform", PStr "Apple"); ("rank", PInt 3); ("date", PStr "2026-01-01")] in
  save_chart_data_to_db [r1; bad; r3] true empty_database
  = save_chart_data_to_db [r1; r3] true empty_database
  /\ save_chart_data_to_db [bad; r3] true empty_database = Raise KeyError.
Proof.
  intros r1 bad r3.
  destruct (save_chart_data_skips_unusable_record r1 bad [] [r3] true empty_database)
    as (H1 & _ & H2); [reflexivity|].
  split; [apply H1; reflexivity|]. apply H2. reflexivity.
Defined.

(** A title outside 64 bits, bound before an identifier that is a list:
    the insert raises [OverflowError] and the call with it, although the
    first record was inserted; the store is left as it was. *)
Example save_chart_data_overflow :
  let r1 := [("platform", PStr "Apple"); ("rank", PInt 1); ("title", PStr "The Daily");
             ("date", PStr "2026-01-01")] in
  let bad := [("platform", PStr "Apple"); ("rank", PInt 2); ("title", PInt (2 ^ 63));
              ("platform_podcast_id", PList []); ("date", PStr "2026-01-01")] in
  record_row bad = None
  /\ record_raises bad = Some OverflowError
  /\ save_chart_data_to_db [r1; bad] true empty_database = Raise OverflowError.
Proof. repeat split; vm_compute; reflexivity. Qed.

(* ===================================================================== *)
(** * More on the chart fetchers *)
(* ===================================================================== *)

(** The records of the Apple loop: one for each object among the items,
    ranked by the position of the object. *)
Lemma apple_records_elem (today : string) (items : list pyval) :
  forall (i0 : Z) (r : list (string * pyval)),
    r ∈ apple_records items i0 today
    <-> exists (i : nat) d,
          items !! i = Some (PDict d)
          /\ r = chart_record PLATFORM_NAME_APPLE (i0 + Z.of_nat i + 1)
                   (dict_get d "name") (dict_get d "id") today.
Proof.
  induction items as [|v items IH]; intros i0 r.
  - cbn [apple_records]. split; [intros H; inversion H|].
    intros (i & d & Hi & _). now rewrite lookup_nil in Hi.
  - assert (Hrest : r ∈ apple_records items (i0 + 1) today
                    <-> exists (i : nat) d,
                          (v :: items) !! S i = Some (PDict d)
                          /\ r = chart_record PLATFORM_NAME_APPLE (i0 + Z.of_nat (S i) + 1)
                                   (dict_get d "name") (dict_get d "id") today).
    { rewrite IH. split; intros (i & d & Hi & ->); exists i, d; (split; [exact Hi|]);
        do 2 f_equal; lia. }
    destruct v as [| | | | |d0]; cbn [apple_records];
      try (rewrite Hrest; split;
           [intros (i & d & Hi & ->); now exists (S i), d
           |intros ([|i] & d & Hi & ->); [discriminate Hi|now exists i, d]]).
    rewrite elem_of_cons, Hrest. split.
    + intros [->|(i & d & Hi & ->)]; [|now exists (S i), d].
      exists 0%nat, d0. split; [reflexivity|]. do 2 f_equal. lia.
    + intros ([|i] & d & Hi & ->); [left|right; now exists i, d].
      injection Hi as <-. do 2 f_equal. lia.
Qed.

(** The same for the Spotify loop, when it does not raise. *)
Lemma spotify_records_elem (today : string) (items : list pyval) :
  forall (i0 : Z) (records : list (list (string * pyval))),
    spotify_records items i0 today = Ok records ->
    forall r,
      r ∈ records
      <-> exists (i : nat) d platform_podcast_id,
            items !! i = Some (PDict d)
            /\ spotify_platform_podcast_id d = Ok platform_podcast_id
            /\ r = chart_record PLATFORM_NAME_SPOTIFY (i0 + Z.of_nat i + 1)
                     (dict_get d "showName") platform_podcast_id today.
Proof.
  induction items as [|v items IH]; intros i0 records Hrun r.
  - injection Hrun as <-. split; [intros H; inversion H|].
    intros (i & d & p & Hi & _). now rewrite lookup_nil in Hi.
  - assert (Hrest : forall rest, spotify_records items (i0 + 1) today = Ok rest ->
                    (r ∈ rest
                     <-> exists (i : nat) d p,
                           (v :: items) !! S i = Some (PDict d)
                           /\ spotify_platform_podcast_id d = Ok p
                           /\ r = chart_record PLATFORM_NAME_SPOTIFY (i0 + Z.of_nat (S i) + 1)
                                    (dict_get d "showName") p today)).
    { intros rest Hr. rewrite (IH _ _ Hr).
      split; intros (i & d & p & Hi & Hp & ->); exists i, d, p;
        (split; [exact Hi|]); (split; [exact Hp|]); do 2 f_equal; lia. }
    destruct v as [| | | | |d0]; cbn [spotify_records] in Hrun;
      try (rewrite (Hrest _ Hrun); split;
           [intros (i & d & p & Hi & H); now exists (S i), d, p
           |intros ([|i] & d & p & Hi & H); [discriminate Hi|now exists i, d, p]]).
    destruct (spotify_platform_podcast_id d0) as [p0|] eqn:Hp0; [|discriminate].
    cbn [bind] in Hrun.
    destruct (spotify_records items (i0 + 1) today) as [rest|] eqn:Hr; [|discriminate].
    injection Hrun as <-. rewrite elem_of_cons, (Hrest rest eq_refl). split.
    + intros [->|(i & d & p & Hi & H)]; [|now exists (S i), d, p].
      exists 0%nat, d0, p0. split; [reflexivity|]. split; [exact Hp0|]. do 2 f_equal. lia.
    + intros ([|i] & d & p & Hi & Hp & ->); [left|right; now exists i, d, p].
      injection Hi as <-. rewrite Hp0 in Hp. injection Hp as <-. do 2 f_equal. lia.
Qed.

(** The Spotify loop raises as soon as the identifier of one object cannot
    be computed. *)
Lemma spotify_records_raise (today : string) (items : list pyval)
    (d : list (string * pyval)) (e : exn) :
  PDict d ∈ items ->
  spotify_platform_podcast_id d = Raise e ->
  forall i0, exists e', spotify_records items i0 today = Raise e'.
Proof.
  intros Hin Hraise. induction items as [|v items IH]; intros i0; [inversion Hin|].
  apply elem_of_cons in Hin as [<-|Hin].
  - cbn [spotify_records]. rewrite Hraise. now exists e.
  - destruct (IH Hin (i0 + 1)) as [e' He'].
    destruct v as [| | | | |d0]; cbn [spotify_records]; try (now exists e').
    destruct (spotify_platform_podcast_id d0) as [p0|e0]; [|now exists e0].
    cbn [bind]. rewrite He'. now exists e'.
Qed.

(** The Spotify loop returns as soon as every identifier can be computed. *)
Lemma spotify_records_ok (today : string) (items : list pyval) :
  (forall d, PDict d ∈ items -> exists p, spotify_platform_podcast_id d = Ok p) ->
  forall i0, exists records, spotify_records items i0 today = Ok records.
Proof.
  induction items as [|v items IH]; intros Hall i0; [now exists []|].
  destruct (IH (fun d Hd => Hall d (list_elem_of_further _ _ _ Hd)) (i0 + 1)) as [rest Hrest].
  destruct v as [| | | | |d0]; cbn [spotify_records]; try (now exists rest).
  destruct (Hall d0 (list_elem_of_here _ _)) as [p0 ->]. cbn [bind]. rewrite Hrest.
  cbn [bind]. eauto.
Qed.

Lemma apple_records_length (today : string) (items : list pyval) :
  forall i0, length (apple_records items i0 today) = length (List.filter is_dict items).
Proof.
  induction items as [|v items IH]; intros i0; [reflexivity|].
  destruct v; cbn [apple_records List.filter is_dict length]; now rewrite IH.
Qed.

Lemma spotify_records_length (today : string) (items : list pyval) :
  forall i0 records,
    spotify_records items i0 today = Ok records ->
    length records = length (List.filter is_dict items).
Proof.
  induction items as [|v items IH]; intros i0 records Hrun; [now injection Hrun as <-|].
  destruct v as [| | | | |d]; cbn [spotify_records List.filter is_dict length] in *;
    try exact (IH _ _ Hrun).
  destruct (spotify_platform_podcast_id d); [|discriminate]. cbn [bind] in Hrun.
  destruct (spotify_records items (i0 + 1) today) as [rest|] eqn:Hrest; [|discriminate].
  injection Hrun as <-. cbn [length]. now rewrite (IH _ _ Hrest).
Qed.

(** X6.  The rank of an Apple record is the position of its item in the
    response, counted from 1, also when items before it were skipped: for
    every response with the expected structure and a non-empty results list,
    and every limit, [scrape_apple_top_podcasts] returns as many records as
    there are objects among [results[:limit]], one for each of them, ranked
    by the position of that object.  An item that is no object yields no
    record and its rank stays unused. *)
Theorem apple_rank_is_position_in_response (data : pyval) (results : list pyval)
    (limit : Z) (today : string) :
  apple_results data = Some results ->
  results <> [] ->
  exists records,
    scrape_apple_top_podcasts (Body data) limit today = Ok records
    /\ length records = length (List.filter is_dict (py_slice_to results limit))
    /\ forall r,
         r ∈ records
         <-> exists (i : nat) d,
               py_slice_to results limit !! i = Some (PDict d)
               /\ r = chart_record PLATFORM_NAME_APPLE (Z.of_nat i + 1)
                        (dict_get d "name") (dict_get d "id") today.
Proof.
  intros Hdata Hne. unfold apple_results in Hdata.
  destruct data as [| | | | |top]; try discriminate.
  destruct (dict_get top "feed") as [| | | | |f] eqn:Hf; try discriminate.
  destruct (dict_get f "results") as [| | | |l|] eqn:Hl; try discriminate.
  injection Hdata as ->.
  assert (Hfd : f <> []). { intros ->. discriminate Hl. }
  exists (apple_records (py_slice_to results limit) 0 today).
  split; [|split].
  - unfold scrape_apple_top_podcasts, scrape_apple_try, py_get, py_get_default.
    cbn [http_json bind]. unfold dict_get_default. unfold dict_get in Hf. rewrite Hf.
    destruct f as [|kv f]; [contradiction|]. cbn [truthy is_dict negb orb bind].
    unfold dict_get in Hl. rewrite Hl.
    destruct results as [|v results]; [contradiction|]. reflexivity.
  - apply apple_records_length.
  - intros r. rewrite apple_records_elem.
    split; intros (i & d & Hi & ->); exists i, d; (split; [exact Hi|]); do 2 f_equal; lia.
Qed.

Lemma apple_rank_is_position_in_response_witness :
  let results := [PDict [("name", PStr "The Daily")]; PInt 7; PDict [("name", PStr "Up First")]] in
  let data := PDict [("feed", PDict [("results", PList results)])] in
  exists records,
    scrape_apple_top_podcasts (Body data) 100 "2026-01-01" = Ok records
    /\ ranks records = [PInt 1; PInt 3].
Proof.
  intros results data.
  destruct (apple_rank_is_position_in_response data results 100 "2026-01-01")
    as (records & Hrun & _); [reflexivity|discriminate|].
  exists records. split; [exact Hrun|].
  vm_compute in Hrun. injection Hrun as <-. reflexivity.
Defined.

(** X7.  The Spotify chart is all or nothing.  For a response that is a
    list: when the identifier of one object among the first 100 items cannot
    be computed (its [showUri] is truthy and no string; [':' in show_uri] or
    [split] raises), the fetcher returns the empty list, dropping the records
    already built; otherwise it returns as many records as there are
    objects among the first 100 items, one for each of them, ranked by the
    position of that object. *)
Theorem spotify_chart_is_all_or_nothing (items : list pyval) (today : string) :
  (forall d e,
     PDict d ∈ py_slice_to items 100 ->
     spotify_platform_podcast_id d = Raise e ->
     scrape_spotify_top100 (Body (PList items)) today = Ok [])
  /\ ((forall d, PDict d ∈ py_slice_to items 100 ->
                 exists p, spotify_platform_podcast_id d = Ok p) ->
      exists records,
        scrape_spotify_top100 (Body (PList items)) today = Ok records
        /\ length records = length (List.filter is_dict (py_slice_to items 100))
        /\ forall r,
             r ∈ records
             <-> exists (i : nat) d platform_podcast_id,
                   py_slice_to items 100 !! i = Some (PDict d)
                   /\ spotify_platform_podcast_id d = Ok platform_podcast_id
                   /\ r = chart_record PLATFORM_NAME_SPOTIFY (Z.of_nat i + 1)
                            (dict_get d "showName") platform_podcast_id today).
Proof.
  unfold scrape_spotify_top100, scrape_spotify_try. cbn [http_json bind]. split.
  - intros d e Hin Hraise.
    destruct (spotify_records_raise today _ d e Hin Hraise 0) as [e' ->]. now destruct e'.
  - intros Hall. destruct (spotify_records_ok today _ Hall 0) as [records Hrun].
    exists records. rewrite Hrun. split; [reflexivity|].
    split; [exact (spotify_records_length today _ 0 records Hrun)|].
    intros r. rewrite (spotify_records_elem today _ 0 records Hrun).
    split; intros (i & d & p & Hi & Hp & ->); exists i, d, p;
      (split; [exact Hi|]); (split; [exact Hp|]); do 2 f_equal; lia.
Qed.

Lemma spotify_chart_is_all_or_nothing_witness :
  let good := PDict [("showName", PStr "The Daily"); ("showUri", PStr "spotify:show:3")] in
  let bad := PDict [("showName", PStr "Up First"); ("showUri", PInt 7)] in
  scrape_spotify_top100 (Body (PList [good; bad])) "2026-01-01" = Ok []
  /\ exists records,
       scrape_spotify_top100 (Body (PList [good; good])) "2026-01-01" = Ok records
       /\ length records = 2%nat.
Proof.
  intros good bad. split.
  - apply (proj1 (spotify_chart_is_all_or_nothing [good; bad] "2026-01-01")
             [("showName", PStr "Up First"); ("showUri", PInt 7)] TypeError).
    + right. left.
    + reflexivity.
  - destruct (proj2 (spotify_chart_is_all_or_nothing [good; good] "2026-01-01"))
      as (records & Hrun & _).
    + intros d Hd. apply elem_of_cons in Hd as [[= ->]|Hd].
      * eexists. reflexivity.
      * apply elem_of_cons in Hd as [[= ->]|Hd]; [eexists; reflexivity|inversion Hd].
    + exists records. split; [exact Hrun|]. vm_compute in Hrun. now injection Hrun as <-.
Defined.

(** A [showUri] that is a number other than 0 is such an item. *)
Example spotify_numeric_show_uri_empties_chart :
  scrape_spotify_top100
    (Body (PList [PDict [("showName", PStr "The Daily"); ("showUri", PStr "spotify:show:3")];
                  PDict [("showName", PStr "Up First"); ("showUri", PInt 7)]]))
    "2026-01-01"
  = Ok [].
Proof. reflexivity. Qed.

(* ===================================================================== *)
(** * The chart scripts as wholes *)
(* ===================================================================== *)



Lemma apple_records_chart_of (today : string) (items : list pyval) (i0 : Z) :
  chart_of PLATFORM_NAME_APPLE today (apple_records items i0 today).
Proof.
  apply Forall_forall. intros r Hr. apply apple_records_elem in Hr as (i & d & _ & ->). eauto.
Qed.

Lemma spotify_records_chart_of (today : string) (items : list pyval) (i0 : Z)
    (records : list (list (string * pyval))) :
  spotify_records items i0 today = Ok records ->
  chart_of PLATFORM_NAME_SPOTIFY today records.
Proof.
  intros Hrun. apply Forall_forall. intros r Hr.
  apply (spotify_records_elem today items i0 records Hrun) in Hr as (i & d & p & _ & _ & ->).
  eauto.
Qed.

(** What the Apple fetcher returns, for any response. *)
Lemma scrape_apple_cases (response : http_outcome) (limit : Z) (today : string) :
  scrape_apple_top_podcasts response limit today = Ok []
  \/ exists data results,
       response = Body data /\ apple_results data = Some results
       /\ scrape_apple_top_podcasts response limit today
          = Ok (apple_records (py_slice_to results limit) 0 today).
Proof.
  destruct response as [| | | |data]; try (now left).
  destruct data as [| | | | |top]; try (now left).
  unfold scrape_apple_top_podcasts, scrape_apple_try, py_get, py_get_default, apple_results.
  cbn [http_json bind]. unfold dict_get, dict_get_default.
  destruct (assoc "feed" top) as [[| | | | |f]|] eqn:Hf;
    try (left; cbn [is_dict negb]; rewrite ?orb_true_r; reflexivity).
  destruct f as [|kv f]; [now left|]. cbn [truthy is_dict negb orb bind].
  destruct (assoc "results" (kv :: f)) as [[| | | |l|]|] eqn:Hl;
    try (left; cbn [is_list negb]; rewrite ?orb_true_r; reflexivity).
  destruct l as [|v l]; [now left|]. right.
  exists (PDict top), (v :: l). split; [reflexivity|]. now rewrite Hf, Hl.
Qed.

(** What the Spotify fetcher returns, for any response. *)
Lemma scrape_spotify_cases (response : http_outcome) (today : string) :
  scrape_spotify_top100 response today = Ok []
  \/ exists items records,
       response = Body (PList items)
       /\ spotify_records (py_slice_to items 100) 0 today = Ok records
       /\ scrape_spotify_top100 response today = Ok records.
Proof.
  destruct response as [| | | |data]; try (now left).
  destruct data as [| | | |items|]; try (now left).
  unfold scrape_spotify_top100, scrape_spotify_try. cbn [http_json bind].
  destruct (spotify_records (py_slice_to items 100) 0 today) as [records|e] eqn:Hrun.
  - right. eauto.
  - left. now destruct e.
Qed.

Lemma scrape_apple_chart_of (response : http_outcome) (limit : Z) (today : string) :
  exists records,
    scrape_apple_top_podcasts response limit today = Ok records
    /\ chart_of PLATFORM_NAME_APPLE today records.
Proof.
  destruct (scrape_apple_cases response limit today) as [->|(data & results & _ & _ & ->)].
  - exists []. split; [reflexivity|constructor].
  - eexists. split; [reflexivity|apply apple_records_chart_of].
Qed.

Lemma scrape_spotify_chart_of (response : http_outcome) (today : string) :
  exists records,
    scrape_spotify_top100 response today = Ok records
    /\ chart_of PLATFORM_NAME_SPOTIFY today records.
Proof.
  destruct (scrape_spotify_cases response today) as [->|(items & records & _ & Hrun & ->)].
  - exists []. split; [reflexivity|constructor].
  - exists records. split; [reflexivity|]. exact (spotify_records_chart_of _ _ _ _ Hrun).
Qed.


(** The same end of the scripts, run again on the store it left. *)
Lemma save_scraped_chart_again (records : list (list (string * pyval)))
    (db db1 : database) (report : option save_report) :
  match records with
  | [] => Ok (db, None)
  | _ :: _ =>
      saved <- save_chart_data_to_db records true db ;;
      Ok (saved.1, Some saved.2)
  end = Ok (db1, report) ->
  match records with
  | [] => Ok (db1, None)
  | _ :: _ =>
      saved <- save_chart_data_to_db records true db1 ;;
      Ok (saved.1, Some saved.2)
  end = Ok (db1, report_again report).
Proof.
  destruct records as [|first_record rest]; [now intros [= <- <-]|].
  unfold save_chart_data_to_db. cbn [negb].
  destruct (assoc "platform" first_record); [|discriminate].
  pose proof (save_loop_spec (first_record :: rest) (Top100Lists db) 0 0) as Hspec.
  destruct (save_loop (first_record :: rest) (Top100Lists db) 0 0) as [saved|e]; cbn [bind];
    [|discriminate].
  destruct Hspec as (Hnone & added & -> & _ & _ & _ & Hin).
  cbn [bind fst snd]. intros [= <- <-].
  change (Top100Lists (with_chart_rows db (Top100Lists db ++ added)))
    with (Top100Lists db ++ added).
  rewrite (save_loop_all_ignored _ _ Hnone Hin).
  cbn [bind fst snd report_again]. unfold with_chart_rows.
  cbn [Podcasts Categories PodcastCategories].
  do 4 f_equal. unfold attempted_rows. cbn [omap list_omap]. lia.
Qed.


(** A name of the endpoint that is an integer of 64 bits or more ends the
    Apple script with [OverflowError]; the record before it is not stored. *)
Example apple_main_overflow :
  let results := [PDict [("name", PStr "The Daily")]; PDict [("name", PInt (2 ^ 63))]] in
  let data := PDict [("feed", PDict [("results", PList results)])] in
  apple_main (Body data) "2026-01-01" true empty_database = Raise OverflowError.
Proof. vm_compute. reflexivity. Qed.

(** X9.  Running a chart script again on the same day, with the same
    answer of the endpoint, leaves the store exactly as the first run left
    it: no row is added, and every record the first run inserted or ignored
    is reported as ignored. *)
Theorem chart_scripts_rerun_changes_nothing (response : http_outcome) (today : string)
    (db db1 : database) (report : option save_report) :
  (apple_main response today true db = Ok (db1, report) ->
   apple_main response today true db1 = Ok (db1, report_again report))
  /\ (spotify_main response today true db = Ok (db1, report) ->
      spotify_main response today true db1 = Ok (db1, report_again report)).
Proof.
  split.
  - unfold apple_main.
    destruct (scrape_apple_chart_of response DEFAULT_LIMIT today) as (records & -> & _).
    cbn [bind]. apply save_scraped_chart_again.
  - unfold spotify_main.
    destruct (scrape_spotify_chart_of response today) as (records & -> & _).
    cbn [bind]. apply save_scraped_chart_again.
Qed.

Lemma chart_scripts_rerun_changes_nothing_witness :
  let data := PDict [("feed", PDict [("results", PList [PDict [("name", PStr "The Daily")]])])] in
  let row := {| row_platform := SText "Apple"; row_rank := SInt 1;
                row_title := SText "The Daily"; row_platform_podcast_id := SNull;
                row_date := SText "2026-01-01" |} in
  apple_main (Body data) "2026-01-01" true (with_chart_rows empty_database [row])
  = Ok (with_chart_rows empty_database [row], Some (Complete 0 1)).
Proof.
  intros data row.
  apply (chart_scripts_rerun_changes_nothing (Body data) "2026-01-01" empty_database
           (with_chart_rows empty_database [row]) (Some (Complete 1 0))).
  reflexivity.
Defined.














(* ===================================================================== *)
(** * More on the title resolver *)
(* ===================================================================== *)

Lemma compared_title_is_dict (title_of : pyval -> result pyval) (c : pyval) (s : string) :
  (title_of = byterm_candidate_title \/ title_of = bytitle_candidate_title) ->
  compared_title (title_of c) = Some s -> is_dict c = true.
Proof.
  intros [-> | ->]; now destruct c.
Qed.

Section ResolverSearch.

Variable ratio : string -> string -> Q.

Lemma search_byterm_loop_picked (query_lower_stripped : string) (candidates items : list pyval) :
  (forall c, c ∈ items -> c ∈ candidates) ->
  forall best_match best_ratio best_match' best_ratio',
    picked ratio byterm_candidate_title query_lower_stripped candidates best_match best_ratio ->
    search_byterm_loop ratio query_lower_stripped items best_match best_ratio
    = Ok (best_match', best_ratio') ->
    picked ratio byterm_candidate_title query_lower_stripped candidates best_match' best_ratio'.
Proof.
  induction items as [|c items IH]; intros Hsub bm br bm' br' Hst.
  - now intros [= <- <-].
  - assert (Hrest : forall c', c' ∈ items -> c' ∈ candidates)
      by (intros c' Hc'; apply Hsub; now right).
    assert (Hc : c ∈ candidates) by (apply Hsub; left).
    cbn [search_byterm_loop].
    destruct (byterm_candidate_title c) as [v|] eqn:Hv; cbn [bind]; [|discriminate].
    destruct (truthy v) eqn:Htr; cbn [negb]; [|now apply IH].
    destruct v as [| | |s| |]; cbn [py_strip_lower bind]; try discriminate.
    assert (Hs : compared_title (byterm_candidate_title c) = Some s).
    { rewrite Hv. cbn in Htr |- *. now destruct (String.eqb s ""). }
    destruct (String.eqb_spec query_lower_stripped (lower (strip s))) as [He|Hne].
    + intros [= <- <-]. right. split; [exact Hc|]. exists s. split; [exact Hs|now left].
    + destruct (Qltb br _); apply IH; auto.
      right. split; [exact Hc|]. exists s. split; [exact Hs|now right].
Qed.

Lemma search_bytitle_loop_picked (query_lower_stripped : string) (candidates items : list pyval) :
  (forall c, c ∈ items -> c ∈ candidates) ->
  forall best_match best_ratio best_match' best_ratio',
    picked ratio bytitle_candidate_title query_lower_stripped candidates best_match best_ratio ->
    search_bytitle_loop ratio query_lower_stripped items best_match best_ratio
    = Ok (best_match', best_ratio') ->
    picked ratio bytitle_candidate_title query_lower_stripped candidates best_match' best_ratio'.
Proof.
  induction items as [|c items IH]; intros Hsub bm br bm' br' Hst.
  - now intros [= <- <-].
  - assert (Hrest : forall c', c' ∈ items -> c' ∈ candidates)
      by (intros c' Hc'; apply Hsub; now right).
    assert (Hc : c ∈ candidates) by (apply Hsub; left).
    cbn [search_bytitle_loop].
    destruct (bytitle_candidate_title c) as [v|] eqn:Hv; cbn [bind]; [|discriminate].
    destruct (truthy v) eqn:Htr; cbn [negb]; [|now apply IH].
    destruct v as [| | |s| |]; cbn [py_strip_lower bind]; try discriminate.
    assert (Hs : compared_title (bytitle_candidate_title c) = Some s).
    { rewrite Hv. cbn in Htr |- *. now destruct (String.eqb s ""). }
    destruct (String.eqb_spec query_lower_stripped (lower (strip s))) as [He|Hne].
    + intros [= <- <-]. right. split; [exact Hc|]. exists s. split; [exact Hs|now left].
    + destruct (Qltb br _); apply IH; auto.
      right. split; [exact Hc|]. exists s. split; [exact Hs|now right].
Qed.

(** What the threshold check lets through. *)
Lemma accept_picked (title_of : pyval -> result pyval) (query : string)
    (candidates : list pyval) (best_match : pyval) (best_ratio : Q) :
  (title_of = byterm_candidate_title \/ title_of = bytitle_candidate_title) ->
  picked ratio title_of (lower (strip query)) candidates best_match best_ratio ->
  accept (best_match, best_ratio) = PNone
  \/ (accept (best_match, best_ratio) ∈ candidates
      /\ acceptable ratio title_of query (accept (best_match, best_ratio))).
Proof.
  intros Htitle [[-> ->]|(Hin & s & Hs & Hscore)]; [now left|].
  unfold accept. destruct (truthy best_match); cbn [andb]; [|now left].
  destruct (Qle_bool SEARCH_ACCEPTANCE_THRESHOLD best_ratio) eqn:Hle; [|now left].
  right. split; [exact Hin|]. split; [exact (compared_title_is_dict _ _ _ Htitle Hs)|].
  exists s. split; [exact Hs|].
  destruct Hscore as [[He _]| ->]; [now left|right]. now apply Qle_bool_iff.
Qed.

Lemma search_byterm_sound (response : http_outcome) (query : string) :
  search_byterm ratio response query = PNone
  \/ (search_byterm ratio response query ∈ byterm_candidates response
      /\ acceptable ratio byterm_candidate_title query (search_byterm ratio response query)).
Proof.
  unfold search_byterm, search_byterm_try, byterm_candidates.
  destruct (http_json response) as [data|]; cbn [bind]; [|now left].
  destruct (byterm_results data) as [results|]; cbn [bind]; [|now left].
  destruct (truthy results); [|now left].
  destruct (py_iter results) as [items|]; cbn [bind]; [|now left].
  destruct (search_byterm_loop ratio _ items PNone 0%Q) as [[bm br]|] eqn:Hloop;
    cbn [bind]; [|now left].
  apply accept_picked; [now left|].
  apply (search_byterm_loop_picked _ items items (fun c H => H) PNone 0%Q); [now left|exact Hloop].
Qed.

Lemma search_bytitle_sound (response : http_outcome) (query : string) :
  search_bytitle ratio response query = PNone
  \/ (search_bytitle ratio response query ∈ bytitle_candidates response
      /\ acceptable ratio bytitle_candidate_title query (search_bytitle ratio response query)).
Proof.
  unfold search_bytitle, search_bytitle_try, bytitle_candidates.
  destruct (http_json response) as [data|]; cbn [bind]; [|now left].
  destruct (py_get_default data "feeds" (PList [])) as [feeds|]; cbn [bind]; [|now left].
  destruct (truthy feeds); [|now left].
  destruct (py_iter feeds) as [items|]; cbn [bind]; [|now left].
  destruct (search_bytitle_loop ratio _ items PNone 0%Q) as [[bm br]|] eqn:Hloop;
    cbn [bind]; [|now left].
  apply accept_picked; [now right|].
  apply (search_bytitle_loop_picked _ items items (fun c H => H) PNone 0%Q); [now left|exact Hloop].
Qed.

(** Without an exact match, and with candidates the loop can scan, the
    loop ends with a best ratio that bounds the ratio of every candidate and
    that is the ratio of the best match. *)
Lemma search_byterm_loop_best (query : string) (items : list pyval) :
  Forall (fun c => scannable (byterm_candidate_title c) = true
                   /\ is_exact_match query c = false) items ->
  forall best_match best_ratio, exists best_match' best_ratio',
    search_byterm_loop ratio (lower (strip query)) items best_match best_ratio
    = Ok (best_match', best_ratio')
    /\ (best_ratio <= best_ratio')%Q
    /\ Forall (fun c => forall r, candidate_ratio ratio query c = Some r -> (r <= best_ratio')%Q)
         items
    /\ ((best_match', best_ratio') = (best_match, best_ratio)
        \/ (best_match' ∈ items /\ candidate_ratio ratio query best_match' = Some best_ratio')).
Proof.
  induction 1 as [|c items [Hscan Hexact] _ IH]; intros bm br.
  - exists bm, br. split; [reflexivity|]. split; [apply Qle_refl|]. split; [constructor|now left].
  - cbn [search_byterm_loop]. unfold is_exact_match in Hexact.
    destruct (byterm_candidate_title c) as [v|] eqn:Hv; [|discriminate].
    cbn [bind]. destruct (truthy v) eqn:Htr; cbn [negb].
    + destruct v as [| | |s| |];
        try (cbn in Hscan, Htr; rewrite ?Htr in Hscan; cbn in Hscan; discriminate).
      cbn [py_strip_lower bind].
      assert (Hs : compared_title (Ok (PStr s)) = Some s).
      { cbn in Htr |- *. now destruct (String.eqb s ""). }
      rewrite Hs in Hexact. rewrite Hexact.
      assert (Hcr : candidate_ratio ratio query c
                    = Some (ratio (lower (strip query)) (lower (strip s)))).
      { unfold candidate_ratio. now rewrite Hv, Hs. }
      destruct (Qltb br (ratio (lower (strip query)) (lower (strip s)))) eqn:Hlt.
      * apply Qltb_lt in Hlt.
        destruct (IH c (ratio (lower (strip query)) (lower (strip s))))
          as (bm' & br' & -> & Hle & Hall & Hbest).
        exists bm', br'. split; [reflexivity|].
        split; [apply Qlt_le_weak; eapply Qlt_le_trans; eassumption|].
        split; [constructor; [rewrite Hcr; now intros r [= <-]|exact Hall]|].
        right. destruct Hbest as [[= -> ->]|[Hin Hr]].
        -- split; [left|exact Hcr].
        -- split; [now right|exact Hr].
      * assert (Hge : (ratio (lower (strip query)) (lower (strip s)) <= br)%Q).
        { apply Qnot_lt_le. intros Hlt'. apply Qltb_lt in Hlt'. congruence. }
        destruct (IH bm br) as (bm' & br' & -> & Hle & Hall & Hbest).
        exists bm', br'. split; [reflexivity|]. split; [exact Hle|].
        split; [constructor;
                [rewrite Hcr; intros r [= <-]; eapply Qle_trans; eassumption|exact Hall]|].
        destruct Hbest as [Heq|[Hin Hr]]; [now left|right]. split; [now right|exact Hr].
    + destruct (IH bm br) as (bm' & br' & -> & Hle & Hall & Hbest).
      exists bm', br'. split; [reflexivity|]. split; [exact Hle|].
      assert (Hnone : compared_title (Ok v) = None).
      { destruct v as [| | |s| |]; try reflexivity. cbn in Htr |- *.
        now destruct (String.eqb s ""). }
      split; [constructor;
              [unfold candidate_ratio; rewrite Hv, Hnone; discriminate|exact Hall]|].
      destruct Hbest as [Heq|[Hin Hr]]; [now left|right]. split; [now right|exact Hr].
Qed.

End ResolverSearch.

(** X12.  The resolver never invents a match.  Whatever the directory
    answers to the two searches and whatever the ratio function is,
    [search_podcast_combined] returns [None] or one of the candidates of the
    by-term answer or of the by-title answer, and that candidate is an object
    with a non-empty title that either equals the query after trimming and
    lowercasing or has a ratio to it of at least 0.90. *)
Theorem search_podcast_combined_sound (ratio : string -> string -> Q)
    (byterm bytitle : http_outcome) (query : string) :
  search_podcast_combined ratio byterm bytitle query = PNone
  \/ (search_podcast_combined ratio byterm bytitle query ∈ byterm_candidates byterm
      /\ acceptable ratio byterm_candidate_title query
           (search_podcast_combined ratio byterm bytitle query))
  \/ (search_podcast_combined ratio byterm bytitle query ∈ bytitle_candidates bytitle
      /\ acceptable ratio bytitle_candidate_title query
           (search_podcast_combined ratio byterm bytitle query)).
Proof.
  unfold search_podcast_combined, search_podcast_combined_path.
  destruct (truthy (search_byterm ratio byterm query)) eqn:Hterm; cbn [negb fst].
  - destruct (search_byterm_sound ratio byterm query) as [Hnone|Hok]; [now left|].
    right. now left.
  - rewrite search_bytitle_truthy.
    destruct (search_bytitle_sound ratio bytitle query) as [Hnone|Hok]; [now left|].
    right. now right.
Qed.

(** X13.  The resolver returns a best candidate.  When the by-term answer
    has no exact match, all its candidates can be scanned, and one of them
    reaches the threshold, [search_byterm] returns a candidate whose ratio to
    the query is the maximum over the answer, and the combined resolver
    returns it without consulting the by-title search. *)
Theorem search_byterm_returns_best_candidate (ratio : string -> string -> Q)
    (data : pyval) (query : string) (items : list pyval) (c : pyval) (r : Q) :
  byterm_results data = Ok (PList items) ->
  Forall (fun c => scannable (byterm_candidate_title c) = true
                   /\ is_exact_match query c = false) items ->
  c ∈ items ->
  candidate_ratio ratio query c = Some r ->
  (SEARCH_ACCEPTANCE_THRESHOLD <= r)%Q ->
  exists best best_ratio,
    search_byterm ratio (Body data) query = best
    /\ best ∈ items
    /\ candidate_ratio ratio query best = Some best_ratio
    /\ Forall (fun c' => forall r', candidate_ratio ratio query c' = Some r' ->
                                    (r' <= best_ratio)%Q) items
    /\ forall bytitle, search_podcast_combined ratio (Body data) bytitle query = best.
Proof.
  intros Hdata Hitems Hc Hr Hthreshold.
  destruct (search_byterm_loop_best ratio query items Hitems PNone 0%Q)
    as (bm & br & Hloop & _ & Hall & Hbest).
  assert (Hrbr : (r <= br)%Q).
  { rewrite Forall_forall in Hall. exact (Hall c Hc r Hr). }
  assert (Hbr : (SEARCH_ACCEPTANCE_THRESHOLD <= br)%Q) by (eapply Qle_trans; eassumption).
  destruct Hbest as [[= -> ->]|[Hin Hbm]].
  { exfalso. revert Hbr. apply Qlt_not_le. reflexivity. }
  assert (Htruthy : truthy bm = true).
  { unfold candidate_ratio in Hbm.
    destruct (compared_title (byterm_candidate_title bm)) as [s|] eqn:Hs; [|discriminate].
    exact (byterm_title_dict_nonempty bm s Hs). }
  assert (Hres : search_byterm ratio (Body data) query = bm).
  { unfold search_byterm, search_byterm_try. cbn [http_json bind]. rewrite Hdata.
    cbn [bind]. destruct items as [|c0 items]; [inversion Hc|].
    cbn [truthy py_iter bind]. rewrite Hloop. cbn [bind accept]. rewrite Htruthy.
    apply Qle_bool_iff in Hbr. now rewrite Hbr. }
  exists bm, br. split; [exact Hres|]. split; [exact Hin|]. split; [exact Hbm|].
  split; [exact Hall|].
  intros bytitle. unfold search_podcast_combined, search_podcast_combined_path.
  now rewrite Hres, Htruthy.
Qed.

Lemma search_byterm_returns_best_candidate_witness :
  let c1 := PDict [("id", PInt 1); ("title", PStr "The Daily Show")] in
  let c2 := PDict [("id", PInt 2); ("title", PStr "The Dailys")] in
  let data := PDict [("feeds", PList [c1; PDict [("id", PInt 9)]; c2])] in
  search_byterm sequence_matcher_ratio (Body data) "The Daily" = c2.
Proof.
  intros c1 c2 data.
  destruct (search_byterm_returns_best_candidate sequence_matcher_ratio data "The Daily"
              [c1; PDict [("id", PInt 9)]; c2] c2 (18 # 19))
    as (best & best_ratio & Hres & _).
  - reflexivity.
  - repeat constructor.
  - repeat constructor.
  - reflexivity.
  - vm_compute. discriminate.
  - vm_compute in Hres. subst best. reflexivity.
Defined.

(* ===================================================================== *)
(** * A whole run of the detail store writer *)
(* ===================================================================== *)

(** A property of the store that each of the four writing statements
    keeps is kept by a whole run, whatever the directory answers and whichever
    statements fail. *)
Section RunInvariant.

Variable ratio : string -> string -> Q.
Variable w : world.
Variable P : database -> Prop.

Hypothesis P_upsert : forall db params db',
  P db -> insert_or_replace_podcast db params = Ok db' -> P db'.
Hypothesis P_delete : forall db feed_id db',
  P db -> delete_links db feed_id = Ok db' -> P db'.
Hypothesis P_category : forall db cat_id cat_name db',
  P db -> insert_or_ignore_category db cat_id cat_name = Ok db' -> P db'.
Hypothesis P_link : forall db feed_id cat_id db',
  P db -> insert_or_ignore_link db feed_id cat_id = Ok db' -> P db'.

Lemma category_loop_inv (feed_id : pyval) (items : list (string * pyval)) :
  forall db errors log, P db -> P (category_loop w feed_id items db errors log).1.1.1.
Proof.
  induction items as [|[cat_id_str cat_name] items IH]; intros db errors log Hdb; [exact Hdb|].
  cbn [category_loop].
  destruct (negb (truthy (PStr cat_id_str)) || negb (truthy cat_name)); [now apply IH|].
  destruct (py_int cat_id_str) as [cat_id|]; [|now apply IH].
  destruct (execute w (InsertCategory cat_id cat_name) _) as [db1|e1] eqn:E1;
    [|destruct e1; solve [now apply IH | exact Hdb]].
  apply execute_ok in E1. pose proof (P_category _ _ _ _ Hdb E1) as Hdb1.
  destruct (execute w (InsertLink feed_id cat_id) _) as [db2|e2] eqn:E2;
    [|destruct e2; solve [now apply IH | exact Hdb1]].
  apply execute_ok in E2. apply IH. exact (P_link _ _ _ _ Hdb1 E2).
Qed.

Lemma write_categories_inv (feed_id categories_dict : pyval) (db : database)
    (errors : Z) (log : list write_event) :
  P db -> P (write_categories w feed_id categories_dict db errors log).1.1.1.
Proof.
  intros Hdb. unfold write_categories.
  destruct (execute w (DeleteLinks feed_id) _) as [db1|e] eqn:E; [|now destruct e].
  apply execute_ok in E. pose proof (P_delete _ _ _ Hdb E) as Hdb1.
  destruct categories_dict as [| | | | |[|item items]]; try exact Hdb1.
  now apply category_loop_inv.
Qed.

Lemma write_podcast_inv (r : run) (feed_id : pyval) (params : list pyval)
    (categories_dict : pyval) :
  P (committed (conn r)) -> P (working (conn r)) ->
  P (committed (conn (write_podcast w r feed_id params categories_dict).1))
  /\ P (working (conn (write_podcast w r feed_id params categories_dict).1)).
Proof.
  intros Hc Hw. unfold write_podcast.
  destruct (execute w (UpsertPodcast feed_id) _) as [db1|e] eqn:E1;
    [|destruct e; now split].
  apply execute_ok in E1. pose proof (P_upsert _ _ _ Hw E1) as Hdb1.
  pose proof (write_categories_inv feed_id categories_dict db1 (category_link_errors r)
                (log r) Hdb1) as Hdb2.
  destruct (write_categories w feed_id categories_dict db1 (category_link_errors r) (log r))
    as [[[db2 errors] log2] [e|]].
  - now split.
  - cbn [fst] in Hdb2. destruct (execute w Commit (Ok db2)); now split.
Qed.

Lemma process_titles_inv (titles : list sqlval) :
  forall r,
    P (committed (conn r)) -> P (working (conn r)) ->
    P (committed (conn (process_titles ratio w titles r).1)).
Proof.
  induction titles as [|title titles IH]; intros r Hc Hw; [exact Hc|].
  cbn [process_titles].
  destruct (title_details ratio w title) as [[[[feed_id params] categories_dict]|]|];
    [|now apply IH|exact Hc].
  destruct (write_podcast_inv r feed_id params categories_dict Hc Hw) as [Hc' Hw'].
  destruct (write_podcast w r feed_id params categories_dict) as [r' [e|]];
    [exact Hc'|now apply IH].
Qed.

Lemma update_all_podcast_details_inv (db : database) :
  P (recreated db) -> P (update_all_podcast_details ratio w db).1.1.
Proof.
  intros Hfresh. unfold update_all_podcast_details. fold (recreated db).
  destruct (chart_titles (Top100Lists (recreated db))) as [|title titles]; [exact Hfresh|].
  pose proof (process_titles_inv (title :: titles)
                {| conn := {| committed := recreated db; working := recreated db |};
                   update_errors := 0; category_link_errors := 0; log := [] |}
                Hfresh Hfresh) as H.
  destruct (process_titles _ _ _ _) as [r e]. exact H.
Qed.

End RunInvariant.

(** X14.  Referential integrity after every run: whatever the chart table
    holds, whatever the directory answers and whichever statements fail, in
    the store [update_all_podcast_details] leaves every row of
    [PodcastCategories] references an existing row of [Podcasts] and an
    existing row of [Categories]. *)
Theorem update_all_podcast_details_keeps_foreign_keys
    (ratio : string -> string -> Q) (w : world) (db : database) :
  fk_ok (update_all_podcast_details ratio w db).1.1.
Proof.
  apply update_all_podcast_details_inv.
  - intros d params d' Hd. unfold insert_or_replace_podcast.
    destruct (bind_params params) as [[|[| podcast_id |] cols]|]; cbn [bind]; try discriminate.
    intros [= <-] p c. cbn [PodcastCategories Podcasts Categories]. intros Hin.
    assert (Hold : (p, c) ∈ PodcastCategories d).
    { destruct (Podcasts d !! podcast_id); [|exact Hin].
      now apply elem_of_filter in Hin as [_ Hin]. }
    destruct (Hd p c Hold) as [Hp Hc]. split; [|exact Hc].
    destruct (decide (p = podcast_id)) as [->|Hne].
    + rewrite lookup_insert_eq. eauto.
    + now rewrite lookup_insert_ne.
  - intros d feed_id d' Hd. unfold delete_links.
    destruct (bind_param feed_id) as [[| podcast_id |]|]; cbn [bind]; try discriminate;
      try (now intros [= <-]).
    intros [= <-] p c. cbn [PodcastCategories Podcasts Categories]. intros Hin.
    apply elem_of_filter in Hin as [_ Hin]. exact (Hd p c Hin).
  - intros d cat_id cat_name d' Hd. unfold insert_or_ignore_category.
    destruct (bind_param (PInt cat_id)); cbn [bind]; [|discriminate].
    destruct (bind_param cat_name) as [name|]; cbn [bind]; [|discriminate].
    repeat case_bool_decide; intros [= <-]; try exact Hd.
    intros p c. cbn [PodcastCategories Podcasts Categories]. intros Hin.
    destruct (Hd p c Hin) as [Hp Hc]. split; [exact Hp|].
    destruct (decide (c = cat_id)) as [->|Hne].
    + rewrite lookup_insert_eq. eauto.
    + now rewrite lookup_insert_ne.
  - intros d feed_id cat_id d' Hd. unfold insert_or_ignore_link.
    destruct (bind_param feed_id) as [[| podcast_id |]|]; cbn [bind]; try discriminate;
      (destruct (bind_param (PInt cat_id)); cbn [bind]; [|discriminate]);
      try discriminate; try (now intros [= <-]).
    repeat case_bool_decide; try discriminate; intros [= <-]; try exact Hd.
    intros p c. cbn [PodcastCategories Podcasts Categories]. intros Hin.
    apply elem_of_union in Hin as [Hin|Hin]; [|exact (Hd p c Hin)].
    apply elem_of_singleton in Hin as [= -> ->]. tauto.
  - intros p c Hin. cbn in Hin. set_solver.
Qed.

(** X15.  A run of the writer never touches the chart table and never
    removes or renames a category: [Top100Lists] is as before, and every
    category stored before the run is stored after it under the same
    identifier and name. *)
Theorem update_all_podcast_details_keeps_charts_and_categories
    (ratio : string -> string -> Q) (w : world) (db : database) :
  Top100Lists (update_all_podcast_details ratio w db).1.1 = Top100Lists db
  /\ Categories db ⊆ Categories (update_all_podcast_details ratio w db).1.1.
Proof.
  apply (update_all_podcast_details_inv ratio w
           (fun d => Top100Lists d = Top100Lists db /\ Categories db ⊆ Categories d)).
  - intros d params d' Hd. unfold insert_or_replace_podcast.
    destruct (bind_params params) as [[|[| podcast_id |] cols]|]; cbn [bind]; try discriminate.
    now intros [= <-].
  - intros d feed_id d' Hd. unfold delete_links.
    destruct (bind_param feed_id) as [[| podcast_id |]|]; cbn [bind]; try discriminate;
      now intros [= <-].
  - intros d cat_id cat_name d' [Ht Hc]. unfold insert_or_ignore_category.
    destruct (bind_param (PInt cat_id)); cbn [bind]; [|discriminate].
    destruct (bind_param cat_name) as [name|]; cbn [bind]; [|discriminate].
    repeat case_bool_decide; intros [= <-]; try (split; assumption).
    cbn [Top100Lists Categories]. split; [exact Ht|].
    etrans; [exact Hc|]. apply insert_subseteq.
    destruct (Categories d !! cat_id) eqn:E; [|reflexivity]. exfalso. eauto.
  - intros d feed_id cat_id d' Hd. unfold insert_or_ignore_link.
    destruct (bind_param feed_id) as [[| podcast_id |]|]; cbn [bind]; try discriminate;
      (destruct (bind_param (PInt cat_id)); cbn [bind]; [|discriminate]);
      try discriminate; try (now intros [= <-]).
    repeat case_bool_decide; try discriminate; now intros [= <-].
  - split; reflexivity.
Qed.

(** X16.  A run of the writer keeps the constraints of [Categories]: when
    no stored name was null or stood for two identifiers before the run, none
    does after it. *)
Theorem update_all_podcast_details_keeps_names_unique
    (ratio : string -> string -> Q) (w : world) (db : database) :
  names_unique (Categories db) ->
  names_unique (Categories (update_all_podcast_details ratio w db).1.1).
Proof.
  intros Hdb.
  apply (update_all_podcast_details_inv ratio w (fun d => names_unique (Categories d)));
    [| | | |exact Hdb].
  - intros d params d' Hd. unfold insert_or_replace_podcast.
    destruct (bind_params params) as [[|[| podcast_id |] cols]|]; cbn [bind]; try discriminate.
    now intros [= <-].
  - intros d feed_id d' Hd. unfold delete_links.
    destruct (bind_param feed_id) as [[| podcast_id |]|]; cbn [bind]; try discriminate;
      now intros [= <-].
  - intros d cat_id cat_name d' Hd. unfold insert_or_ignore_category.
    destruct (bind_param (PInt cat_id)); cbn [bind]; [|discriminate].
    destruct (bind_param cat_name) as [name|]; cbn [bind]; [|discriminate].
    case_bool_decide as Hnull; [now intros [= <-]|].
    case_bool_decide as Hid; [now intros [= <-]|].
    case_bool_decide as Hname; [now intros [= <-]|].
    intros [= <-]. cbn [Categories]. intros i j n Hi Hj.
    assert (Hfresh : forall k, Categories d !! k = Some name -> False).
    { intros k Hk. apply Hname. unfold category_names.
      apply list_elem_of_fmap. exists (k, name). split; [reflexivity|].
      now apply elem_of_map_to_list. }
    destruct (decide (i = cat_id)) as [->|Hi'], (decide (j = cat_id)) as [->|Hj'].
    + rewrite lookup_insert_eq in Hi. injection Hi as <-. now split.
    + rewrite lookup_insert_eq in Hi. injection Hi as <-.
      rewrite lookup_insert_ne in Hj by congruence. destruct (Hfresh j Hj).
    + rewrite lookup_insert_eq in Hj. injection Hj as <-.
      rewrite lookup_insert_ne in Hi by congruence. destruct (Hfresh i Hi).
    + rewrite lookup_insert_ne in Hi, Hj by congruence. exact (Hd i j n Hi Hj).
  - intros d feed_id cat_id d' Hd. unfold insert_or_ignore_link.
    destruct (bind_param feed_id) as [[| podcast_id |]|]; cbn [bind]; try discriminate;
      (destruct (bind_param (PInt cat_id)); cbn [bind]; [|discriminate]);
      try discriminate; try (now intros [= <-]).
    repeat case_bool_decide; try discriminate; now intros [= <-].
Qed.

Lemma update_all_podcast_details_keeps_names_unique_witness :
  names_unique
    (Categories
       (update_all_podcast_details sequence_matcher_ratio example_directory example_store).1.1).
Proof.
  apply update_all_podcast_details_keeps_names_unique.
  intros i j name Hi Hj. cbn in Hi, Hj.
  apply lookup_singleton_Some in Hi as [<- <-]. apply lookup_singleton_Some in Hj as [<- _].
  split; [discriminate|reflexivity].
Defined.

Lemma search_byterm_no_answer (ratio : string -> string -> Q) (response : http_outcome)
    (query : string) :
  (forall data, response <> Body data) -> search_byterm ratio response query = PNone.
Proof.
  intros H. destruct response; try reflexivity. now destruct (H data).
Qed.

Lemma search_bytitle_no_answer (ratio : string -> string -> Q) (response : http_outcome)
    (query : string) :
  (forall data, response <> Body data) -> search_bytitle ratio response query = PNone.
Proof.
  intros H. destruct response; try reflexivity. now destruct (H data).
Qed.

(** X17.  A run while the directory cannot be reached empties the detail
    tables: the function drops [Podcasts] and [PodcastCategories] before it
    resolves anything, so when no search gets an answer the store it leaves
    has no podcast and no link, and both error counters are 0. *)
Theorem update_all_podcast_details_directory_down
    (ratio : string -> string -> Q) (w : world) (db : database) :
  directory_down w ->
  update_all_podcast_details ratio w db = (recreated db, 0, 0).
Proof.
  intros Hdown.
  assert (Hnone : forall title, title_details ratio w title = Ok None).
  { intros [| |query]; try reflexivity. unfold title_details.
    destruct (Hdown query) as [Hterm Htitle].
    unfold search_podcast_combined, search_podcast_combined_path.
    rewrite (search_byterm_no_answer ratio _ query Hterm).
    cbn [truthy negb]. rewrite (search_bytitle_no_answer ratio _ query Htitle).
    reflexivity. }
  assert (Hloop : forall titles r, process_titles ratio w titles r = (r, None)).
  { induction titles as [|title titles IH]; intros r; [reflexivity|].
    cbn [process_titles]. rewrite Hnone. apply IH. }
  unfold update_all_podcast_details. fold (recreated db).
  destruct (chart_titles (Top100Lists (recreated db))); [reflexivity|].
  now rewrite Hloop.
Qed.

Lemma update_all_podcast_details_directory_down_witness :
  update_all_podcast_details sequence_matcher_ratio sound_disk example_store
  = (recreated example_store, 0, 0).
Proof.
  apply update_all_podcast_details_directory_down.
  intros query. split; discriminate.
Defined.

Lemma process_titles_app (ratio : string -> string -> Q) (w : world)
    (pre post : list sqlval) :
  forall r r1,
    process_titles ratio w pre r = (r1, None) ->
    process_titles ratio w (pre ++ post) r = process_titles ratio w post r1.
Proof.
  induction pre as [|title pre IH]; intros r r1; [now intros [= <-]|].
  cbn [process_titles app].
  destruct (title_details ratio w title) as [[[[feed_id params] categories_dict]|]|];
    [|apply IH|discriminate].
  destruct (write_podcast w r feed_id params categories_dict) as [r' [e|]];
    [discriminate|apply IH].
Qed.

(** X18.  One malformed answer of the directory ends the whole run.  When
    the candidate resolved for a title has an identifier and the by-id answer
    carries a [feed] that is truthy but no object, or when the candidate has
    no identifier and its [url] is a number other than 0, the steps for that
    title raise outside every handler of the loop: the loop ends there with
    the exception, the titles after it are never processed, and the run is
    left as the titles before it made it. *)
Theorem malformed_details_end_the_run (ratio : string -> string -> Q) (w : world)
    (query : string) (c : list (string * pyval))
    (pre post : list sqlval) (r r1 : run) :
  search_podcast_combined ratio (search_byterm_response w query)
    (search_bytitle_response w query) query = PDict c ->
  (truthy (dict_get c "id") = true
   /\ truthy (get_full_podcast_details_by_feed_id w (dict_get c "id")) = true
   /\ is_dict (get_full_podcast_details_by_feed_id w (dict_get c "id")) = false)
  \/ (truthy (dict_get c "id") = false
      /\ exists n, n <> 0 /\ dict_get c "url" = PInt n) ->
  process_titles ratio w pre r = (r1, None) ->
  exists e, process_titles ratio w (pre ++ SText query :: post) r = (r1, Some e).
Proof.
  intros Hcandidate Hcause Hpre.
  rewrite (process_titles_app ratio w pre _ r r1 Hpre). cbn [process_titles].
  assert (Hraise : exists e, title_details ratio w (SText query) = Raise e).
  { unfold title_details. rewrite Hcandidate.
    assert (Hne : c <> []).
    { intros ->. destruct Hcause as [[H _]|[_ (n & _ & H)]]; discriminate H. }
    destruct c as [|kv c]; [contradiction|]. cbn [truthy negb py_get py_get_default bind].
    change (dict_get_default (kv :: c) "id" PNone) with (dict_get (kv :: c) "id").
    change (dict_get_default (kv :: c) "url" PNone) with (dict_get (kv :: c) "url").
    destruct Hcause as [(Hid & Htruthy & Hnodict)|(Hid & n & Hn & Hurl)].
    - rewrite Hid, Htruthy. cbn [negb bind].
      destruct (get_full_podcast_details_by_feed_id w (dict_get (kv :: c) "id"));
        try discriminate Hnodict; rewrite Htruthy;
        cbn [negb py_get py_get_default bind]; eauto.
    - rewrite Hid. cbn [truthy negb]. rewrite Hurl.
      assert (Ht : truthy (PInt n) = true).
      { cbn [truthy]. apply Z.eqb_neq in Hn. now rewrite Hn. }
      unfold py_or. rewrite Ht. cbv iota. rewrite Ht.
      cbn [get_full_podcast_details_by_feed_url bind]. eauto. }
  destruct Hraise as [e ->]. now exists e.
Qed.

Lemma malformed_details_end_the_run_witness :
  let w :=
    {| search_byterm_response := fun _ =>
         Body (PDict [("feeds", PList [PDict [("title", PStr "The Daily"); ("url", PInt 5)]])]);
       search_bytitle_response := fun _ => TimedOut;
       podcasts_byfeedid_response := fun _ => TimedOut;
       podcasts_byfeedurl_response := fun _ => TimedOut;
       episodes_byfeedid_response := fun _ => TimedOut;
       disk_fault := fun _ => false |} in
  exists e,
    process_titles sequence_matcher_ratio w
      ([] ++ SText "The Daily" :: [SText "Up First"]) fresh_run
    = (fresh_run, Some e).
Proof.
  intros w.
  apply (malformed_details_end_the_run sequence_matcher_ratio w "The Daily"
           [("title", PStr "The Daily"); ("url", PInt 5)]).
  - reflexivity.
  - right. split; [reflexivity|]. exists 5. split; [discriminate|reflexivity].
  - reflexivity.
Defined.

Section Counters.

Variable ratio : string -> string -> Q.
Variable w : world.

Lemma write_podcast_counters (r : run) (feed_id : pyval) (params : list pyval)
    (categories_dict : pyval) :
  counters_match_log r ->
  counters_match_log (write_podcast w r feed_id params categories_dict).1.
Proof.
  intros [Hu Hc]. unfold write_podcast, counters_match_log.
  destruct (execute w (UpsertPodcast feed_id) _) as [db1|e] eqn:E1.
  2:{ destruct (execute_raises w _ _ _ (insert_or_replace_podcast_raises _ _) E1)
        as [-> | ->]; cbn [fst update_errors category_link_errors log];
        rewrite ?count_events_app; count_singletons; split; lia. }
  destruct (write_categories_facts w feed_id categories_dict db1 (category_link_errors r)
              (log r)) as (_ & Hw1 & Hw2 & _ & _).
  destruct (write_categories w feed_id categories_dict db1 (category_link_errors r) (log r))
    as [[[db2 errors] log2] raised].
  cbn [fst snd] in Hw1, Hw2.
  destruct raised as [e|].
  - cbn [fst update_errors category_link_errors log]. split; lia.
  - destruct (execute w Commit (Ok db2)); cbn [fst update_errors category_link_errors log];
      rewrite !count_events_app; count_singletons; split; lia.
Qed.

End Counters.

(** X19.  The two counters of the last log line are the numbers of errors
    the run logged: from a run whose counters match its log, the loop over the
    titles ends with [update_errors] equal to the number of database errors
    logged for podcasts, and [category_link_errors] equal to the number of
    logged failures to delete links, to read a category identifier or to
    insert a category or a link. *)
Theorem process_titles_counters_match_log (ratio : string -> string -> Q) (w : world)
    (titles : list sqlval) (r : run) :
  counters_match_log r ->
  counters_match_log (process_titles ratio w titles r).1.
Proof.
  revert r. induction titles as [|title titles IH]; intros r Hr; [exact Hr|].
  cbn [process_titles].
  destruct (title_details ratio w title) as [[[[feed_id params] categories_dict]|]|];
    [|now apply IH|exact Hr].
  pose proof (write_podcast_counters w r feed_id params categories_dict Hr) as Hr'.
  destruct (write_podcast w r feed_id params categories_dict) as [r' [e|]];
    [exact Hr'|now apply IH].
Qed.

Lemma process_titles_counters_match_log_witness :
  counters_match_log
    (process_titles sequence_matcher_ratio example_directory
       [SText "The Daily"; SText "Up First"] fresh_run).1.
Proof.
  apply process_titles_counters_match_log. split; reflexivity.
Defined.

(* ===================================================================== *)
(** * More on the spreadsheet publisher *)
(* ===================================================================== *)

Lemma data_to_write_no_null (df : dataframe) : no_null (data_to_write df).
Proof.
  unfold data_to_write, no_null. constructor.
  - apply Forall_forall. intros v Hv. apply list_elem_of_In, in_map_iff in Hv as (s & <- & _).
    discriminate.
  - apply Forall_forall. intros row Hrow.
    apply list_elem_of_In, in_map_iff in Hrow as (row' & <- & _).
    apply Forall_forall. intros v Hv. apply list_elem_of_In, in_map_iff in Hv as (v' & <- & _).
    now destruct v'.
Qed.

(** What the body of the inner [try] does to a tab. *)
Lemma tab_try_lookup (w : sheet_world) (sheets : gmap string (list (list sqlval)))
    (query worksheet_name t : string) :
  (tab_try w sheets query worksheet_name).1 !! t = sheets !! t
  \/ (t = worksheet_name
      /\ ((tab_try w sheets query worksheet_name).1 !! t = Some []
          \/ exists df,
               read_sql_query w query = Ok df
               /\ (tab_try w sheets query worksheet_name).1 !! t = Some (data_to_write df))).
Proof.
  unfold tab_try.
  destruct (read_sql_query w query) as [df|]; [|now left].
  destruct (worksheet w worksheet_name) as [[]|e]; [|destruct e; now left].
  destruct (clear_raises w worksheet_name); [now left|].
  destruct (decide (t = worksheet_name)) as [->|Hne].
  - right. split; [reflexivity|].
    destruct (update_raises w worksheet_name); cbn [fst].
    + left. apply lookup_insert_eq.
    + right. exists df. split; [reflexivity|]. apply lookup_insert_eq.
  - left. destruct (update_raises w worksheet_name); cbn [fst];
      now rewrite !lookup_insert_ne by congruence.
Qed.

Lemma tab_after_step (w : sheet_world) (query worksheet_name : string)
    (rest : list (string * string)) (t : string)
    (before middle after : option (list (list sqlval))) :
  (middle = before
   \/ (t = worksheet_name
       /\ (middle = Some []
           \/ exists df, read_sql_query w query = Ok df /\ middle = Some (data_to_write df)))) ->
  tab_after w rest t middle after ->
  tab_after w ((query, worksheet_name) :: rest) t before after.
Proof.
  intros Hfirst [->|(Hin & Hlater)].
  - destruct Hfirst as [->|(-> & Hwritten)]; [now left|].
    right. split; [rewrite fmap_cons; left|].
    destruct Hwritten as [->|(df & Hdf & ->)]; [now left|].
    right. exists query, df. split; [left|]. split; [exact Hdf|].
    split; [reflexivity|apply data_to_write_no_null].
  - right. split; [rewrite fmap_cons; now right|].
    destruct Hlater as [->|(q & df & Hq & Hdf & -> & Hnn)]; [now left|].
    right. exists q, df. split; [now right|]. now split.
Qed.

Lemma tabs_loop_tab_after (w : sheet_world) (query_configs : list (string * string))
    (t : string) :
  forall sheets,
    tab_after w query_configs t (sheets !! t) ((tabs_loop w query_configs sheets).1.1 !! t).
Proof.
  induction query_configs as [|[query worksheet_name] rest IH]; intros sheets; [now left|].
  cbn [tabs_loop].
  pose proof (tab_try_lookup w sheets query worksheet_name t) as Hfirst.
  destruct (tab_try w sheets query worksheet_name) as [sheets' ended]. cbn [fst] in Hfirst.
  assert (Hgo : forall event,
            tab_after w ((query, worksheet_name) :: rest) t (sheets !! t)
              ((let '(sheets'', log, raised) := tabs_loop w rest sheets' in
                (sheets'', event :: log, raised)).1.1 !! t)).
  { intros event. specialize (IH sheets').
    destruct (tabs_loop w rest sheets') as [[sheets'' log] raised]. cbn [fst] in IH |- *.
    exact (tab_after_step w query worksheet_name rest t _ _ _ Hfirst IH). }
  assert (Hstop : tab_after w ((query, worksheet_name) :: rest) t (sheets !! t) (sheets' !! t)).
  { apply (tab_after_step w query worksheet_name rest t _ (sheets' !! t) _ Hfirst). now left. }
  destruct ended as [[|]|e]; try apply Hgo.
  destruct (tab_handlers worksheet_name e); [apply Hgo|exact Hstop].
Qed.

(** X20.  What the publisher can do to the spreadsheet.  Whatever fails
    and wherever the run ends, a tab that no configuration names holds after
    the run what it held before, and a configured tab holds what it held
    before, or nothing (it was cleared and its write failed), or the header
    row and the rows of a view configured for it, without any null cell. *)
Theorem publisher_tab_contents (w : sheet_world)
    (sheets : gmap string (list (list sqlval))) (query_configs : list (string * string))
    (worksheet_name : string) :
  tab_after w query_configs worksheet_name (sheets !! worksheet_name)
    ((update_multiple_google_sheets w sheets query_configs).1 !! worksheet_name)
  /\ (worksheet_name ∉ query_configs.*2 ->
      (update_multiple_google_sheets w sheets query_configs).1 !! worksheet_name
      = sheets !! worksheet_name).
Proof.
  assert (H : tab_after w query_configs worksheet_name (sheets !! worksheet_name)
                ((update_multiple_google_sheets w sheets query_configs).1 !! worksheet_name)).
  { unfold update_multiple_google_sheets. destruct (setup w); [|now left].
    pose proof (tabs_loop_tab_after w query_configs worksheet_name sheets) as Htabs.
    destruct (tabs_loop w query_configs sheets) as [[sheets' log] [e|]]; exact Htabs. }
  split; [exact H|].
  intros Hnot. destruct H as [H|[Hin _]]; [exact H|contradiction].
Qed.

Lemma tabs_loop_all_goes_well (w : sheet_world) (query_configs : list (string * string)) :
  (forall query worksheet_name,
     (query, worksheet_name) ∈ query_configs ->
     (exists df, read_sql_query w query = Ok df)
     /\ worksheet w worksheet_name = Ok ()
     /\ clear_raises w worksheet_name = None
     /\ update_raises w worksheet_name = None) ->
  NoDup query_configs.*2 ->
  forall sheets,
    (tabs_loop w query_configs sheets).1.2 = Updated <$> query_configs.*2
    /\ (tabs_loop w query_configs sheets).2 = None
    /\ forall query worksheet_name df,
         (query, worksheet_name) ∈ query_configs ->
         read_sql_query w query = Ok df ->
         (tabs_loop w query_configs sheets).1.1 !! worksheet_name = Some (data_to_write df).
Proof.
  induction query_configs as [|[query worksheet_name] rest IH]; intros Hwell Hnodup sheets.
  - split; [reflexivity|]. split; [reflexivity|]. intros q t df Hin. inversion Hin.
  - rewrite fmap_cons in Hnodup. apply NoDup_cons in Hnodup as [Hfresh Hnodup].
    destruct (Hwell query worksheet_name) as ((df0 & Hdf0) & Hws & Hclear & Hupdate); [left|].
    cbn [tabs_loop]. unfold tab_try. rewrite Hdf0, Hws, Hclear, Hupdate.
    set (sheets' := <[worksheet_name := data_to_write df0]> (<[worksheet_name := []]> sheets)).
    destruct (IH (fun q t H => Hwell q t (list_elem_of_further _ _ _ H)) Hnodup sheets')
      as (Hlog & Hraised & Htabs).
    pose proof (tabs_loop_tab_after w rest worksheet_name sheets') as Hframe.
    destruct (tabs_loop w rest sheets') as [[sheets'' log] raised].
    cbn [fst snd] in *. split; [now rewrite Hlog|]. split; [exact Hraised|].
    intros q t df Hin Hdf. apply elem_of_cons in Hin as [[= -> ->]|Hin].
    + destruct Hframe as [->|[Hin' _]]; [|contradiction].
      unfold sheets'. rewrite lookup_insert_eq. congruence.
    + exact (Htabs q t df Hin Hdf).
Qed.

(** X21.  When all goes well the spreadsheet shows the views.  If the
    setup succeeds, every configured view can be read, every configured tab
    exists, no clear or write fails and no tab is configured twice, then after
    the run every configured tab holds the header row and the rows of its
    view, nulls replaced by empty strings, and the log has one success line
    for each tab, in the order of the configuration. *)
Theorem publisher_writes_every_view (w : sheet_world)
    (sheets : gmap string (list (list sqlval))) (query_configs : list (string * string)) :
  all_goes_well w query_configs ->
  NoDup query_configs.*2 ->
  (update_multiple_google_sheets w sheets query_configs).2 = Updated <$> query_configs.*2
  /\ forall query worksheet_name df,
       (query, worksheet_name) ∈ query_configs ->
       read_sql_query w query = Ok df ->
       (update_multiple_google_sheets w sheets query_configs).1 !! worksheet_name
       = Some (map SText (columns df) :: map (map fillna) (values df)).
Proof.
  intros [Hsetup Hwell] Hnodup. unfold update_multiple_google_sheets. rewrite Hsetup.
  destruct (tabs_loop_all_goes_well w query_configs Hwell Hnodup sheets)
    as (Hlog & Hraised & Htabs).
  destruct (tabs_loop w query_configs sheets) as [[sheets' log] raised].
  cbn [fst snd] in *. subst raised. split; [exact Hlog|exact Htabs].
Qed.

Lemma publisher_writes_every_view_witness :
  let w :=
    {| setup := Ok ();
       read_sql_query := fun _ =>
         Ok {| columns := ["title"; "rank"]; values := [[SText "The Daily"; SNull]] |};
       worksheet := fun _ => Ok ();
       clear_raises := fun _ => None;
       update_raises := fun _ => None |} in
  (update_multiple_google_sheets w ∅ QUERY_CONFIGS).1 !! "NewEntries"
  = Some [[SText "title"; SText "rank"]; [SText "The Daily"; SText ""]].
Proof.
  intros w.
  destruct (publisher_writes_every_view w ∅ QUERY_CONFIGS) as [_ Htabs].
  - split; [reflexivity|]. intros query worksheet_name _.
    split; [eexists; reflexivity|]. now repeat split.
  - apply (bool_decide_unpack _). vm_compute. exact I.
  - apply (Htabs "SELECT * FROM vw_NewEntries" "NewEntries"
             {| columns := ["title"; "rank"]; values := [[SText "The Daily"; SNull]] |}).
    + unfold QUERY_CONFIGS. set_solver.
    + reflexivity.
Defined.

(* ===================================================================== *)
(** * More on the detail fetcher *)
(* ===================================================================== *)

Lemma counted_durations_sum (episodes : list pyval) :
  Z.of_nat (length (counted_durations episodes)) <= sum_Z (counted_durations episodes).
Proof.
  unfold counted_durations. induction episodes as [|e episodes IH]; [reflexivity|].
  cbn [omap list_omap]. destruct (counted_duration e) as [n|] eqn:Hn; [|exact IH].
  cbn [length sum_Z foldr]. fold (sum_Z (omap counted_duration episodes)).
  assert (0 < n); [|lia].
  unfold counted_duration in Hn. destruct e as [| | | | |d]; try discriminate.
  destruct (dict_get d "duration") as [|[|]|m| | |]; try discriminate.
  - injection Hn as <-. lia.
  - destruct (Z.ltb_spec 0 m); [|discriminate]. now injection Hn as <-.
Qed.

Lemma duration_loop_objects (episodes : list pyval) :
  Forall (fun e => is_dict e = true) episodes ->
  forall total count,
    duration_loop episodes total count
    = Ok (total + sum_Z (counted_durations episodes),
          count + Z.of_nat (length (counted_durations episodes))).
Proof.
  induction 1 as [|e episodes He _ IH]; intros total count.
  - cbn. do 2 f_equal; lia.
  - destruct e as [| | | | |d]; try discriminate.
    cbn [duration_loop py_get py_get_default bind].
    unfold counted_durations. cbn [omap list_omap counted_duration].
    fold (counted_durations episodes). unfold dict_get, dict_get_default.
    destruct (assoc "duration" d) as [[|[|]|n| | |]|]; try apply IH.
    + rewrite IH. cbn [sum_Z foldr length]. fold (sum_Z (counted_durations episodes)).
      do 2 f_equal; lia.
    + destruct (0 <? n); [|apply IH].
      rewrite IH. cbn [sum_Z foldr length]. fold (sum_Z (counted_durations episodes)).
      do 2 f_equal; lia.
Qed.

Lemma duration_loop_no_object (episodes : list pyval) :
  Exists (fun e => is_dict e = false) episodes ->
  forall total count, exists e, duration_loop episodes total count = Raise e.
Proof.
  induction 1 as [e episodes He|e episodes _ IH]; intros total count.
  - destruct e; try discriminate; cbn; eauto.
  - destruct e as [| | | | |d]; try (cbn; eauto; fail).
    cbn [duration_loop py_get py_get_default bind].
    destruct (dict_get_default d "duration" PNone) as [|[|]|n| | |]; try apply IH.
    destruct (0 <? n); apply IH.
Qed.

(** X22.  The statistics of the recent episodes are all or nothing.  When
    the answer of the episodes endpoint lists an item that is no object,
    [get_latest_episode_info] returns [(None, None)]: the title of the latest
    episode is lost as well, wherever the item stands.  When every item is an
    object and the durations the loop counts (the positive integers, and 1
    for a duration [True]) sum to less than 2^52, the latest title is the
    title of the first item, whether or not any episode has a duration that
    counts.  The bound keeps the floating-point division of line 310 from
    raising. *)
Theorem latest_episode_info_all_or_nothing (data : list (string * pyval))
    (episodes : list pyval) :
  dict_get_default data "items" (PList []) = PList episodes ->
  (Exists (fun e => is_dict e = false) episodes ->
   get_latest_episode_info (Body (PDict data)) = (PNone, PNone))
  /\ (Forall (fun e => is_dict e = true) episodes ->
      sum_Z (counted_durations episodes) < 2 ^ 52 ->
      forall d rest,
        episodes = PDict d :: rest ->
        (get_latest_episode_info (Body (PDict data))).2 = dict_get d "title").
Proof.
  intros Hitems. unfold get_latest_episode_info, get_latest_episode_info_try.
  cbn [http_json bind py_get_default]. rewrite Hitems. split.
  - intros Hbad. destruct episodes as [|first rest]; [inversion Hbad|].
    cbn [truthy negb py_index0 bind].
    destruct first as [| | | | |d]; try reflexivity.
    cbn [py_get py_get_default bind py_iter].
    destruct (duration_loop_no_object _ Hbad 0 0) as [e ->]. reflexivity.
  - intros Hall Hbound d rest Hepisodes.
    pose proof (counted_durations_sum episodes) as Hsum. subst episodes.
    cbn [truthy negb py_index0 bind py_get py_get_default py_iter].
    rewrite (duration_loop_objects _ Hall 0 0). cbn [bind]. rewrite !Z.add_0_l.
    destruct (Z.ltb_spec 0 (Z.of_nat (length (counted_durations (PDict d :: rest)))));
      [|reflexivity].
    now rewrite py_int_truediv_exact by lia.
Qed.

Lemma latest_episode_info_all_or_nothing_witness :
  get_latest_episode_info
    (Body (PDict [("items", PList [PDict [("title", PStr "Monday"); ("duration", PInt 600)];
                                   PStr "advertisement"])]))
  = (PNone, PNone)
  /\ (get_latest_episode_info
        (Body (PDict [("items", PList [PDict [("title", PStr "Monday")];
                                       PDict [("title", PStr "Friday")]])]))).2
     = PStr "Monday".
Proof.
  split.
  - apply (proj1 (latest_episode_info_all_or_nothing
             [("items", PList [PDict [("title", PStr "Monday"); ("duration", PInt 600)];
                               PStr "advertisement"])]
             [PDict [("title", PStr "Monday"); ("duration", PInt 600)]; PStr "advertisement"]
             eq_refl)).
    right. now left.
  - apply (proj2 (latest_episode_info_all_or_nothing
             [("items", PList [PDict [("title", PStr "Monday")]; PDict [("title", PStr "Friday")]])]
             [PDict [("title", PStr "Monday")]; PDict [("title", PStr "Friday")]]
             eq_refl) (ltac:(now repeat constructor)) eq_refl
             [("title", PStr "Monday")] [PDict [("title", PStr "Friday")]] eq_refl).
Defined.

(** Beyond the range of a float the division of line 310 raises
    [OverflowError], which the last handler catches: the title is lost with
    the average. *)
Example huge_duration_loses_the_title :
  get_latest_episode_info
    (Body (PDict [("items", PList [PDict [("title", PStr "Monday");
                                          ("duration", PInt (2 ^ 1024))]])]))
  = (PNone, PNone).
Proof. vm_compute. reflexivity. Qed.

(** X23.  The order of the two detail lookups.  When the candidate
    resolved for a title has an identifier and the by-id lookup returns
    details, the by-feed-url endpoint is not consulted: what the writer will
    store is the same whatever that endpoint would answer.  When the by-id
    lookup gives nothing (no identifier, or no details) and the candidate has
    neither a [url] nor an [originalUrl], the title is given up before any
    write. *)
Theorem details_lookup_order (ratio : string -> string -> Q) (w : world)
    (query : string) (c : list (string * pyval)) :
  search_podcast_combined ratio (search_byterm_response w query)
    (search_bytitle_response w query) query = PDict c ->
  (truthy (dict_get c "id") = true ->
   truthy (get_full_podcast_details_by_feed_id w (dict_get c "id")) = true ->
   forall byfeedurl,
     title_details ratio (with_byfeedurl w byfeedurl) (SText query)
     = title_details ratio w (SText query))
  /\ (truthy (dict_get c "id") = false
      \/ truthy (get_full_podcast_details_by_feed_id w (dict_get c "id")) = false ->
      truthy (py_or (dict_get c "url") (dict_get c "originalUrl")) = false ->
      title_details ratio w (SText query) = Ok None).
Proof.
  intros Hcandidate. split.
  - intros Hid Hdetails byfeedurl. unfold title_details.
    cbn [with_byfeedurl search_byterm_response search_bytitle_response
         episodes_byfeedid_response].
    rewrite Hcandidate. destruct (negb (truthy (PDict c))); [reflexivity|].
    cbn [py_get py_get_default bind].
    change (dict_get_default c "id" PNone) with (dict_get c "id").
    change (get_full_podcast_details_by_feed_id (with_byfeedurl w byfeedurl) (dict_get c "id"))
      with (get_full_podcast_details_by_feed_id w (dict_get c "id")).
    rewrite Hid, Hdetails. reflexivity.
  - intros Hnone Hurl. unfold title_details. rewrite Hcandidate.
    destruct (negb (truthy (PDict c))); [reflexivity|].
    cbn [py_get py_get_default bind].
    change (dict_get_default c "id" PNone) with (dict_get c "id").
    change (dict_get_default c "url" PNone) with (dict_get c "url").
    change (dict_get_default c "originalUrl" PNone) with (dict_get c "originalUrl").
    rewrite Hurl.
    assert (Hby : truthy (if truthy (dict_get c "id")
                          then get_full_podcast_details_by_feed_id w (dict_get c "id")
                          else PNone) = false).
    { destruct Hnone as [-> | Hd]; [reflexivity|]. now destruct (truthy (dict_get c "id")). }
    rewrite Hby. cbn [negb bind]. now rewrite Hby.
Qed.

Lemma details_lookup_order_witness :
  title_details sequence_matcher_ratio
    (with_byfeedurl example_directory (fun _ => Body (PDict [("feed", PStr "unexpected")])))
    (SText "Up First")
  = title_details sequence_matcher_ratio example_directory (SText "Up First").
Proof.
  apply (proj1 (details_lookup_order sequence_matcher_ratio example_directory "Up First"
                  [("id", PInt 2); ("title", PStr "up first ")] eq_refl));
    reflexivity.
Defined.
